(** * BI-Intelligence backend: the orchestration pipeline

    A shallow embedding of the services behind [processUserRequest]:

    - [src/services/mcpBridge.js]   (the orchestrator, [MCPBridge]),
    - [src/services/toolManager.js] (tool registry and dispatcher, [ToolManager]),
    - [src/services/mcpClient.js]   (capability-server client, [MCPClient]),
    - [src/services/modelManager.js] and [src/models/claude/claudeClient.js]
      (the model gateway),
    - [src/utils/helpers.js]        ([retryWithBackoff] and the text helpers),
    - [src/routes/chat.js] and [src/routes/models.js] (the handlers of
      [POST /message] and [POST /switch]).

    JavaScript objects with mutable fields become records threaded through a
    state-and-exception monad; [Map]s and plain objects used as dictionaries
    become [gmap]s; [async] functions become monadic computations (the program
    is single-threaded, an [await] is a sequencing point); [throw] and
    [try]/[catch] become [throw] and [try_catch].  An event handler that
    writes to an object, the ['exit'] handler of a spawned server process,
    is modelled where the process is started: it runs at the [await]s of
    [MCPServer].  The network, the
    file system, the model backends and the clock are oracles over an
    abstract [World]. JavaScript numbers are modelled as rationals. *)

From Stdlib Require Import ZArith QArith String Ascii List Bool Lia.
From stdpp Require Import base option list gmap strings pretty.

Set Warnings "-register-all".

Local Open Scope string_scope.
Local Open Scope list_scope.

(** ** JavaScript values and strings *)

(** JSON values, as produced by [JSON.parse] and carried in tool parameters
    and tool payloads. *)
Inductive Json : Type :=
  | JNull
  | JBool (b : bool)
  | JNum (q : Q)
  | JStr (s : string)
  | JArr (items : list Json)
  | JObj (fields : list (string * Json)).

(** JavaScript truthiness of a value (for [if (x)]). *)
Definition truthy (v : Json) : bool :=
  match v with
  | JNull => false
  | JBool b => b
  | JNum q => negb (Qeq_bool q 0)
  | JStr s => negb (bool_decide (s = EmptyString))
  | JArr _ | JObj _ => true
  end.

(** [s.includes(sub)] *)
Fixpoint includes (s sub : string) : bool :=
  String.prefix sub s ||
  match s with
  | EmptyString => false
  | String _ rest => includes rest sub
  end.

(** [s.split(sep)] for a one-character separator. *)
Fixpoint split_on (sep : ascii) (s : string) : list string :=
  match s with
  | EmptyString => [EmptyString]
  | String c rest =>
      if Ascii.eqb c sep then EmptyString :: split_on sep rest
      else match split_on sep rest with
           | [] => [String c EmptyString]
           | seg :: segs => String c seg :: segs
           end
  end.

(** [arr.join(sep)] on strings. *)
Fixpoint join (sep : string) (l : list string) : string :=
  match l with
  | [] => EmptyString
  | [x] => x
  | x :: rest => x +:+ sep +:+ join sep rest
  end.

(** [[...new Set(arr)]]: duplicates removed, first occurrences kept in
    insertion order. *)
Fixpoint set_spread_aux (seen : list string) (l : list string) : list string :=
  match l with
  | [] => []
  | x :: rest =>
      if bool_decide (x ∈ seen) then set_spread_aux seen rest
      else x :: set_spread_aux (x :: seen) rest
  end.

Definition set_spread (l : list string) : list string := set_spread_aux [] l.

(** The regular expression [/\{[\s\S]*\}/] of [selectTools] and
    [generateStructuredResponse]: the leftmost match starts at the first
    opening brace that has a closing brace after it, and the greedy star
    extends it to the last closing brace of the text. *)
Definition open_brace : ascii := "{"%char.
Definition close_brace : ascii := "}"%char.

(** The prefix of [s] up to and including its last closing brace. *)
Fixpoint through_last_close (s : string) : option string :=
  match s with
  | EmptyString => None
  | String c rest =>
      match through_last_close rest with
      | Some t => Some (String c t)
      | None => if Ascii.eqb c close_brace then Some (String c EmptyString) else None
      end
  end.

(** [text.match(/\{[\s\S]*\}/)]: [None] is JavaScript's [null], [Some m] is
    [jsonMatch[0]]. *)
Fixpoint match_json (s : string) : option string :=
  match s with
  | EmptyString => None
  | String c rest =>
      if Ascii.eqb c open_brace then
        match through_last_close rest with
        | Some t => Some (String c t)
        | None => None
        end
      else match_json rest
  end.

(** ** Errors and the state-and-exception monad *)

(** An HTTP response as axios resolves it. *)
Record HttpResponse : Type := mkResponse {
  status : Z;
  data : Json
}.

(** A thrown JavaScript error: [message], and for axios and Node errors the
    [code] (such as [ECONNREFUSED]) and the [response] of a rejected request. *)
Record JsError : Type := mkJsError {
  message : string;
  code : option string;
  response : option HttpResponse
}.

(** [new Error(msg)] *)
Definition Error (msg : string) : JsError :=
  {| message := msg; code := None; response := None |}.

Inductive outcome (A : Type) : Type :=
  | Ok (a : A)
  | Throw (e : JsError).
Arguments Ok {A} a.
Arguments Throw {A} e.

Module JS.
Section Monad.
Context {S : Type}.

(** A computation over the mutable state [S] that returns or throws; the
  state changes made before a [throw] stay, as in JavaScript. *)
Definition M (A : Type) : Type := S -> outcome A * S.

Definition ret {A} (a : A) : M A := fun s => (Ok a, s).

Definition throw {A} (e : JsError) : M A := fun s => (Throw e, s).

Definition bind {A B} (m : M A) (k : A -> M B) : M B :=
fun s =>
  match m s with
  | (Ok a, s') => k a s'
  | (Throw e, s') => (Throw e, s')
  end.

(** [try { m } catch (error) { h error }] *)
Definition try_catch {A} (m : M A) (h : JsError -> M A) : M A :=
fun s =>
  match m s with
  | (Ok a, s') => (Ok a, s')
  | (Throw e, s') => h e s'
  end.

Definition get : M S := fun s => (Ok s, s).

(** The completion of a call that touches no state. *)
Definition of_outcome {A} (o : outcome A) : M A := fun s => (o, s).
Definition modify (f : S -> S) : M unit := fun s => (Ok tt, f s).
End Monad.
End JS.

Import JS.

Notation "'do' x <- m ; k" := (bind m (fun x => k))
  (at level 10, x name, m at level 100, k at level 200, only parsing).
Notation "'run' m ; k" := (bind m (fun _ => k))
  (at level 10, m at level 100, k at level 200, only parsing).

(** ** Data model *)

(** An uploaded file as the services see it: [name], [type] (MIME type),
    [size], and the [path] that [executeMCPTool] adds. *)
Record FileRecord : Type := mkFile {
  f_name : string;
  f_type : string;
  f_size : Z;
  f_path : option string
}.

(** One entry of a tool's [parameters] in [tools.json]. *)
Record ParamSpec : Type := mkParamSpec {
  p_default : Json;
  p_min : option Q;
  p_max : option Q
}.

(** One entry of [available_tools] in [tools.json]. *)
Record ToolConfig : Type := mkToolConfig {
  t_id : string;
  t_name : string;
  t_description : string;
  t_endpoint : option string;
  t_input_types : list string;
  t_parameters : gmap string ParamSpec;
  t_source : string;
  t_server : option string
}.

(** What [getAvailableTools] returns for a tool. *)
Record ToolInfo : Type := mkToolInfo {
  i_id : string;
  i_name : string;
  i_description : string;
  i_input_types : list string;
  i_source : string;
  i_available : bool
}.

(** The plan object ([toolSelection]).  [execution_order] is [None] when the
    parsed object carries no such field. *)
Record ToolSelection : Type := mkToolSelection {
  selected_tools : list string;
  reasoning : string;
  file_requirements : list string;
  execution_order : option (list string);
  tool_parameters : gmap string (gmap string Json)
}.

(** The argument object of [toolManager.executeTool]. *)
Record ToolParameters : Type := mkToolParameters {
  files : list FileRecord;
  userRequest : string;
  parameters : option (gmap string Json)
}.

(** An element of [toolResults]. *)
Record ToolResult : Type := mkToolResult {
  toolId : string;
  success : bool;
  result : option Json;
  error : option string;
  executedAt : string
}.

(** A stored conversation turn. *)
Record Interaction : Type := mkInteraction {
  it_userMessage : string;
  it_toolsUsed : list string;
  it_toolResults : list ToolResult;
  it_response : string;
  it_timestamp : string
}.

(** What [processUserRequest] returns. *)
Record TurnResponse : Type := mkTurnResponse {
  r_response : string;
  r_toolsUsed : list string;
  r_confidence : Q;
  r_conversationId : string;
  r_error : option string
}.

(** The client classes of [modelManager.js]; only [ClaudeClient] has
    [orchestrateTools] and [synthesizeResponse]. *)
Inductive ClientKind : Type := QwenClient | OpenAIClient | ClaudeClient | DeepSeekClient.

Definition has_orchestrateTools (c : ClientKind) : bool :=
  match c with ClaudeClient => true | _ => false end.

Definition has_synthesizeResponse (c : ClientKind) : bool :=
  match c with ClaudeClient => true | _ => false end.

(** One entry of [available_models] in [models.json]. *)
Record ModelConfig : Type := mkModelConfig {
  m_id : string;
  m_name : string;
  m_type : string;
  m_default : bool
}.

(** The object built by [ModelManager.getModel]. *)
Record ModelHandle : Type := mkModelHandle {
  h_id : string;
  h_name : string;
  h_type : string;
  h_client : ClientKind;
  h_config : ModelConfig
}.

(** [arr.slice(-n)] *)
Definition slice_last {A} (n : nat) (l : list A) : list A :=
  drop (length l - n) l.

(** The texts sent to a model backend.  A prompt is determined by the
    template and the data substituted into it, which is what is recorded. *)
Inductive Prompt : Type :=
  | ToolSelectionPrompt (userMessage : string) (uploaded : list FileRecord)
      (activeTools : list ToolInfo)
  | ResponseSynthesisPrompt (userMessage : string) (successful : list ToolResult)
      (context : list Interaction)
  | OrchestratePrompt (userRequest : string) (activeTools : list ToolInfo)
      (uploaded : list FileRecord) (context : list Interaction)
  | ClaudeSynthesisPrompt (userRequest : string) (toolResults : list ToolResult)
      (context : list Interaction).

(** The body of an [axios.post]: a [FormData] of the platform, built by
    mcpClient.js with the text of the confidence as its field; a form of the
    [form-data] package, built by toolManager.js with the parameter values
    as they are; or a JSON object. *)
Inductive PostBody : Type :=
  | FormBody (fileParts : list string) (fields : list (string * Json))
  | PackageForm (fileParts : list string) (fields : list (string * Json))
  | JsonBody (tool_name : string) (arguments : gmap string Json).

(** What the request stream takes as the value of a field of a [form-data]
    form: a string, or a number, which [append] turns into a string.
    Another value is refused when the body is written, before the request is
    sent: for a boolean or an object, with the [TypeError]
    [unwritable_field].  The fields of the platform's [FormData] are texts
    already, and a JSON body is serialized. *)
Definition writable (v : Json) : bool :=
  match v with
  | JStr _ | JNum _ => true
  | _ => false
  end.

Definition body_writable (body : PostBody) : bool :=
  match body with
  | PackageForm _ fields => forallb (fun kv => writable (snd kv)) fields
  | FormBody _ _ | JsonBody _ _ => true
  end.

Definition unwritable_field : JsError :=
  {| message := "data should be a string, Buffer or Uint8Array"; code := None;
     response := None |}.

(** The host: network, file system, model backends, clock, and the host
    functions on text.  [JSON_parse] is [JSON.parse], [None] when it throws a
    [SyntaxError].  [confidenceMatch] is the regular expression
    [/confidence[:\s]*([0-9.]+)/i] followed by [parseFloat]. *)
Class Host (World : Type) : Type := {
  axios_post : string -> PostBody -> World -> outcome HttpResponse * World;
  fs_readFile : string -> World -> outcome unit * World;
  client_generateResponse : ClientKind -> Prompt -> World -> outcome string * World;
  Date_now : World -> string * World;
  JSON_parse : string -> option Json;
  JSON_stringify : Json -> string;
  confidenceMatch : string -> option Json
}.

(** ** [MCPClient] (mcpClient.js) *)

Module MCPClient.

(** The fields of an [MCPClient] object that the tool path reads or
    writes; [name] is [serverConfig.name]. *)
Record t : Type := mk {
  name : string;
  apiEndpoint : string;
  isConnected : bool;
  isInitialized : bool
}.

Definition set_isConnected (b : bool) (c : t) : t :=
  {| name := name c; apiEndpoint := apiEndpoint c;
     isConnected := b; isInitialized := isInitialized c |}.

(** [convertParametersForMCP(toolId, parameters)]: the object [mcpParams]. *)
Definition convertParametersForMCP (toolId : string) (params : ToolParameters)
  : gmap string Json :=
  let mcpParams : gmap string Json := ∅ in
  let mcpParams :=
    match List.find (fun f => bool_decide (f_type f = "application/pdf")) (files params) with
    | Some pdfFile =>
        match f_path pdfFile with
        | Some p => <["pdf_path" := JStr p]> mcpParams
        | None => mcpParams
        end
    | None => mcpParams
    end in
  match parameters params ≫= (fun ps => ps !! "confidence") with
  | Some c => <["confidence" := c]> mcpParams
  | None => <["confidence" := JNum (2 # 10)]> mcpParams
  end.

(** [toolEndpointMap[toolId]] *)
Definition toolEndpointMap (toolId : string) : option string :=
  if bool_decide (toolId = "extract_figures_from_pdf") then Some "/extract-figures"
  else if bool_decide (toolId = "extract_tables_from_pdf") then Some "/extract-tables"
  else if bool_decide (toolId = "extract_text_from_pdf") then Some "/extract-text"
  else if bool_decide (toolId = "extract_formulas_from_pdf") then Some "/extract-formulas"
  else if bool_decide (toolId = "get_pdf_document_stats") then Some "/get-document-stats"
  else if bool_decide (toolId = "analyze_pdf_layout") then Some "/analyze-layout"
  else if bool_decide (toolId = "extract_all_from_pdf") then Some "/extract-all"
  else None.

Section Methods.
Context {World : Type} `{Host World}.

(** The methods run on [this] and the world. *)
Abbreviation St := (t * World)%type.

Definition post (url : string) (body : PostBody) : M (S := St) HttpResponse :=
  fun '(c, w) => let '(o, w') := axios_post url body w in (o, (c, w')).

Definition readFileSync (path : string) : M (S := St) unit :=
  fun '(c, w) => let '(o, w') := fs_readFile path w in (o, (c, w')).

(** The call of the generic protocol endpoint [/mcp/call-tool]. *)
Definition call_tool (this : t) (toolId : string) (mcpParams : gmap string Json)
  : M (S := St) HttpResponse :=
  post (apiEndpoint this +:+ "/mcp/call-tool") (JsonBody toolId mcpParams).

(** The attempt on the tool's own endpoint: the multipart form with the
    PDF and the confidence, then the POST. *)
Definition call_specific (this : t) (specificEndpoint : string)
    (mcpParams : gmap string Json) : M (S := St) HttpResponse :=
  let endpoint := apiEndpoint this +:+ specificEndpoint in
  do fileParts <-
    match mcpParams !! "pdf_path" with
    | Some (JStr p) =>
        if truthy (JStr p) then (run readFileSync p; ret ["document.pdf"])
        else ret []
    | _ => ret []
    end;
  let fields :=
    match mcpParams !! "confidence" with
    | Some cf => if truthy cf then [("confidence", cf)] else []
    | None => []
    end in
  post endpoint (FormBody fileParts fields).

(** The [catch] block of [executeTool]. *)
Definition classify (toolId : string) (error : JsError) : M (S := St) Json :=
  do st <- get;
  if bool_decide (code error = Some "ECONNREFUSED") then
    run modify (fun '(c, w) => (set_isConnected false c, w));
    throw (Error ("MCP server " +:+ name (fst st) +:+ " is not accessible"))
  else if bool_decide (code error = Some "ETIMEDOUT") then
    throw (Error ("MCP tool " +:+ toolId +:+ " execution timed out"))
  else throw error.

(** [async executeTool(toolId, parameters)] *)
Definition executeTool (toolId : string) (params : ToolParameters) : M (S := St) Json :=
  try_catch
    (do st <- get;
     let this := fst st in
     if negb (isConnected this) then
       throw (Error ("MCP server " +:+ name this +:+ " is not connected"))
     else
       let mcpParams := convertParametersForMCP toolId params in
       do response <-
         match toolEndpointMap toolId with
         | Some specificEndpoint =>
             try_catch (call_specific this specificEndpoint mcpParams)
               (fun specificError =>
                  try_catch (call_tool this toolId mcpParams)
                    (fun mcpError => throw specificError))
         | None => call_tool this toolId mcpParams
         end;
       if negb (status response =? 200)%Z then
         throw (Error ("MCP tool execution failed with status: "
                       +:+ pretty (status response)))
       else ret (data response))
    (classify toolId).
End Methods.
End MCPClient.

(** ** [ToolManager] (toolManager.js) *)

Module ToolManager.

Record t : Type := mk {
  availableTools : list ToolConfig;
  mcpClients : gmap string MCPClient.t;
  dockerEndpoint : option string
}.

Definition set_client (serverName : string) (c : MCPClient.t) (tm : t) : t :=
  {| availableTools := availableTools tm;
     mcpClients := <[serverName := c]> (mcpClients tm);
     dockerEndpoint := dockerEndpoint tm |}.

(** [tool.server || 'document_analysis'] *)
Definition server_of (tool : ToolConfig) : string :=
  match t_server tool with
  | Some s => if bool_decide (s = EmptyString) then "document_analysis" else s
  | None => "document_analysis"
  end.

(** [getToolConfig(toolId)]; [None] is [undefined]. *)
Definition getToolConfig (tm : t) (toolId : string) : option ToolConfig :=
  List.find (fun tool => bool_decide (t_id tool = toolId)) (availableTools tm).

(** [isToolAvailable(tool)], as a truth value. *)
Definition isToolAvailable (tm : t) (tool : ToolConfig) : bool :=
  if bool_decide (t_source tool = "mcp") then
    match mcpClients tm !! server_of tool with
    | Some mcpClient => MCPClient.isConnected mcpClient
    | None => false
    end
  else if bool_decide (t_source tool = "docker") then
    bool_decide (dockerEndpoint tm ≠ None)
  else false.

(** [getAvailableTools()] *)
Definition getAvailableTools (tm : t) : list ToolInfo :=
  List.map (fun tool =>
    {| i_id := t_id tool; i_name := t_name tool;
       i_description := t_description tool;
       i_input_types := t_input_types tool;
       i_source := t_source tool;
       i_available := isToolAvailable tm tool |}) (availableTools tm).

(** [path.join(__dirname, '../../uploads', file.name)] *)
Definition uploads_path (fileName : string) : string := "uploads/" +:+ fileName.

Section Methods.
Context {World : Type} `{Host World}.

Abbreviation St := (t * World)%type.

(** A method call on the client object stored under [serverName]: the
    object is shared, so what the call writes to it is stored back. *)
Definition with_client {A} (serverName : string) (c : MCPClient.t)
    (m : M (S := MCPClient.t * World) A) : M (S := St) A :=
  fun '(tm, w) =>
    let '(o, (c', w')) := m (c, w) in (o, (set_client serverName c' tm, w')).

Definition post (url : string) (body : PostBody) : M (S := St) HttpResponse :=
  fun '(tm, w) => let '(o, w') := axios_post url body w in (o, (tm, w')).

Definition readFile (path : string) : M (S := St) unit :=
  fun '(tm, w) => let '(o, w') := fs_readFile path w in (o, (tm, w')).

(** The loop over [parameters.files] of [executeDockerTool]. *)
Fixpoint append_files (fs : list FileRecord) : M (S := St) (list string) :=
  match fs with
  | [] => ret []
  | file :: rest =>
      run try_catch (readFile (uploads_path (f_name file)))
            (fun fileError =>
               throw (Error ("File " +:+ f_name file +:+ " not found or not readable")));
      do parts <- append_files rest;
      ret (f_name file :: parts)
  end.

(** [async executeMCPTool(toolConfig, parameters)] *)
Definition executeMCPTool (toolConfig : ToolConfig) (params : ToolParameters)
  : M (S := St) Json :=
  try_catch
    (let serverName := server_of toolConfig in
     do st <- get;
     match mcpClients (fst st) !! serverName with
     | None => throw (Error ("MCP client " +:+ serverName +:+ " not available"))
     | Some mcpClient =>
         let params :=
           {| files := List.map (fun file =>
                {| f_name := f_name file; f_type := f_type file;
                   f_size := f_size file;
                   f_path := Some (uploads_path (f_name file)) |}) (files params);
              userRequest := userRequest params;
              parameters := parameters params |} in
         with_client serverName mcpClient
           (MCPClient.executeTool (t_id toolConfig) params)
     end)
    (fun error => throw error).

(** [async executeDockerTool(toolConfig, parameters)] *)
Definition executeDockerTool (toolConfig : ToolConfig) (params : ToolParameters)
  : M (S := St) Json :=
  try_catch
    (do st <- get;
     match dockerEndpoint (fst st) with
     | None => throw (Error "Docker endpoint not configured")
     | Some base =>
         if bool_decide (base = EmptyString) then throw (Error "Docker endpoint not configured")
         else
           let endpoint := base +:+ default "undefined" (t_endpoint toolConfig) in
           do fileParts <- append_files (files params);
           let fields :=
             match parameters params with
             | Some ps => map_to_list ps
             | None => []
             end in
           do response <- post endpoint (PackageForm fileParts fields);
           ret (data response)
     end)
    (fun error => throw error).

(** [async executeTool(toolId, parameters)] *)
Definition executeTool (toolId : string) (params : ToolParameters) : M (S := St) Json :=
  try_catch
    (do st <- get;
     match getToolConfig (fst st) toolId with
     | None => throw (Error ("Tool " +:+ toolId +:+ " not found"))
     | Some toolConfig =>
         if bool_decide (t_source toolConfig = "mcp") then
           executeMCPTool toolConfig params
         else if bool_decide (t_source toolConfig = "docker") then
           executeDockerTool toolConfig params
         else throw (Error ("Unknown tool source: " +:+ t_source toolConfig))
     end)
    (fun error => throw error).
End Methods.
End ToolManager.

(** ** [ModelManager] (modelManager.js) *)

Module ModelManager.

Record t : Type := mk {
  availableModels : list ModelConfig;
  modelClients : gmap string ClientKind;
  currentModel : option ModelHandle
}.

(** [async getModel(modelId)]; it reads the manager and touches nothing
    else.  The [TypeError] is the one of [config.name] on [undefined]. *)
Definition getModel (mm : t) (modelId : string) : outcome ModelHandle :=
  match modelClients mm !! modelId with
  | None => Throw (Error ("Model " +:+ modelId +:+ " not available"))
  | Some client =>
      match List.find (fun m => bool_decide (m_id m = modelId)) (availableModels mm) with
      | None => Throw (Error "Cannot read properties of undefined (reading 'name')")
      | Some config =>
          Ok {| h_id := modelId; h_name := m_name config; h_type := m_type config;
                h_client := client; h_config := config |}
      end
  end.
End ModelManager.

(** ** [retryWithBackoff] (helpers.js) *)

Module Helpers.
Section Retry.
Context {S A : Type}.
Variable delay : Z -> M (S := S) unit.
Variable fn : M (S := S) A.

(** The [for] loop of [retryWithBackoff] from index [i], with [remaining]
  iterations left; [None] is the [undefined] of falling out of the loop. *)
Fixpoint retry_from (maxRetries : nat) (baseDelay : Z) (remaining i : nat)
: M (S := S) (option A) :=
match remaining with
| O => ret None
| Datatypes.S remaining' =>
    try_catch (do a <- fn; ret (Some a))
      (fun error =>
         if (i =? maxRetries - 1)%nat then throw error
         else
           run delay (baseDelay * 2 ^ Z.of_nat i)%Z;
           retry_from maxRetries baseDelay remaining' (Datatypes.S i))
end.

(** [retryWithBackoff(fn, maxRetries = 3, baseDelay = 1000)] *)
Definition retryWithBackoff (maxRetries : nat) (baseDelay : Z) : M (S := S) (option A) :=
retry_from maxRetries baseDelay maxRetries 0.
End Retry.
End Helpers.

(** ** [MCPBridge] (mcpBridge.js) *)

(** [obj[k]] on a parsed JSON value; duplicate keys: the last one wins. *)
Definition field (k : string) (v : Json) : option Json :=
  match v with
  | JObj fs => snd <$> List.find (fun kv => bool_decide (fst kv = k)) (rev fs)
  | _ => None
  end.

(** An array of tool ids.  [selected_tools] is only ever read through the
    validating [filter], which drops what is not the id of a tool, so its
    elements that are not strings are dropped here. *)
Definition as_ids (v : Json) : option (list string) :=
  match v with
  | JArr items =>
      Some (omap (fun x => match x with JStr s => Some s | _ => None end) items)
  | _ => None
  end.

Definition as_strings (v : Json) : option (list string) :=
  match v with
  | JArr items =>
      mapM (fun x => match x with JStr s => Some s | _ => None end) items
  | _ => None
  end.

Definition as_object (v : Json) : gmap string Json :=
  match v with
  | JObj fs => list_to_map (rev fs)
  | _ => ∅
  end.

(** Reading a parsed plan through its fields, for plans of the shape
    [{selected_tools: [string], reasoning: string, execution_order: [string],
    tool_parameters: {[toolId]: {[param]: any}}, file_requirements}];
    [None] when [selected_tools] is not an array, where [.filter] throws a
    [TypeError].  An [execution_order] that is absent or [null] is read as
    absent; one that is present with another type than an array of strings is
    outside this model and read as absent too. *)
Definition plan_of (v : Json) : option ToolSelection :=
  match field "selected_tools" v ≫= as_ids with
  | None => None
  | Some sel =>
      Some {| selected_tools := sel;
              reasoning := match field "reasoning" v with Some (JStr s) => s | _ => EmptyString end;
              file_requirements := default [] (field "file_requirements" v ≫= as_strings);
              execution_order := field "execution_order" v ≫= as_strings;
              tool_parameters :=
                match field "tool_parameters" v with
                | Some o => as_object <$> as_object o
                | None => ∅
                end |}
  end.

Module MCPBridge.

Record t : Type := mk {
  currentModel : option ModelHandle;
  isInitialized : bool;
  activeConversations : gmap string (list Interaction)
}.

Definition set_currentModel (m : ModelHandle) (b : t) : t :=
  {| currentModel := Some m; isInitialized := isInitialized b;
     activeConversations := activeConversations b |}.

(** The bridge with the two singletons it requires and the world. *)
Record Sys (World : Type) : Type := mkSys {
  bridge : t;
  toolManager : ToolManager.t;
  modelManager : ModelManager.t;
  world : World
}.
Arguments mkSys {World}.
Arguments bridge {World}.
Arguments toolManager {World}.
Arguments modelManager {World}.
Arguments world {World}.

(** [fallbackToolSelection(uploadedFiles)] *)
Definition fallback_tool (file : FileRecord) : list string :=
  let type := f_type file in
  if includes type "pdf" then ["extract_all_from_pdf"]
  else if includes type "excel" || includes type "spreadsheet" then ["excel_processor"]
  else if includes type "image" then ["image_analyzer"]
  else if includes type "text" || includes type "word" then ["text_processor"]
  else if includes type "video" then ["video_processor"]
  else if includes type "audio" then ["audio_processor"]
  else [].

Definition fallbackToolSelection (uploadedFiles : list FileRecord) : ToolSelection :=
  let tools := List.concat (List.map fallback_tool uploadedFiles) in
  {| selected_tools := set_spread tools;
     reasoning := "Automatic tool selection based on file types";
     file_requirements := List.map f_name uploadedFiles;
     execution_order := Some (set_spread tools);
     tool_parameters := ∅ |}.

(** The validation step of [selectTools] and [selectToolsWithClaude]:
    [toolSelection.selected_tools = toolSelection.selected_tools.filter(...)]. *)
Definition validate (activeTools : list ToolInfo) (toolSelection : ToolSelection)
  : ToolSelection :=
  {| selected_tools :=
       List.filter (fun toolId =>
         existsb (fun t => bool_decide (i_id t = toolId)) activeTools)
         (selected_tools toolSelection);
     reasoning := reasoning toolSelection;
     file_requirements := file_requirements toolSelection;
     execution_order := execution_order toolSelection;
     tool_parameters := tool_parameters toolSelection |}.

(** [filterFilesForTool(toolId, uploadedFiles)]; [type.split('/')[1]] is
    [undefined] for a type without a slash, and [includes(undefined)]
    searches for the text [undefined]. *)
Definition filterFilesForTool (tm : ToolManager.t) (toolId : string)
    (uploadedFiles : list FileRecord) : list FileRecord :=
  match ToolManager.getToolConfig tm toolId with
  | None => uploadedFiles
  | Some toolConfig =>
      List.filter (fun file =>
        existsb (fun type =>
          bool_decide (f_type file = type) ||
          includes (f_type file) (default "undefined" (split_on "/"%char type !! 1%nat)))
          (t_input_types toolConfig)) uploadedFiles
  end.

(** [calculateConfidence(toolResults)] *)
Definition calculateConfidence (toolResults : list ToolResult) : Q :=
  let successfulTools := length (List.filter success toolResults) in
  let totalTools := length toolResults in
  if (totalTools =? 0)%nat then 5 # 10
  else inject_Z (Z.of_nat successfulTools) / inject_Z (Z.of_nat totalTools).

(** [updateConversationContext(conversationId, interaction)] *)
Definition updateConversationContext (conversationId : string)
    (interaction : Interaction) (b : t) : t :=
  let conversations :=
    match activeConversations b !! conversationId with
    | Some _ => activeConversations b
    | None => <[conversationId := []]> (activeConversations b)
    end in
  let context := default [] (conversations !! conversationId) in
  let context := context ++ [interaction] in
  let context :=
    if (20 <? length context)%nat then drop (length context - 20) context
    else context in
  {| currentModel := currentModel b; isInitialized := isInitialized b;
     activeConversations := <[conversationId := context]> conversations |}.

(** [getConversationContext(conversationId)] *)
Definition getConversationContext (b : t) (conversationId : string) : list Interaction :=
  default [] (activeConversations b !! conversationId).

(** [generateFallbackResponse(toolResults)], given [JSON.stringify].  For a
    succeeded result without [result], [JSON.stringify(undefined)] is
    [undefined], and reading its [substring] throws a [TypeError]. *)
Definition generateFallbackResponse (stringify : Json -> string)
    (toolResults : list ToolResult) : outcome string :=
  let successfulResults := List.filter success toolResults in
  let failedResults := List.filter (fun r => negb (success r)) toolResults in
  if (length successfulResults =? 0)%nat then
    if (0 <? length failedResults)%nat then
      let errors :=
        join (String "010"%char EmptyString)
          (List.map (fun r => toolId r +:+ ": " +:+ default "undefined" (error r))
             failedResults) in
      Ok ("I encountered the following errors while processing your request:"
          +:+ String "010"%char (String "010"%char EmptyString) +:+ errors
          +:+ String "010"%char (String "010"%char EmptyString)
          +:+ "Please check your files and system configuration.")
    else
      Ok "I apologize, but I couldn't process your request. Please ensure your files are valid and the system is properly configured."
  else
    let body :=
      List.fold_left (fun acc r =>
        match acc with
        | Throw e => Throw e
        | Ok response =>
            match result r with
            | None =>
                Throw (Error "Cannot read properties of undefined (reading 'substring')")
            | Some payload =>
                let preview := String.substring 0 200 (stringify payload) in
                Ok (response +:+ "**" +:+ toolId r +:+ "**: " +:+ preview
                    +:+ (if (String.length preview =? 200)%nat then "..." else EmptyString)
                    +:+ String "010"%char (String "010"%char EmptyString))
            end
        end)
        successfulResults
        (Ok ("I've analyzed your files. Here's what I found:"
             +:+ String "010"%char (String "010"%char EmptyString))) in
    match body with
    | Throw e => Throw e
    | Ok response =>
        if (0 <? length failedResults)%nat then
          Ok (response +:+ String "010"%char EmptyString
              +:+ "Note: Some tools encountered errors: "
              +:+ join ", " (List.map toolId failedResults))
        else Ok response
    end.

Section Methods.
Context {World : Type} `{Host World}.

Abbreviation St := (Sys World).

(** A call into the [toolManager] singleton. *)
Definition in_toolManager {A} (m : M (S := ToolManager.t * World) A) : M (S := St) A :=
  fun s =>
    let '(o, (tm', w')) := m (toolManager s, world s) in
    (o, {| bridge := bridge s; toolManager := tm';
           modelManager := modelManager s; world := w' |}).

(** A call of a model client's [generateResponse]. *)
Definition generateResponse (client : ClientKind) (prompt : Prompt) : M (S := St) string :=
  fun s =>
    let '(o, w') := client_generateResponse client prompt (world s) in
    (o, {| bridge := bridge s; toolManager := toolManager s;
           modelManager := modelManager s; world := w' |}).

(** [new Date().toISOString()] *)
Definition now : M (S := St) string :=
  fun s =>
    let '(ts, w') := Date_now (world s) in
    (Ok ts, {| bridge := bridge s; toolManager := toolManager s;
               modelManager := modelManager s; world := w' |}).

(** [this.currentModel], where reading a property of [null] throws. *)
Definition this_currentModel : M (S := St) ModelHandle :=
  do s <- get;
  match currentModel (bridge s) with
  | Some model => ret model
  | None => throw (Error "Cannot read properties of null")
  end.

(** [ClaudeClient.generateStructuredResponse(prompt, systemPrompt, 'json')] *)
Definition generateStructuredResponse (prompt : Prompt) : M (S := St) Json :=
  try_catch
    (do response <- generateResponse ClaudeClient prompt;
     match JSON_parse response with
     | Some v => ret v
     | None =>
         match match_json response with
         | Some jsonMatch =>
             match JSON_parse jsonMatch with
             | Some v => ret v
             | None => throw (Error "Claude response is not valid JSON")
             end
         | None => throw (Error "No valid JSON found in Claude response")
         end
     end)
    (fun error => throw error).

(** [ClaudeClient.orchestrateTools(...)] *)
Definition orchestrateTools (userRequest : string) (activeTools : list ToolInfo)
    (uploadedFiles : list FileRecord) (context : list Interaction) : M (S := St) Json :=
  try_catch
    (generateStructuredResponse
       (OrchestratePrompt userRequest activeTools uploadedFiles (slice_last 3 context)))
    (fun error => throw error).

(** [async switchModel(modelId)] *)
Definition switchModel (modelId : string) : M (S := St) bool :=
  try_catch
    (do s <- get;
     do model <- (fun s' => (ModelManager.getModel (modelManager s) modelId, s'));
     run modify (fun s' =>
       {| bridge := set_currentModel model (bridge s'); toolManager := toolManager s';
          modelManager := modelManager s'; world := world s' |});
     ret true)
    (fun error => throw error).

(** [async selectToolsWithClaude(userMessage, uploadedFiles, context)] *)
Definition selectToolsWithClaude (userMessage : string)
    (uploadedFiles : list FileRecord) (context : list Interaction)
  : M (S := St) ToolSelection :=
  try_catch
    (do s <- get;
     let availableTools := ToolManager.getAvailableTools (toolManager s) in
     let activeTools := List.filter i_available availableTools in
     if (length activeTools =? 0)%nat then
       ret {| selected_tools := [];
              reasoning := "No tools are currently available";
              file_requirements := [];
              execution_order := Some [];
              tool_parameters := ∅ |}
     else
       do toolSelection <- orchestrateTools userMessage activeTools uploadedFiles context;
       match plan_of toolSelection with
       | Some plan => ret (validate activeTools plan)
       | None => throw (Error "Cannot read properties of undefined (reading 'filter')")
       end)
    (fun error => ret (fallbackToolSelection uploadedFiles)).

(** The inner [try] of [selectTools]: the regular expression first, then
    [JSON.parse] of the match, or of the whole text when nothing matches.
    [None] stands for the [catch (parseError)] branch. *)
Definition parse_selection (modelResponse : string) : option Json :=
  match match_json modelResponse with
  | Some jsonMatch => JSON_parse jsonMatch
  | None => JSON_parse modelResponse
  end.

(** [async selectTools(userMessage, uploadedFiles, context)] *)
Definition selectTools (userMessage : string)
    (uploadedFiles : list FileRecord) (context : list Interaction)
  : M (S := St) ToolSelection :=
  try_catch
    (do s <- get;
     let availableTools := ToolManager.getAvailableTools (toolManager s) in
     let activeTools := List.filter i_available availableTools in
     if (length activeTools =? 0)%nat then
       ret (fallbackToolSelection uploadedFiles)
     else
       do model <- this_currentModel;
       do modelResponse <-
         generateResponse (h_client model)
           (ToolSelectionPrompt userMessage uploadedFiles activeTools);
       match parse_selection modelResponse with
       | None => ret (fallbackToolSelection uploadedFiles)
       | Some toolSelection =>
           match plan_of toolSelection with
           | Some plan => ret (validate activeTools plan)
           | None => throw (Error "Cannot read properties of undefined (reading 'filter')")
           end
       end)
    (fun error => ret (fallbackToolSelection uploadedFiles)).

(** [getToolParameters(toolId, userMessage, toolSelection)] *)
Definition getToolParameters (tm : ToolManager.t) (toolId userMessage : string)
    (toolSelection : ToolSelection) : gmap string Json :=
  let params : gmap string Json :=
    match ToolManager.getToolConfig tm toolId with
    | Some toolConfig => p_default <$> t_parameters toolConfig
    | None => ∅
    end in
  let params :=
    match tool_parameters toolSelection !! toolId with
    | Some overrides => overrides ∪ params
    | None => params
    end in
  match confidenceMatch userMessage with
  | Some c => <["confidence" := c]> params
  | None => params
  end.

(** [executionOrder = toolSelection.execution_order || toolSelection.selected_tools];
    an array is truthy, also when it is empty. *)
Definition executionOrder (toolSelection : ToolSelection) : list string :=
  match execution_order toolSelection with
  | Some order => order
  | None => selected_tools toolSelection
  end.

(** The object [parameters] built in the loop of [executeTools]. *)
Definition tool_arguments (tm : ToolManager.t) (toolSelection : ToolSelection)
    (uploadedFiles : list FileRecord) (userMessage toolId : string) : ToolParameters :=
  let relevantFiles := filterFilesForTool tm toolId uploadedFiles in
  {| files := relevantFiles;
     userRequest := userMessage;
     parameters := Some (getToolParameters tm toolId userMessage toolSelection) |}.

(** One iteration of the loop of [executeTools]: the [try] block ends in
    the push of a success record, the [catch] block in the push of a
    failure record. *)
Definition execute_one (toolSelection : ToolSelection)
    (uploadedFiles : list FileRecord) (userMessage toolId : string)
  : M (S := St) ToolResult :=
  try_catch
    (do s <- get;
     let params :=
       tool_arguments (toolManager s) toolSelection uploadedFiles userMessage toolId in
     do result <- in_toolManager (ToolManager.executeTool toolId params);
     do executedAt <- now;
     ret {| toolId := toolId; success := true; result := Some result;
            error := None; executedAt := executedAt |})
    (fun err =>
       do executedAt <- now;
       ret {| toolId := toolId; success := false; result := None;
              error := Some (message err); executedAt := executedAt |}).

(** The [for (const toolId of executionOrder)] loop, with [toolResults]
    as the accumulator. *)
Fixpoint execute_loop (toolSelection : ToolSelection)
    (uploadedFiles : list FileRecord) (userMessage : string)
    (order : list string) (toolResults : list ToolResult)
  : M (S := St) (list ToolResult) :=
  match order with
  | [] => ret toolResults
  | toolId :: rest =>
      do r <- execute_one toolSelection uploadedFiles userMessage toolId;
      execute_loop toolSelection uploadedFiles userMessage rest (toolResults ++ [r])
  end.

(** [async executeTools(toolSelection, uploadedFiles, userMessage)] *)
Definition executeTools (toolSelection : ToolSelection)
    (uploadedFiles : list FileRecord) (userMessage : string)
  : M (S := St) (list ToolResult) :=
  let toolResults : list ToolResult := [] in
  let order := executionOrder toolSelection in
  if (length order =? 0)%nat then ret toolResults
  else execute_loop toolSelection uploadedFiles userMessage order toolResults.
(** [async synthesizeResponse(userMessage, toolResults, context)] *)
Definition synthesizeResponse (userMessage : string) (toolResults : list ToolResult)
    (context : list Interaction) : M (S := St) string :=
  try_catch
    (let successfulResults := List.filter success toolResults in
     let failedResults := List.filter (fun r => negb (success r)) toolResults in
     if (length successfulResults =? 0)%nat then
       if (0 <? length failedResults)%nat then
         let errorMessages :=
           join "; "
             (List.map (fun r => toolId r +:+ ": " +:+ default "undefined" (error r))
                failedResults) in
         ret ("I encountered errors while processing your request: " +:+ errorMessages
              +:+ ". Please check your files and try again.")
       else
         ret "I apologize, but I couldn't process your request. No tools were successfully executed."
     else
       do model <- this_currentModel;
       generateResponse (h_client model)
         (ResponseSynthesisPrompt userMessage successfulResults (slice_last 3 context)))
    (fun err => of_outcome (generateFallbackResponse JSON_stringify toolResults)).

(** [async synthesizeResponseWithClaude(userMessage, toolResults, context)];
    the call is [ClaudeClient.synthesizeResponse]. *)
Definition synthesizeResponseWithClaude (userMessage : string)
    (toolResults : list ToolResult) (context : list Interaction) : M (S := St) string :=
  try_catch
    (try_catch
       (generateResponse ClaudeClient
          (ClaudeSynthesisPrompt userMessage toolResults (slice_last 3 context)))
       (fun err => throw err))
    (fun err => synthesizeResponse userMessage toolResults context).

(** The [catch] block of [processUserRequest]. *)
Definition error_response (conversationId : string) (err : JsError) : TurnResponse :=
  {| r_response :=
       "I encountered an error while processing your request: " +:+ message err
       +:+ ". Please check that your files are valid and the system is properly configured.";
     r_toolsUsed := [];
     r_confidence := 0;
     r_conversationId := conversationId;
     r_error := Some (message err) |}.

(** [async processUserRequest(conversationId, userMessage, uploadedFiles = [])] *)
Definition processUserRequest (conversationId userMessage : string)
    (uploadedFiles : list FileRecord) : M (S := St) TurnResponse :=
  try_catch
    (do s <- get;
     if negb (isInitialized (bridge s)) then throw (Error "MCP Bridge not initialized")
     else
       match currentModel (bridge s) with
       | None => throw (Error "No model available")
       | Some model =>
           let context := getConversationContext (bridge s) conversationId in
           do toolSelection <-
             (if bool_decide (h_id model = "claude-3-sonnet")
                 && has_orchestrateTools (h_client model)
              then selectToolsWithClaude userMessage uploadedFiles context
              else selectTools userMessage uploadedFiles context);
           do toolResults <- executeTools toolSelection uploadedFiles userMessage;
           do response <-
             (if bool_decide (h_id model = "claude-3-sonnet")
                 && has_synthesizeResponse (h_client model)
              then synthesizeResponseWithClaude userMessage toolResults context
              else synthesizeResponse userMessage toolResults context);
           do timestamp <- now;
           run modify (fun s' =>
             {| bridge :=
                  updateConversationContext conversationId
                    {| it_userMessage := userMessage;
                       it_toolsUsed := selected_tools toolSelection;
                       it_toolResults := toolResults;
                       it_response := response;
                       it_timestamp := timestamp |} (bridge s');
                toolManager := toolManager s';
                modelManager := modelManager s'; world := world s' |});
           ret {| r_response := response;
                  r_toolsUsed := selected_tools toolSelection;
                  r_confidence := calculateConfidence toolResults;
                  r_conversationId := conversationId;
                  r_error := None |}
       end)
    (fun err => ret (error_response conversationId err)).
End Methods.
End MCPBridge.

(** ** Concrete configurations and a scripted host

    Entries of [tools.json] and [models.json], and a host whose network
    answers are read from a script, used to run the pipeline on concrete
    inputs. *)

Module Fixture.

Definition confidence_spec : ParamSpec :=
  {| p_default := JNum (2 # 10); p_min := Some (1 # 10); p_max := Some (9 # 10) |}.

(** The [pdf_analyzer] entry (source [docker]). *)
Definition pdf_analyzer : ToolConfig :=
  {| t_id := "pdf_analyzer"; t_name := "PDF Analyzer";
     t_description := "Extract and analyze content from PDF documents";
     t_endpoint := Some "/tools/pdf/analyze";
     t_input_types := ["application/pdf"];
     t_parameters :=
       {[ "extract_images" := {| p_default := JBool false; p_min := None; p_max := None |};
          "extract_tables" := {| p_default := JBool true; p_min := None; p_max := None |};
          "language" := {| p_default := JStr "auto"; p_min := None; p_max := None |} ]};
     t_source := "docker"; t_server := None |}.

(** The [extract_all_from_pdf] entry (source [mcp]). *)
Definition extract_all_from_pdf : ToolConfig :=
  {| t_id := "extract_all_from_pdf"; t_name := "Complete PDF Extractor";
     t_description :=
       "Extract all elements (figures, tables, text, formulas) from PDF documents";
     t_endpoint := None;
     t_input_types := ["application/pdf"];
     t_parameters := {[ "confidence" := confidence_spec ]};
     t_source := "mcp"; t_server := Some "document_analysis" |}.

Definition document_analysis : MCPClient.t :=
  {| MCPClient.name := "Document Layout Analysis";
     MCPClient.apiEndpoint := "http://192.168.1.29:8000";
     MCPClient.isConnected := true;
     MCPClient.isInitialized := true |}.

(** A tool manager with the container configured and the capability server
    connected. *)
Definition tools : ToolManager.t :=
  {| ToolManager.availableTools := [pdf_analyzer; extract_all_from_pdf];
     ToolManager.mcpClients := {[ "document_analysis" := document_analysis ]};
     ToolManager.dockerEndpoint := Some "http://localhost:8080" |}.

(** The same with no capability-server client (its initialization failed). *)
Definition tools_without_server : ToolManager.t :=
  {| ToolManager.availableTools := [pdf_analyzer; extract_all_from_pdf];
     ToolManager.mcpClients := ∅;
     ToolManager.dockerEndpoint := Some "http://localhost:8080" |}.

Definition claude_3_sonnet : ModelConfig :=
  {| m_id := "claude-3-sonnet"; m_name := "Claude 3 Sonnet"; m_type := "api";
     m_default := true |}.

Definition gpt_4o : ModelConfig :=
  {| m_id := "gpt-4o"; m_name := "GPT-4o"; m_type := "api"; m_default := false |}.

Definition deepseek_coder : ModelConfig :=
  {| m_id := "deepseek-coder"; m_name := "DeepSeek Coder"; m_type := "api";
     m_default := false |}.

(** The model manager after [initializeModelClients]: the [switch] has no
    case for the id [gpt-4o], so that model has no client. *)
Definition models : ModelManager.t :=
  {| ModelManager.availableModels := [claude_3_sonnet; gpt_4o; deepseek_coder];
     ModelManager.modelClients :=
       {[ "claude-3-sonnet" := ClaudeClient; "deepseek-coder" := DeepSeekClient ]};
     ModelManager.currentModel := None |}.

Definition deepseek_handle : ModelHandle :=
  {| h_id := "deepseek-coder"; h_name := "DeepSeek Coder"; h_type := "api";
     h_client := DeepSeekClient; h_config := deepseek_coder |}.

Definition fresh_bridge : MCPBridge.t :=
  {| MCPBridge.currentModel := Some deepseek_handle;
     MCPBridge.isInitialized := true;
     MCPBridge.activeConversations := ∅ |}.

(** A double quote, and a quoted JSON string. *)
Definition dq : string := String "034"%char EmptyString.
Definition quoted (s : string) : string := dq +:+ s +:+ dq.

(** The plan text
    [{ selected_tools: [pdf_analyzer], execution_order: [ghost_tool, pdf_analyzer] }]
    in JSON syntax, and the value [JSON.parse] gives for it. *)
Definition plan_members : string :=
  quoted "selected_tools" +:+ ":[" +:+ quoted "pdf_analyzer" +:+ "],"
  +:+ quoted "execution_order" +:+ ":[" +:+ quoted "ghost_tool" +:+ ","
  +:+ quoted "pdf_analyzer" +:+ "]".

Definition plan_text : string :=
  String "{"%char (plan_members +:+ String "}"%char EmptyString).

Definition plan_json : Json :=
  JObj [("selected_tools", JArr [JStr "pdf_analyzer"]);
        ("execution_order", JArr [JStr "ghost_tool"; JStr "pdf_analyzer"])].

(** The same plan with [tool_parameters] for [pdf_analyzer] that give texts
    in place of the boolean defaults of the catalogue. *)
Definition typed_members : string :=
  plan_members +:+ "," +:+ quoted "tool_parameters" +:+ ":{" +:+ quoted "pdf_analyzer"
  +:+ ":{" +:+ quoted "extract_images" +:+ ":" +:+ quoted "false" +:+ ","
  +:+ quoted "extract_tables" +:+ ":" +:+ quoted "true" +:+ "}}".

Definition typed_text : string :=
  String "{"%char (typed_members +:+ String "}"%char EmptyString).

Definition typed_json : Json :=
  JObj [("selected_tools", JArr [JStr "pdf_analyzer"]);
        ("execution_order", JArr [JStr "ghost_tool"; JStr "pdf_analyzer"]);
        ("tool_parameters",
         JObj [("pdf_analyzer",
                JObj [("extract_images", JStr "false"); ("extract_tables", JStr "true")])])].

(** The world of the scripted host: the answers the network will give to the
    coming POST requests, the URLs posted so far, and the text the model
    backend answers with ([None]: the backend fails).  A multipart body with
    a field that is not [writable] is refused with [unwritable_field] and
    nothing is posted ([form-data] rejects an array, and in some versions
    [null], earlier and with an error of its own, which this host does not
    tell apart). *)
Record Script : Type := mkScript {
  answers : list (outcome HttpResponse);
  posted : list string;
  model_text : option string
}.

Definition refused : JsError :=
  {| message := "connect ECONNREFUSED"; code := Some "ECONNREFUSED"; response := None |}.

Definition server_error : JsError :=
  {| message := "Request failed with status code 500"; code := Some "ERR_BAD_RESPONSE";
     response := Some {| status := 500; data := JNull |} |}.

Definition ok_response : HttpResponse := {| status := 200; data := JStr "done" |}.

#[export] Instance script_host : Host Script := {
  axios_post url body w :=
    if negb (body_writable body) then (Throw unwritable_field, w)
    else
    match answers w with
    | a :: rest =>
        (a, {| answers := rest; posted := posted w ++ [url]; model_text := model_text w |})
    | [] =>
        (Throw refused,
         {| answers := []; posted := posted w ++ [url]; model_text := model_text w |})
    end;
  fs_readFile path w := (Ok tt, w);
  client_generateResponse client prompt w :=
    match model_text w with
    | Some text => (Ok text, w)
    | None => (Throw (Error "API key not set"), w)
    end;
  Date_now w := ("2024-01-01T00:00:00.000Z", w);
  JSON_parse text :=
    if bool_decide (text = plan_text) then Some plan_json
    else if bool_decide (text = typed_text) then Some typed_json
    else None;
  JSON_stringify v := "{}";
  confidenceMatch text := None
}.

Definition system (tm : ToolManager.t) (w : Script) : MCPBridge.Sys Script :=
  {| MCPBridge.bridge := fresh_bridge; MCPBridge.toolManager := tm;
     MCPBridge.modelManager := models; MCPBridge.world := w |}.

Definition pdf_file : FileRecord :=
  {| f_name := "report.pdf"; f_type := "application/pdf"; f_size := 1024; f_path := None |}.

(** A model answer that wraps the plan in prose. *)
Definition wrapped_answer : string := "Here is the plan: " +:+ plan_text +:+ " thanks".

(** The model answers with the wrapped plan; the container would answer
    200. *)
Definition world_plan : Script :=
  {| answers := [Ok ok_response]; posted := []; model_text := Some wrapped_answer |}.

(** The model answers with the plan that carries parameters, wrapped in
    prose; the container answers 200. *)
Definition typed_answer : string := "Here is the plan: " +:+ typed_text +:+ " thanks".

Definition world_typed : Script :=
  {| answers := [Ok ok_response]; posted := []; model_text := Some typed_answer |}.

(** The container fails twice, then answers 200. *)
Definition world_flaky : Script :=
  {| answers := [Throw server_error; Throw server_error; Ok ok_response];
     posted := []; model_text := None |}.

(** No model answer and no network answer. *)
Definition world_down : Script :=
  {| answers := []; posted := []; model_text := None |}.

(** The tool's own endpoint rejects the request; the protocol endpoint
    resolves with status 204. *)
Definition world_204 : Script :=
  {| answers := [Throw server_error; Ok {| status := 204; data := JNull |}];
     posted := []; model_text := None |}.

(** The parameters a plan gives for [pdf_analyzer]: texts in place of the
    boolean defaults of the catalogue, which the request stream refuses. *)
Definition pdf_overrides : gmap string Json :=
  {[ "extract_images" := JStr "false"; "extract_tables" := JStr "true" ]}.

(** A plan for the container tool alone. *)
Definition pdf_plan : ToolSelection :=
  {| selected_tools := ["pdf_analyzer"]; reasoning := "one tool";
     file_requirements := []; execution_order := Some ["pdf_analyzer"];
     tool_parameters := {[ "pdf_analyzer" := pdf_overrides ]} |}.

(** The same plan without parameters: the defaults of the catalogue are
    sent. *)
Definition default_plan : ToolSelection :=
  {| selected_tools := ["pdf_analyzer"]; reasoning := "one tool";
     file_requirements := []; execution_order := Some ["pdf_analyzer"];
     tool_parameters := ∅ |}.

Definition stored_pdf : FileRecord :=
  {| f_name := "report.pdf"; f_type := "application/pdf"; f_size := 1024;
     f_path := Some "uploads/report.pdf" |}.

(** An invocation whose merged parameters carry the confidence 5. *)
Definition confidence_five : ToolParameters :=
  {| files := [stored_pdf]; userRequest := "confidence: 5";
     parameters := Some {[ "confidence" := JNum 5 ]} |}.

Definition no_overrides : ToolParameters :=
  {| files := [stored_pdf]; userRequest := "analyze"; parameters := Some ∅ |}.

(** [world_flaky] after one request to the container. *)
Definition flaky_after_one : Script :=
  {| answers := [Throw server_error; Ok ok_response];
     posted := ["http://localhost:8080/tools/pdf/analyze"]; model_text := None |}.

(** Both candidate endpoints reject the request. *)
Definition world_both_fail : Script :=
  {| answers := [Throw server_error; Throw refused]; posted := []; model_text := None |}.

Definition both_failed : Script :=
  {| answers := [];
     posted := ["http://192.168.1.29:8000/extract-all";
                "http://192.168.1.29:8000/mcp/call-tool"];
     model_text := None |}.

(** One succeeded and one failed result. *)
Definition two_results : list ToolResult :=
  [ {| toolId := "pdf_analyzer"; success := true; result := Some (JStr "done");
       error := None; executedAt := "2024-01-01T00:00:00.000Z" |};
    {| toolId := "extract_all_from_pdf"; success := false; result := None;
       error := Some "MCP client document_analysis not available";
       executedAt := "2024-01-01T00:00:00.000Z" |} ].

(** A request through the scripted network, as a function to retry. *)
Definition flaky_call : M (S := Script) HttpResponse :=
  fun w => axios_post "http://localhost:8080/tools/pdf/analyze" (PackageForm [] []) w.

Definition no_delay (ms : Z) : M (S := Script) unit := ret tt.

End Fixture.

(** ** Vocabulary of the specification *)

(** The number of results that succeeded, counted one result at a time. *)
Fixpoint successCount (toolResults : list ToolResult) : nat :=
  match toolResults with
  | [] => 0
  | r :: rest => if success r then Datatypes.S (successCount rest) else successCount rest
  end.

(** The bridge as its constructor leaves it. *)
Definition new_bridge : MCPBridge.t :=
  {| MCPBridge.currentModel := None; MCPBridge.isInitialized := false;
     MCPBridge.activeConversations := ∅ |}.

(** A sequence of appended turns, each for some conversation id. *)
Definition append_turns (turns : list (string * Interaction)) (b : MCPBridge.t) : MCPBridge.t :=
  List.fold_left (fun b turn => MCPBridge.updateConversationContext (fst turn) (snd turn) b)
    turns b.

(** The turns appended for one conversation id, oldest first. *)
Definition turns_of (conversationId : string) (turns : list (string * Interaction))
  : list Interaction :=
  List.map snd (List.filter (fun turn => bool_decide (fst turn = conversationId)) turns).

(** A text without braces. *)
Fixpoint brace_free (s : string) : bool :=
  match s with
  | EmptyString => true
  | String c rest =>
      negb (Ascii.eqb c open_brace) && negb (Ascii.eqb c close_brace) && brace_free rest
  end.

(** The text of a JSON object: an opening brace, the members, a closing
    brace. *)
Definition object_text (members : string) : string :=
  String open_brace (members +:+ String close_brace EmptyString).

(** The parameter translation as the specification words it: the first file
    whose type is one of the tool's declared input types, and a confidence
    that defaults to 0.2 and is clamped to the declared bounds. *)
Definition clamp (lo hi : option Q) (q : Q) : Q :=
  let q := match lo with Some l => if Qle_bool q l then l else q | None => q end in
  match hi with Some h => if Qle_bool h q then h else q | None => q end.

Definition spec_translate (tool : ToolConfig) (params : ToolParameters) : gmap string Json :=
  let primary :=
    List.find (fun f => existsb (fun type => bool_decide (f_type f = type)) (t_input_types tool))
      (files params) in
  let given :=
    match parameters params ≫= (fun ps => ps !! "confidence") with
    | Some (JNum q) => q
    | _ => 2 # 10
    end in
  let bounded :=
    match t_parameters tool !! "confidence" with
    | Some spec => clamp (p_min spec) (p_max spec) given
    | None => given
    end in
  let out : gmap string Json := {[ "confidence" := JNum bounded ]} in
  match primary ≫= f_path with
  | Some p => <["pdf_path" := JStr p]> out
  | None => out
  end.

(** How [MCPClient.executeTool] ends once a request has resolved with the
    response [r]: the payload for status 200, the status error otherwise. *)
Definition finish {World : Type} `{Host World} (toolId : string) (r : HttpResponse)
  : M (S := MCPClient.t * World) Json :=
  if (status r =? 200)%Z then ret (data r)
  else MCPClient.classify toolId
         (Error ("MCP tool execution failed with status: " +:+ pretty (status r))).

(** The record pushed for a tool id after its single dispatch. *)
Definition record_of (toolId : string) (o : outcome Json) (executedAt : string) : ToolResult :=
  match o with
  | Ok payload =>
      {| toolId := toolId; success := true; result := Some payload;
         error := None; executedAt := executedAt |}
  | Throw e =>
      {| toolId := toolId; success := false; result := None;
         error := Some (message e); executedAt := executedAt |}
  end.

(** The single dispatch of a tool id: one call of [toolManager.executeTool]
    with the arguments built for the id in the state at hand. *)
Definition dispatch {World : Type} `{Host World} (toolSelection : ToolSelection)
    (uploadedFiles : list FileRecord) (userMessage toolId : string)
  : M (S := MCPBridge.Sys World) Json :=
  fun s =>
    MCPBridge.in_toolManager
      (ToolManager.executeTool toolId
         (MCPBridge.tool_arguments (MCPBridge.toolManager s) toolSelection uploadedFiles
            userMessage toolId)) s.

(** The state after a reading of the clock. *)
Definition after_clock {World : Type} `{Host World} (s : MCPBridge.Sys World)
  : MCPBridge.Sys World :=
  {| MCPBridge.bridge := MCPBridge.bridge s;
     MCPBridge.toolManager := MCPBridge.toolManager s;
     MCPBridge.modelManager := MCPBridge.modelManager s;
     MCPBridge.world := snd (Date_now (MCPBridge.world s)) |}.

(** The run in which each tool id of [order] is dispatched exactly once, one
    after the other, whatever the earlier dispatches did: the outcome of the
    single dispatch, a payload or an error, is recorded with the time read
    after it, and the next id is dispatched in the state this leaves. *)
Fixpoint dispatch_each {World : Type} `{Host World} (toolSelection : ToolSelection)
    (uploadedFiles : list FileRecord) (userMessage : string) (order : list string)
    (s : MCPBridge.Sys World) : list ToolResult * MCPBridge.Sys World :=
  match order with
  | [] => ([], s)
  | toolId :: rest =>
      let '(o, s1) := dispatch toolSelection uploadedFiles userMessage toolId s in
      let '(results, s2) :=
        dispatch_each toolSelection uploadedFiles userMessage rest (after_clock s1) in
      (record_of toolId o (fst (Date_now (MCPBridge.world s1))) :: results, s2)
  end.

(** A succeeded result carries a payload. *)
Definition has_payload (r : ToolResult) : bool :=
  negb (success r) || bool_decide (result r <> None).

(** The state with the active model handle removed. *)
Definition without_model {World : Type} (s : MCPBridge.Sys World) : MCPBridge.Sys World :=
  {| MCPBridge.bridge :=
       {| MCPBridge.currentModel := None; MCPBridge.isInitialized := true;
          MCPBridge.activeConversations := MCPBridge.activeConversations (MCPBridge.bridge s) |};
     MCPBridge.toolManager := MCPBridge.toolManager s;
     MCPBridge.modelManager := MCPBridge.modelManager s;
     MCPBridge.world := MCPBridge.world s |}.

(** A computation of the bridge that leaves the bridge object and the model
    manager as they are (it may use the tool manager and the world). *)
Definition keeps_bridge {World A : Type} (m : M (S := MCPBridge.Sys World) A) : Prop :=
  forall s, MCPBridge.bridge (snd (m s)) = MCPBridge.bridge s
            /\ MCPBridge.modelManager (snd (m s)) = MCPBridge.modelManager s.

(** Whether a character occurs in a text. *)
Fixpoint has_char (c : ascii) (s : string) : bool :=
  match s with
  | EmptyString => false
  | String x rest => Ascii.eqb x c || has_char c rest
  end.

(** ** A metered function to retry

    A function whose successive calls answer from a script, with the number
    of calls made and the time slept recorded, to observe
    [retryWithBackoff]. *)

Module Probe.

Record t (A : Type) : Type := mk {
  pending : list (outcome A);
  calls : nat;
  slept : Z
}.
Arguments mk {A}.
Arguments pending {A}.
Arguments calls {A}.
Arguments slept {A}.

(** One call of the function: the next answer of the script. *)
Definition call {A : Type} : M (S := t A) A :=
  fun p =>
    match pending p with
    | o :: rest => (o, {| pending := rest; calls := Datatypes.S (calls p); slept := slept p |})
    | [] =>
        (Throw (Error "no answer"),
         {| pending := []; calls := Datatypes.S (calls p); slept := slept p |})
    end.

(** [delay(ms)]: it resolves after [ms] milliseconds and never rejects. *)
Definition delay {A : Type} (ms : Z) : M (S := t A) unit :=
  fun p => (Ok tt, {| pending := pending p; calls := calls p; slept := (slept p + ms)%Z |}).

End Probe.

(** ** A host with a file system

    Files are readable when they are listed; every request whose body can
    be written is answered with status 200 and recorded. *)

Module DiskHost.

Record Disk : Type := mkDisk {
  readable : list string;
  requests : list string
}.

Definition enoent : JsError :=
  {| message := "ENOENT: no such file or directory"; code := Some "ENOENT"; response := None |}.

#[export] Instance disk_host : Host Disk := {
  axios_post url body w :=
    if negb (body_writable body) then (Throw unwritable_field, w)
    else
      (Ok {| status := 200; data := JStr "done" |},
       {| readable := readable w; requests := requests w ++ [url] |});
  fs_readFile path w :=
    if bool_decide (path ∈ readable w) then (Ok tt, w) else (Throw enoent, w);
  client_generateResponse client prompt w := (Throw (Error "API key not set"), w);
  Date_now w := ("2024-01-01T00:00:00.000Z", w);
  JSON_parse text := None;
  JSON_stringify v := "{}";
  confidenceMatch text := None
}.

Definition empty_disk : Disk := {| readable := []; requests := [] |}.

Definition with_report : ToolParameters :=
  {| files := [Fixture.pdf_file]; userRequest := "analyze"; parameters := Some ∅ |}.

End DiskHost.

(** A capability-server client that is not connected. *)
Definition offline_client : MCPClient.t :=
  MCPClient.set_isConnected false Fixture.document_analysis.

(** ** The rest of the platform

    What the remaining services use of Node and of the network, besides the
    [Host]: GET requests, child processes and the delivery of their exit
    event, timers, the Anthropic endpoint with the API key in a header, the
    initialization of a model client, text files, the millisecond clock,
    socket emission, and the string functions of the language. *)

(** A message of a chat route conversation. *)
Record ChatMessage : Type := mkChatMessage {
  cm_id : Z;
  cm_text : string;
  cm_sender : string;
  cm_timestamp : string;
  cm_toolsUsed : option (list string);
  cm_confidence : option Q;
  cm_error : bool
}.

Class Platform (World : Type) : Type := {
  axios_get : string -> World -> outcome HttpResponse * World;
  spawn : string -> list string -> World -> outcome unit * World;
  child_exit : World -> bool * World;
  setTimeout : Z -> World -> World;
  anthropic_post : string -> string -> string -> World -> outcome Json * World;
  client_initialize : ClientKind -> ModelConfig -> World -> outcome unit * World;
  fs_readText : string -> World -> outcome string * World;
  fs_writeFile : string -> string -> World -> outcome unit * World;
  Date_now_ms : World -> Z * World;
  io_emit : string -> ChatMessage -> World -> World;
  String_trim : string -> string;
  String_toLowerCase : string -> string;
  String_of : Json -> string;
  JSON_stringify_indented : Json -> string
}.

(** ** [ClaudeClient] (claudeClient.js): the API key *)

Module Claude.

Record t : Type := mk {
  apiKey : option string;
  isInitialized : bool
}.

Definition set_apiKey (k : option string) (c : t) : t :=
  {| apiKey := k; isInitialized := isInitialized c |}.

Definition set_isInitialized (b : bool) (c : t) : t :=
  {| apiKey := apiKey c; isInitialized := b |}.

(** [!this.apiKey] *)
Definition no_key (c : t) : bool :=
  match apiKey c with
  | Some k => bool_decide (k = EmptyString)
  | None => true
  end.

(** [data.error?.message || fallback], for a response body that is not
    [null]. *)
Definition error_message `{Platform World} (data : Json) (fallback : string) : string :=
  match field "error" data ≫= field "message" with
  | Some v => if truthy v then match v with JStr m => m | _ => String_of v end else fallback
  | None => fallback
  end.

Section Methods.
Context {World : Type} `{Platform World}.

Abbreviation St := (t * World)%type.

(** The [catch] block of [generateResponse]. *)
Definition classify (error : JsError) : M (S := St) string :=
  match response error with
  | Some r =>
      if (status r =? 401)%Z then throw (Error "Invalid Anthropic API key")
      else if (status r =? 429)%Z then throw (Error "Claude API rate limit exceeded")
      else
        match data r with
        | JNull => throw (Error "Cannot read properties of null (reading 'error')")
        | body =>
            if (status r =? 400)%Z then
              throw (Error ("Claude API error: " +:+ error_message body "Bad request"))
            else
              throw (Error ("Claude API error: " +:+ pretty (status r) +:+ " - "
                            +:+ error_message body "Unknown error"))
        end
  | None => throw error
  end.

(** [async generateResponse(prompt, systemPrompt = '')] *)
Definition generateResponse (prompt systemPrompt : string) : M (S := St) string :=
  try_catch
    (do st <- get;
     match apiKey (fst st) with
     | None => throw (Error "Anthropic API key not set")
     | Some key =>
         if bool_decide (key = EmptyString) then throw (Error "Anthropic API key not set")
         else
           do body <- (fun '(c, w) =>
                         let '(o, w') := anthropic_post key prompt systemPrompt w in
                         (o, (c, w')));
           match field "content" body with
           | Some (JArr (first :: _)) =>
               match field "text" first with
               | Some (JStr text) => ret (String_trim text)
               | _ => throw (Error "Cannot read properties of undefined (reading 'trim')")
               end
           | Some (JStr content) =>
               if bool_decide (content = EmptyString) then
                 throw (Error "Invalid response format from Claude API")
               else throw (Error "Cannot read properties of undefined (reading 'trim')")
           | _ => throw (Error "Invalid response format from Claude API")
           end
     end)
    classify.

(** [async healthCheck()] *)
Definition healthCheck : M (S := St) bool :=
  try_catch
    (do st <- get;
     if no_key (fst st) then ret false
     else
       do testResponse <-
         generateResponse
           ("Please respond with exactly " +:+ Fixture.quoted "OK"
            +:+ " to confirm the connection.")
           "You are a test assistant. Respond briefly and exactly as requested.";
       ret (includes (String_toLowerCase testResponse) "ok"))
    (fun error => ret false).

(** [async initialize()] *)
Definition initialize : M (S := St) bool :=
  try_catch
    (do st <- get;
     if no_key (fst st) then ret false
     else
       do isValid <- healthCheck;
       if negb isValid then ret false
       else
         run modify (fun '(c, w) => (set_isInitialized true c, w));
         ret true)
    (fun error => throw error).

(** [async validateApiKey(apiKey)] *)
Definition validateApiKey (key : string) : M (S := St) bool :=
  try_catch
    (do st <- get;
     let tempApiKey := apiKey (fst st) in
     run modify (fun '(c, w) => (set_apiKey (Some key) c, w));
     do isValid <- healthCheck;
     run (if negb isValid then modify (fun '(c, w) => (set_apiKey tempApiKey c, w))
          else ret tt);
     ret isValid)
    (fun error => ret false).

(** [async setApiKey(apiKey)] *)
Definition setApiKey (key : string) : M (S := St) unit :=
  if bool_decide (key = EmptyString) then throw (Error "API key is required")
  else
    do isValid <- validateApiKey key;
    if negb isValid then throw (Error "Invalid API key provided")
    else
      modify (fun '(c, w) => (set_isInitialized true (set_apiKey (Some key) c), w)).
End Methods.
End Claude.

(** ** [MCPClient] (mcpClient.js): start and readiness *)

Module MCPServer.

(** The fields of [serverConfig] the start of a client reads. *)
Record config : Type := mkConfig {
  health_check : string;
  command : string;
  args : list string
}.

Definition set_isInitialized (b : bool) (c : MCPClient.t) : MCPClient.t :=
  {| MCPClient.name := MCPClient.name c; MCPClient.apiEndpoint := MCPClient.apiEndpoint c;
     MCPClient.isConnected := MCPClient.isConnected c; MCPClient.isInitialized := b |}.

(** The endpoints [discoverEndpoints] tries, in order. *)
Definition possibleDiscoveryEndpoints : list string :=
  ["/docs"; "/openapi.json"; "/endpoints"; "/"; "/health"].

(** The tools [listAvailableTools] knows. *)
Definition knownTools : list string :=
  ["extract_figures_from_pdf"; "extract_tables_from_pdf"; "extract_text_from_pdf";
   "extract_formulas_from_pdf"; "get_pdf_document_stats"; "analyze_pdf_layout";
   "extract_all_from_pdf"].

Section Methods.
Context {World : Type} `{Platform World}.

Abbreviation St := (MCPClient.t * World)%type.

(** An [await] of the client.  [startServerProcess] registers an ['exit']
    handler on the child process, which sets [isConnected] to [false]; the
    event is delivered while the client awaits.  [spawned] tells whether the
    client holds a child process with that handler, and [child_exit] whether
    the exit event is delivered during this await. *)
Definition await {A} (spawned : bool) (request : World -> outcome A * World)
  : M (S := St) A :=
  fun '(c, w) =>
    let '(o, w1) := request w in
    if spawned then
      let '(exited, w2) := child_exit w1 in
      (o, (if exited then MCPClient.set_isConnected false c else c, w2))
    else (o, (c, w1)).

Definition get_url (spawned : bool) (url : string) : M (S := St) HttpResponse :=
  await spawned (axios_get url).

Definition sleep (spawned : bool) (ms : Z) : M (S := St) unit :=
  await spawned (fun w => (Ok tt, setTimeout ms w)).

(** [async checkServerHealth()] *)
Definition checkServerHealth (spawned : bool) (cfg : config) : M (S := St) bool :=
  try_catch
    (do st <- get;
     do response <- get_url spawned (MCPClient.apiEndpoint (fst st) +:+ health_check cfg);
     ret (status response =? 200)%Z)
    (fun error => ret false).

(** The loop of [discoverEndpoints]: [true] when it ends by [break].  On
    [/openapi.json] the body is read as an object, which throws when the
    body is [null]; the inner [catch] then goes on to the next endpoint. *)
Fixpoint discover_loop (spawned : bool) (endpoints : list string) : M (S := St) bool :=
  match endpoints with
  | [] => ret false
  | endpoint :: rest =>
      do found <-
        try_catch
          (do st <- get;
           do response <- get_url spawned (MCPClient.apiEndpoint (fst st) +:+ endpoint);
           if (status response =? 200)%Z then
             if bool_decide (endpoint = "/openapi.json") then
               match data response with
               | JNull => throw (Error "Cannot read properties of null (reading 'paths')")
               | _ => ret true
               end
             else ret true
           else ret false)
          (fun endpointError => ret false);
      if found then ret true else discover_loop spawned rest
  end.

(** [async discoverEndpoints()] *)
Definition discoverEndpoints (spawned : bool) : M (S := St) unit :=
  try_catch (run discover_loop spawned possibleDiscoveryEndpoints; ret tt)
    (fun error => ret tt).

(** [async startServerProcess()]: the child is spawned with its handlers,
    and the promise resolves five seconds later, or rejects when the spawn
    fails. *)
Definition startServerProcess (cfg : config) : M (S := St) unit :=
  run (fun '(c, w) => let '(o, w') := spawn (command cfg) (args cfg) w in (o, (c, w')));
  sleep true 5000.

(** The loop of [waitForServerReady] with [remaining] attempts left. *)
Fixpoint wait_loop (spawned : bool) (cfg : config) (interval : Z) (remaining : nat)
  : M (S := St) bool :=
  match remaining with
  | O => ret false
  | Datatypes.S remaining' =>
      do isReady <- try_catch (checkServerHealth spawned cfg) (fun error => ret false);
      if isReady then
        run modify (fun '(c, w) => (MCPClient.set_isConnected true c, w));
        ret true
      else
        run sleep spawned interval;
        wait_loop spawned cfg interval remaining'
  end.

(** [async waitForServerReady(maxAttempts = 30, interval = 2000)] *)
Definition waitForServerReady (spawned : bool) (cfg : config) (maxAttempts : nat)
    (interval : Z) : M (S := St) bool :=
  do ready <- wait_loop spawned cfg interval maxAttempts;
  if ready then ret true
  else
    do st <- get;
    throw (Error ("MCP server " +:+ MCPClient.name (fst st)
                  +:+ " failed to become ready after " +:+ pretty maxAttempts
                  +:+ " attempts")).

(** [async initialize()]; [spawned] tells whether the client already holds
    a child process when it is called (a client as its constructor leaves it
    holds none). *)
Definition initialize (spawned : bool) (cfg : config) : M (S := St) bool :=
  try_catch
    (do isRunning <- checkServerHealth spawned cfg;
     if isRunning then
       run discoverEndpoints spawned;
       run modify (fun '(c, w) =>
             (set_isInitialized true (MCPClient.set_isConnected true c), w));
       ret true
     else
       run startServerProcess cfg;
       run waitForServerReady true cfg 30 2000;
       run discoverEndpoints true;
       run modify (fun '(c, w) => (set_isInitialized true c, w));
       ret true)
    (fun error =>
       run modify (fun '(c, w) => (set_isInitialized false c, w));
       ret false).

(** [async listAvailableTools()] *)
Definition listAvailableTools (c : MCPClient.t) : list string :=
  if negb (MCPClient.isConnected c) then [] else knownTools.
End Methods.
End MCPServer.

(** What the exit of a child process may have done to a client between two
    points: nothing, or, for a client that holds one, [isConnected] set to
    [false]. *)
Definition exit_delivered (spawned : bool) (c c' : MCPClient.t) : Prop :=
  c' = c \/ (spawned = true /\ c' = MCPClient.set_isConnected false c).

(** ** [ModelManager] (modelManager.js): clients, catalogue and switching *)

Module ModelRegistry.

(** The [switch] of [initializeModelClients]: the client class for a model
    id; [None] is the [default] branch, which skips the model. *)
Definition client_class (id : string) : option ClientKind :=
  if bool_decide (id = "qwen-3-1.7b") then Some QwenClient
  else if bool_decide (id = "gpt-4") then Some OpenAIClient
  else if bool_decide (id = "claude-3-sonnet") then Some ClaudeClient
  else if bool_decide (id = "deepseek-coder") then Some DeepSeekClient
  else None.

(** What [getAvailableModels] returns for a model (the fields this model of
    the configuration has). *)
Record ModelInfo : Type := mkModelInfo {
  mi_id : string;
  mi_name : string;
  mi_type : string;
  mi_available : bool
}.

Definition set_client (id : string) (client : ClientKind) (mm : ModelManager.t)
  : ModelManager.t :=
  {| ModelManager.availableModels := ModelManager.availableModels mm;
     ModelManager.modelClients := <[id := client]> (ModelManager.modelClients mm);
     ModelManager.currentModel := ModelManager.currentModel mm |}.

Definition set_currentModel (model : ModelHandle) (mm : ModelManager.t) : ModelManager.t :=
  {| ModelManager.availableModels := ModelManager.availableModels mm;
     ModelManager.modelClients := ModelManager.modelClients mm;
     ModelManager.currentModel := Some model |}.

(** [getAvailableModels()] *)
Definition getAvailableModels (mm : ModelManager.t) : list ModelInfo :=
  List.map (fun model =>
    {| mi_id := m_id model; mi_name := m_name model; mi_type := m_type model;
       mi_available := bool_decide (is_Some (ModelManager.modelClients mm !! m_id model)) |})
    (ModelManager.availableModels mm).

(** [async getDefaultModel()] *)
Definition getDefaultModel (mm : ModelManager.t) : outcome ModelHandle :=
  match List.find m_default (ModelManager.availableModels mm) with
  | None => Throw (Error "No default model configured")
  | Some defaultModelConfig => ModelManager.getModel mm (m_id defaultModelConfig)
  end.

(** [getCurrentModel()] of the bridge: the id of the active model or [null]. *)
Definition getCurrentModel (b : MCPBridge.t) : option string :=
  h_id <$> MCPBridge.currentModel b.

(** [async switchModel(modelId)] of the model manager, in the system the
    bridge lives in. *)
Definition switchModel {World : Type} (modelId : string)
  : M (S := MCPBridge.Sys World) ModelHandle :=
  do s <- get;
  do model <- (fun s' => (ModelManager.getModel (MCPBridge.modelManager s) modelId, s'));
  run modify (fun s' =>
    {| MCPBridge.bridge := MCPBridge.bridge s';
       MCPBridge.toolManager := MCPBridge.toolManager s';
       MCPBridge.modelManager := set_currentModel model (MCPBridge.modelManager s');
       MCPBridge.world := MCPBridge.world s' |});
  ret model.

Section Methods.
Context {World : Type} `{Platform World}.

Abbreviation St := (ModelManager.t * World)%type.

(** The loop of [initializeModelClients]: a model without a client class is
    skipped, and so is one whose client fails to initialize. *)
Fixpoint initialize_loop (configs : list ModelConfig) : M (S := St) unit :=
  match configs with
  | [] => ret tt
  | modelConfig :: rest =>
      run try_catch
            (match client_class (m_id modelConfig) with
             | None => ret tt
             | Some client =>
                 run (fun '(mm, w) =>
                        let '(o, w') := client_initialize client modelConfig w in
                        (o, (mm, w')));
                 modify (fun '(mm, w) => (set_client (m_id modelConfig) client mm, w))
             end)
            (fun error => ret tt);
      initialize_loop rest
  end.

(** [async initializeModelClients()] *)
Definition initializeModelClients : M (S := St) unit :=
  do st <- get;
  initialize_loop (ModelManager.availableModels (fst st)).
End Methods.
End ModelRegistry.

(** ** The route [POST /switch] (routes/models.js) *)

Module ModelsRoute.

Inductive response : Type :=
  | Switched (id name type : string)
  | BadRequest (error : string)
  | Failed (error details : string).

(** The handler: the model manager switches first, then the bridge. *)
Definition switch {World : Type} (modelId : option string)
  : M (S := MCPBridge.Sys World) response :=
  try_catch
    (match modelId with
     | None => ret (BadRequest "Model ID is required")
     | Some id =>
         if bool_decide (id = EmptyString) then ret (BadRequest "Model ID is required")
         else
           do model <- ModelRegistry.switchModel id;
           run MCPBridge.switchModel id;
           ret (Switched (h_id model) (h_name model) (h_type model))
     end)
    (fun error => ret (Failed "Failed to switch model" (message error))).

End ModelsRoute.

(** ** The route [POST /message] (routes/chat.js) *)

Module ChatRoute.

Inductive response : Type :=
  | Answer (message : ChatMessage) (toolsUsed : list string) (confidence : Q)
  | BadRequest (error : string)
  | ProcessingFailed (message : ChatMessage)
  | InternalError.

Section Handler.
Context {World : Type} `{Host World} `{Platform World}.

(** The route's own [conversations] map, beside the system of the bridge. *)
Abbreviation St := (gmap string (list ChatMessage) * MCPBridge.Sys World)%type.

Definition in_bridge {A} (m : M (S := MCPBridge.Sys World) A) : M (S := St) A :=
  fun '(convs, s) => let '(o, s') := m s in (o, (convs, s')).

Definition in_world {A} (f : World -> A * World) : M (S := St) A :=
  fun '(convs, s) =>
    let '(a, w') := f (MCPBridge.world s) in
    (Ok a, (convs,
            {| MCPBridge.bridge := MCPBridge.bridge s;
               MCPBridge.toolManager := MCPBridge.toolManager s;
               MCPBridge.modelManager := MCPBridge.modelManager s;
               MCPBridge.world := w' |})).

(** [conversation.push(message)] on the array stored under the id. *)
Definition push (conversationId : string) (message : ChatMessage) : M (S := St) unit :=
  modify (fun '(convs, s) =>
    (<[conversationId := default [] (convs !! conversationId) ++ [message]]> convs, s)).

(** The handler of [POST /message]; [io] tells whether [req.io] is set. *)
Definition post_message (message conversationId : option string)
    (files : option (list FileRecord)) (io : bool) : M (S := St) response :=
  try_catch
    (match message with
     | None => ret (BadRequest "Message is required")
     | Some text =>
       if bool_decide (text = EmptyString) then ret (BadRequest "Message is required")
       else
       match conversationId with
       | None => ret (BadRequest "Conversation ID is required")
       | Some id =>
         if bool_decide (id = EmptyString) then ret (BadRequest "Conversation ID is required")
         else
           run modify (fun '(convs, s) =>
                 (match convs !! id with
                  | Some _ => convs
                  | None => <[id := []]> convs
                  end, s));
           do userId <- in_world Date_now_ms;
           do userTime <- in_world Date_now;
           run push id
                 {| cm_id := userId; cm_text := text; cm_sender := "user";
                    cm_timestamp := userTime; cm_toolsUsed := None;
                    cm_confidence := None; cm_error := false |};
           try_catch
             (do result <- in_bridge
                   (MCPBridge.processUserRequest id text (default [] files));
              do aiId <- in_world Date_now_ms;
              do aiTime <- in_world Date_now;
              let aiMessage :=
                {| cm_id := (aiId + 1)%Z; cm_text := r_response result; cm_sender := "ai";
                   cm_timestamp := aiTime; cm_toolsUsed := Some (r_toolsUsed result);
                   cm_confidence := Some (r_confidence result); cm_error := false |} in
              run push id aiMessage;
              run (if io then in_world (fun w => (tt, io_emit id aiMessage w)) else ret tt);
              ret (Answer aiMessage (r_toolsUsed result) (r_confidence result)))
             (fun mcpError =>
                do errorId <- in_world Date_now_ms;
                do errorTime <- in_world Date_now;
                let errorMessage :=
                  {| cm_id := (errorId + 1)%Z;
                     cm_text := "I apologize, but I encountered an error processing your request. Please try again.";
                     cm_sender := "ai"; cm_timestamp := errorTime; cm_toolsUsed := None;
                     cm_confidence := None; cm_error := true |} in
                run push id errorMessage;
                ret (ProcessingFailed errorMessage))
       end
     end)
    (fun error => ret InternalError).
End Handler.
End ChatRoute.

(** ** Text helpers (helpers.js) *)

Module Text.

(** The characters that [/[^a-zA-Z0-9.-]/] does not match. *)
Definition safe (c : ascii) : bool :=
  let n := nat_of_ascii c in
  ((97 <=? n)%nat && (n <=? 122)%nat) || ((65 <=? n)%nat && (n <=? 90)%nat)
  || ((48 <=? n)%nat && (n <=? 57)%nat) || (n =? 46)%nat || (n =? 45)%nat.

(** [sanitizeFilename(filename)]: every other character becomes an
    underscore. *)
Fixpoint sanitizeFilename (filename : string) : string :=
  match filename with
  | EmptyString => EmptyString
  | String c rest => String (if safe c then c else "_"%char) (sanitizeFilename rest)
  end.

(** [truncateText(text, maxLength = 100, suffix = '...')]; a negative end
    of [substring] counts as 0. *)
Definition truncateText (text : string) (maxLength : Z) (suffix : string) : string :=
  if bool_decide (text = EmptyString) || (Z.of_nat (String.length text) <=? maxLength)%Z
  then text
  else String.substring 0 (Z.to_nat (maxLength - Z.of_nat (String.length suffix))) text
       +:+ suffix.

(** Every character of the string satisfies [p]. *)
Fixpoint string_forall (p : ascii -> bool) (s : string) : bool :=
  match s with
  | EmptyString => true
  | String c rest => p c && string_forall p rest
  end.

End Text.

(** [!x] for a field of a request body. *)
Definition absent (x : option string) : bool :=
  match x with
  | Some text => bool_decide (text = EmptyString)
  | None => true
  end.

(** The system with another world. *)
Definition with_world {World : Type} (s : MCPBridge.Sys World) (w : World)
  : MCPBridge.Sys World :=
  {| MCPBridge.bridge := MCPBridge.bridge s;
     MCPBridge.toolManager := MCPBridge.toolManager s;
     MCPBridge.modelManager := MCPBridge.modelManager s;
     MCPBridge.world := w |}.


(** ** A scripted platform

    A network that answers every GET with status 200 while the server is up
    and refuses the connection otherwise, with the elapsed time of the
    timers recorded; a spawn brings the server up when [boots] is set, and
    the exit event of the child is delivered at the await that [exit_in]
    counts down to; the Anthropic endpoint is out of reach. *)

Module Station.

Record Net : Type := mkNet {
  up : bool;
  fetched : list string;
  elapsed : Z;
  boots : bool;
  exit_in : option nat
}.

#[export] Instance net_platform : Platform Net := {
  axios_get url w :=
    (if up w then Ok {| status := 200; data := JStr "ok" |} else Throw Fixture.refused,
     {| up := up w; fetched := fetched w ++ [url]; elapsed := elapsed w;
        boots := boots w; exit_in := exit_in w |});
  spawn command args w :=
    (Ok tt, {| up := up w || boots w; fetched := fetched w; elapsed := elapsed w;
               boots := boots w; exit_in := exit_in w |});
  child_exit w :=
    match exit_in w with
    | Some O =>
        (true, {| up := up w; fetched := fetched w; elapsed := elapsed w;
                  boots := boots w; exit_in := None |})
    | Some (Datatypes.S n) =>
        (false, {| up := up w; fetched := fetched w; elapsed := elapsed w;
                   boots := boots w; exit_in := Some n |})
    | None => (false, w)
    end;
  setTimeout ms w :=
    {| up := up w; fetched := fetched w; elapsed := (elapsed w + ms)%Z;
       boots := boots w; exit_in := exit_in w |};
  anthropic_post key prompt systemPrompt w := (Throw Fixture.refused, w);
  client_initialize kind config w := (Ok tt, w);
  fs_readText path w := (Throw DiskHost.enoent, w);
  fs_writeFile path text w := (Ok tt, w);
  Date_now_ms w := (elapsed w, w);
  io_emit room message w := w;
  String_trim text := text;
  String_toLowerCase text := text;
  String_of v := "[object Object]";
  JSON_stringify_indented v := "{}"
}.

Definition net_up : Net :=
  {| up := true; fetched := []; elapsed := 0; boots := false; exit_in := None |}.

(** [net_up] after the health check of the capability server. *)
Definition net_checked : Net :=
  {| up := true; fetched := ["http://192.168.1.29:8000/health"]; elapsed := 0;
     boots := false; exit_in := None |}.

(** The server is down and a spawn brings it up; the child exits at the
    third await after the spawn: the five seconds, the health check, then
    the first request of the discovery. *)
Definition net_short_lived : Net :=
  {| up := false; fetched := []; elapsed := 0; boots := true; exit_in := Some 2 |}.

(** The [document_analysis] entry of tools.json. *)
Definition server_config : MCPServer.config :=
  {| MCPServer.health_check := "/health"; MCPServer.command := "python";
     MCPServer.args := ["C:/Users/hp/Downloads/mcp_server.py"] |}.

(** A Claude client constructed without [ANTHROPIC_API_KEY]. *)
Definition keyless : Claude.t := {| Claude.apiKey := None; Claude.isInitialized := false |}.

(** Two failed results. *)
Definition failed_results : list ToolResult :=
  [ {| toolId := "pdf_analyzer"; success := false; result := None;
       error := Some "connect ECONNREFUSED"; executedAt := "2024-01-01T00:00:00.000Z" |};
    {| toolId := "extract_all_from_pdf"; success := false; result := None;
       error := Some "MCP client document_analysis not available";
       executedAt := "2024-01-01T00:00:00.000Z" |} ].

(** A function that fails twice and then answers 7. *)
Definition third_time : Probe.t Z :=
  {| Probe.pending := [Throw Fixture.refused; Throw Fixture.server_error; Ok 7%Z];
     Probe.calls := 0; Probe.slept := 0 |}.

End Station.
(** * Properties *)

(** ** The monad *)

Section MonadFacts.
Context {S : Type}.

Lemma bind_ok {A B} (m : M (S := S) A) (k : A -> M B) s a s' :
  m s = (Ok a, s') -> bind m k s = k a s'.
Proof. intros Hm. unfold bind. now rewrite Hm. Qed.

Lemma bind_throw {A B} (m : M (S := S) A) (k : A -> M B) s e s' :
  m s = (Throw e, s') -> bind m k s = (Throw e, s').
Proof. intros Hm. unfold bind. now rewrite Hm. Qed.

Lemma try_catch_ok {A} (m : M (S := S) A) h s a s' :
  m s = (Ok a, s') -> try_catch m h s = (Ok a, s').
Proof. intros Hm. unfold try_catch. now rewrite Hm. Qed.

Lemma try_catch_throw {A} (m : M (S := S) A) h s e s' :
  m s = (Throw e, s') -> try_catch m h s = h e s'.
Proof. intros Hm. unfold try_catch. now rewrite Hm. Qed.

(** A [try] whose [catch] block returns a value never throws. *)
Lemma try_catch_returns {A} (m : M (S := S) A) (f : JsError -> A) s :
  exists a s', try_catch m (fun e => ret (f e)) s = (Ok a, s').
Proof.
  unfold try_catch. destruct (m s) as [[a | e] s']; [now exists a, s' |].
  now exists (f e), s'.
Qed.

Lemma bind_inv_ok {A B} (m : M (S := S) A) (k : A -> M B) s b s' :
  bind m k s = (Ok b, s') -> exists a s1, m s = (Ok a, s1) /\ k a s1 = (Ok b, s').
Proof.
  unfold bind. destruct (m s) as [[a | e] s1]; [| discriminate].
  intros Hk. now exists a, s1.
Qed.

(** A [catch] block that rethrows changes nothing. *)
Lemma try_catch_rethrow {A} (m : M (S := S) A) s :
  try_catch m (fun e => throw e) s = m s.
Proof. unfold try_catch, throw. now destruct (m s) as [[a | e] s']. Qed.
End MonadFacts.

(** ** Execution of a plan *)

Section Executing.
Context {World : Type} `{Host World}.
Import MCPBridge.

(** Every iteration of the loop ends in a pushed record for its tool id:
    the success record when the dispatcher returns, the failure record with
    the error's message when it throws. *)
Lemma execute_one_total toolSelection uploadedFiles userMessage id (s : Sys World) :
  exists r s',
    execute_one toolSelection uploadedFiles userMessage id s = (Ok r, s')
    /\ toolId r = id.
Proof.
  unfold execute_one, try_catch.
  match goal with |- context [bind ?m ?k s] => destruct (bind m k s) as [[r | e] s1] eqn:Hrun end.
  - exists r, s1. split; [reflexivity |].
    unfold bind, get, now, ret in Hrun.
    destruct (in_toolManager _ s) as [[j | e] s2]; [| discriminate].
    destruct (Date_now (world s2)) as [ts w]. now inversion Hrun.
  - unfold bind, now, ret. destruct (Date_now (world s1)) as [ts w].
    now eexists _, _.
Qed.

Lemma execute_loop_ids toolSelection uploadedFiles userMessage order :
  forall acc (s : Sys World),
  exists rs s',
    execute_loop toolSelection uploadedFiles userMessage order acc s = (Ok rs, s')
    /\ List.map toolId rs = List.map toolId acc ++ order.
Proof.
  induction order as [| id rest IH]; intros acc s; simpl.
  - exists acc, s. now rewrite app_nil_r.
  - destruct (execute_one_total toolSelection uploadedFiles userMessage id s)
      as (r & s1 & Hone & Hid).
    rewrite (bind_ok _ _ _ _ _ Hone).
    destruct (IH (acc ++ [r]) s1) as (rs & s2 & Hloop & Hids).
    exists rs, s2. split; [exact Hloop |].
    rewrite Hids, List.map_app. simpl. rewrite Hid. now rewrite <- app_assoc.
Qed.

Lemma executeTools_ids toolSelection uploadedFiles userMessage (s : Sys World) :
  exists rs s',
    executeTools toolSelection uploadedFiles userMessage s = (Ok rs, s')
    /\ List.map toolId rs = executionOrder toolSelection.
Proof.
  unfold executeTools.
  destruct (executionOrder toolSelection) as [| id rest] eqn:Horder; simpl.
  - now exists [], s.
  - destruct (execute_loop_ids toolSelection uploadedFiles userMessage (id :: rest) [] s)
      as (rs & s' & Hloop & Hids).
    now exists rs, s'.
Qed.

(** Position by position: the record at index [i] is the one of the [i]-th
    tool id of the execution order. *)
Lemma executeTools_positions toolSelection uploadedFiles userMessage (s : Sys World) rs s' i id :
  executeTools toolSelection uploadedFiles userMessage s = (Ok rs, s') ->
  executionOrder toolSelection !! i = Some id ->
  exists r, rs !! i = Some r /\ toolId r = id.
Proof.
  intros Hrun Hi.
  destruct (executeTools_ids toolSelection uploadedFiles userMessage s)
    as (rs0 & s0 & Hrun0 & Hids).
  rewrite Hrun in Hrun0. inversion Hrun0; subst rs0 s0.
  rewrite <- Hids, list_lookup_fmap in Hi.
  destruct (rs !! i) as [r |]; [| discriminate].
  exists r. split; [reflexivity |]. now inversion Hi.
Qed.

(** One iteration of the loop is one dispatch: whatever the call of the
    dispatcher does, return a payload or throw, the record pushed mirrors
    that outcome, and the state is the one the call left, with the clock
    read once. *)
Lemma execute_one_dispatch toolSelection uploadedFiles userMessage id
    (s s1 : Sys World) (o : outcome Json) :
  dispatch toolSelection uploadedFiles userMessage id s = (o, s1) ->
  execute_one toolSelection uploadedFiles userMessage id s
  = (Ok (record_of id o (fst (Date_now (world s1)))), after_clock s1).
Proof.
  unfold dispatch. intros Hcall.
  unfold execute_one, try_catch, bind, get, now, ret, after_clock.
  rewrite Hcall.
  destruct o as [payload | e]; simpl; now destruct (Date_now (world s1)).
Qed.

(** The loop is the run that dispatches each tool id once. *)
Lemma execute_loop_dispatch_each toolSelection uploadedFiles userMessage order :
  forall acc (s : Sys World),
    execute_loop toolSelection uploadedFiles userMessage order acc s
    = (Ok (acc ++ fst (dispatch_each toolSelection uploadedFiles userMessage order s)),
       snd (dispatch_each toolSelection uploadedFiles userMessage order s)).
Proof.
  induction order as [| id rest IH]; intros acc s; cbn [execute_loop dispatch_each].
  - cbn [fst snd]. now rewrite app_nil_r.
  - destruct (dispatch toolSelection uploadedFiles userMessage id s) as [o s1] eqn:Hcall.
    rewrite (bind_ok _ _ _ _ _ (execute_one_dispatch _ _ _ _ _ _ _ Hcall)).
    rewrite IH.
    destruct (dispatch_each toolSelection uploadedFiles userMessage rest (after_clock s1))
      as [results s2].
    cbn [fst snd]. now rewrite <- app_assoc.
Qed.

Lemma executeTools_dispatch_each toolSelection uploadedFiles userMessage (s : Sys World) :
  executeTools toolSelection uploadedFiles userMessage s
  = (Ok (fst (dispatch_each toolSelection uploadedFiles userMessage
                (executionOrder toolSelection) s)),
     snd (dispatch_each toolSelection uploadedFiles userMessage
            (executionOrder toolSelection) s)).
Proof.
  unfold executeTools.
  destruct (executionOrder toolSelection) as [| id rest] eqn:Horder.
  - reflexivity.
  - change (length (id :: rest) =? 0)%nat with false. cbv iota.
    now rewrite execute_loop_dispatch_each.
Qed.

Lemma dispatch_each_app toolSelection uploadedFiles userMessage before after (s : Sys World) :
  dispatch_each toolSelection uploadedFiles userMessage (before ++ after) s
  = (fst (dispatch_each toolSelection uploadedFiles userMessage before s)
     ++ fst (dispatch_each toolSelection uploadedFiles userMessage after
               (snd (dispatch_each toolSelection uploadedFiles userMessage before s))),
     snd (dispatch_each toolSelection uploadedFiles userMessage after
            (snd (dispatch_each toolSelection uploadedFiles userMessage before s)))).
Proof.
  revert s. induction before as [| id rest IH]; intros s; cbn [app dispatch_each].
  - cbn [fst snd app].
    now destruct (dispatch_each toolSelection uploadedFiles userMessage after s).
  - destruct (dispatch toolSelection uploadedFiles userMessage id s) as [o s1].
    rewrite IH.
    destruct (dispatch_each toolSelection uploadedFiles userMessage rest (after_clock s1))
      as [results s2].
    reflexivity.
Qed.

Lemma dispatch_each_length toolSelection uploadedFiles userMessage order (s : Sys World) :
  length (fst (dispatch_each toolSelection uploadedFiles userMessage order s)) = length order.
Proof.
  revert s. induction order as [| id rest IH]; intros s; cbn [dispatch_each]; [reflexivity |].
  destruct (dispatch toolSelection uploadedFiles userMessage id s) as [o s1].
  specialize (IH (after_clock s1)).
  destruct (dispatch_each toolSelection uploadedFiles userMessage rest (after_clock s1))
    as [results s2].
  cbn [fst length] in *. now rewrite IH.
Qed.

(** The record at a position is the record of the dispatch of the tool id
    at that position, made in the state that the dispatches before it left,
    whether they failed or not. *)
Lemma dispatch_each_lookup toolSelection uploadedFiles userMessage order (s : Sys World) i id :
  order !! i = Some id ->
  exists o s1,
    dispatch toolSelection uploadedFiles userMessage id
      (snd (dispatch_each toolSelection uploadedFiles userMessage (take i order) s))
    = (o, s1)
    /\ fst (dispatch_each toolSelection uploadedFiles userMessage order s) !! i
       = Some (record_of id o (fst (Date_now (world s1)))).
Proof.
  intros Hi.
  pose proof (take_drop_middle order i id Hi) as Hsplit.
  set (before := take i order) in *. set (after := drop (Datatypes.S i) order) in *.
  rewrite <- Hsplit.
  rewrite dispatch_each_app. cbn [fst].
  set (s0 := snd (dispatch_each toolSelection uploadedFiles userMessage before s)).
  destruct (dispatch toolSelection uploadedFiles userMessage id s0) as [o s1] eqn:Hcall.
  exists o, s1. split; [reflexivity |].
  rewrite lookup_app_r by (rewrite dispatch_each_length; subst before;
                           rewrite length_take; apply lookup_lt_Some in Hi; lia).
  rewrite dispatch_each_length.
  replace (i - length before) with 0
    by (subst before; rewrite length_take; apply lookup_lt_Some in Hi; lia).
  cbn [dispatch_each]. rewrite Hcall.
  now destruct (dispatch_each toolSelection uploadedFiles userMessage after (after_clock s1)).
Qed.

(** Every result of such a run that succeeded carries its payload. *)
Lemma dispatch_each_payload toolSelection uploadedFiles userMessage order (s : Sys World) :
  Forall (fun r => has_payload r = true)
    (fst (dispatch_each toolSelection uploadedFiles userMessage order s)).
Proof.
  revert s. induction order as [| id rest IH]; intros s; cbn [dispatch_each].
  - constructor.
  - destruct (dispatch toolSelection uploadedFiles userMessage id s) as [o s1].
    specialize (IH (after_clock s1)).
    destruct (dispatch_each toolSelection uploadedFiles userMessage rest (after_clock s1))
      as [results s2].
    cbn [fst] in *. constructor; [| exact IH].
    now destruct o.
Qed.

(** C4. Executing a plan returns, for every resolved execution order, a
    results list whose tool ids are exactly the execution order: one
    [ToolResult] per tool id, at the same position.  The tool at every
    position is dispatched, in the state that the dispatches before it left
    and whatever their outcomes were, and the record at that position is
    the record of that dispatch: a tool that fails does not keep the later
    tools from being run and recorded. *)
Theorem C4_one_result_per_tool toolSelection uploadedFiles userMessage (s : Sys World) :
  exists rs s',
    executeTools toolSelection uploadedFiles userMessage s = (Ok rs, s')
    /\ List.map toolId rs = executionOrder toolSelection
    /\ length rs = length (executionOrder toolSelection)
    /\ (forall i id,
          executionOrder toolSelection !! i = Some id ->
          exists o s1,
            dispatch toolSelection uploadedFiles userMessage id
              (snd (dispatch_each toolSelection uploadedFiles userMessage
                      (take i (executionOrder toolSelection)) s))
            = (o, s1)
            /\ rs !! i = Some (record_of id o (fst (Date_now (world s1))))).
Proof.
  destruct (executeTools_ids toolSelection uploadedFiles userMessage s)
    as (rs & s' & Hrun & Hids).
  exists rs, s'. repeat split; try assumption.
  - now rewrite <- Hids, length_map.
  - intros i id Hi.
    rewrite executeTools_dispatch_each in Hrun. inversion Hrun as [[Hrs Hs]].
    now apply dispatch_each_lookup.
Qed.
End Executing.

(** ** The turn as a whole *)

Section Turn.
Context {World : Type} `{Host World}.
Import MCPBridge.

(** A turn that completes its four steps carries no [error] field. *)
Lemma processUserRequest_body_no_error conversationId userMessage uploadedFiles (s : Sys World) r s' :
  processUserRequest conversationId userMessage uploadedFiles s = (Ok r, s') ->
  r_error r = None \/ exists e, r = error_response conversationId e.
Proof.
  unfold processUserRequest, try_catch.
  match goal with |- context [bind ?m ?k s] => destruct (bind m k s) as [[r0 | e] s1] eqn:Hrun end.
  - intros Heq. inversion Heq; subst r0 s1. left.
    apply bind_inv_ok in Hrun as (s0 & s2 & Hget & Hrun).
    destruct (negb (isInitialized (bridge s0))); [discriminate |].
    destruct (currentModel (bridge s0)) as [model |]; [| discriminate].
    apply bind_inv_ok in Hrun as (sel & s3 & _ & Hrun).
    apply bind_inv_ok in Hrun as (rs & s4 & _ & Hrun).
    apply bind_inv_ok in Hrun as (resp & s5 & _ & Hrun).
    apply bind_inv_ok in Hrun as (ts & s6 & _ & Hrun).
    apply bind_inv_ok in Hrun as (u & s7 & _ & Hrun).
    unfold ret in Hrun. now inversion Hrun.
  - intros Heq. right. exists e. unfold ret in Heq. now inversion Heq.
Qed.

(** With a payload in every succeeded result, the fallback text is built
    without an error. *)
Lemma generateFallbackResponse_payload stringify (toolResults : list ToolResult) :
  Forall (fun r => has_payload r = true) toolResults ->
  exists text, generateFallbackResponse stringify toolResults = Ok text.
Proof.
  intros Hall. unfold generateFallbackResponse.
  destruct (length (List.filter success toolResults) =? 0)%nat.
  { destruct (0 <? _)%nat; now eexists. }
  assert (Forall (fun r => result r <> None) (List.filter success toolResults)) as Hsome.
  { induction Hall as [| r rest Hr _ IH]; simpl; [constructor |].
    unfold has_payload in Hr. destruct (success r) eqn:Hsuccess; [| exact IH].
    constructor; [| exact IH]. simpl in Hr. now apply bool_decide_eq_true_1 in Hr. }
  match goal with |- context [List.fold_left ?f _ (Ok ?a)] =>
    assert (forall l text0, Forall (fun r => result r <> None) l ->
              exists text1, List.fold_left f l (Ok text0) = Ok text1) as Hfold
  end.
  { induction l as [| r l IH]; intros text0 Hl; simpl; [now eexists |].
    inversion Hl as [| ? ? Hr Hrest]; subst.
    destruct (result r) as [payload |]; [| contradiction].
    apply IH, Hrest. }
  match goal with |- context [List.fold_left _ _ (Ok ?a)] =>
    destruct (Hfold _ a Hsome) as (text1 & ->) end.
  destruct (0 <? _)%nat; now eexists.
Qed.

(** On such results the synthesis step returns a text, by either path. *)
Lemma synthesizeResponse_returns userMessage toolResults context (s : Sys World) :
  Forall (fun r => has_payload r = true) toolResults ->
  exists text s', synthesizeResponse userMessage toolResults context s = (Ok text, s').
Proof.
  intros Hall. unfold synthesizeResponse, try_catch.
  match goal with |- context [match ?m s with _ => _ end] =>
    destruct (m s) as [[text | e] s1] end.
  - now exists text, s1.
  - unfold of_outcome.
    destruct (generateFallbackResponse_payload JSON_stringify toolResults Hall) as (text & ->).
    now exists text, s1.
Qed.

Lemma synthesizeResponseWithClaude_returns userMessage toolResults context (s : Sys World) :
  Forall (fun r => has_payload r = true) toolResults ->
  exists text s',
    synthesizeResponseWithClaude userMessage toolResults context s = (Ok text, s').
Proof.
  intros Hall. unfold synthesizeResponseWithClaude. unfold try_catch at 1.
  match goal with |- context [match ?m s with _ => _ end] =>
    destruct (m s) as [[text | e] s1] end.
  - now exists text, s1.
  - now apply synthesizeResponse_returns.
Qed.

Lemma now_run (s : Sys World) :
  now s = (Ok (fst (Date_now (world s))), after_clock s).
Proof. unfold now, after_clock. now destruct (Date_now (world s)). Qed.

(** The results that executing a plan returns carry a payload wherever
    they succeeded. *)
Lemma executeTools_payload plan uploadedFiles userMessage (s : Sys World) toolResults s' :
  executeTools plan uploadedFiles userMessage s = (Ok toolResults, s') ->
  Forall (fun r => has_payload r = true) toolResults.
Proof.
  rewrite executeTools_dispatch_each. intros Hrun. inversion Hrun; subst.
  apply dispatch_each_payload.
Qed.

(** The turn, step by step.  With the bridge initialized and a model at
    hand, once the selection step has given the plan and executing the plan
    has given the results, the synthesis step gives a response and the turn
    returns it with the plan's [selected_tools], the confidence computed
    from those results, and no [error]. *)
Lemma processUserRequest_turn conversationId userMessage uploadedFiles (s : Sys World)
    model plan s1 toolResults s2 :
  isInitialized (bridge s) = true ->
  currentModel (bridge s) = Some model ->
  (if bool_decide (h_id model = "claude-3-sonnet") && has_orchestrateTools (h_client model)
   then selectToolsWithClaude userMessage uploadedFiles
          (getConversationContext (bridge s) conversationId)
   else selectTools userMessage uploadedFiles
          (getConversationContext (bridge s) conversationId)) s
  = (Ok plan, s1) ->
  executeTools plan uploadedFiles userMessage s1 = (Ok toolResults, s2) ->
  exists response s3 s',
    (if bool_decide (h_id model = "claude-3-sonnet") && has_synthesizeResponse (h_client model)
     then synthesizeResponseWithClaude userMessage toolResults
            (getConversationContext (bridge s) conversationId)
     else synthesizeResponse userMessage toolResults
            (getConversationContext (bridge s) conversationId)) s2
    = (Ok response, s3)
    /\ processUserRequest conversationId userMessage uploadedFiles s
       = (Ok {| r_response := response;
                r_toolsUsed := selected_tools plan;
                r_confidence := calculateConfidence toolResults;
                r_conversationId := conversationId;
                r_error := None |}, s').
Proof.
  intros Hinit Hmodel Hplan Hexec.
  pose proof (executeTools_payload _ _ _ _ _ _ Hexec) as Hpayload.
  assert (exists response s3,
            (if bool_decide (h_id model = "claude-3-sonnet")
                && has_synthesizeResponse (h_client model)
             then synthesizeResponseWithClaude userMessage toolResults
                    (getConversationContext (bridge s) conversationId)
             else synthesizeResponse userMessage toolResults
                    (getConversationContext (bridge s) conversationId)) s2
            = (Ok response, s3)) as (response & s3 & Hsynth).
  { destruct (bool_decide (h_id model = "claude-3-sonnet")
              && has_synthesizeResponse (h_client model)).
    - now apply synthesizeResponseWithClaude_returns.
    - now apply synthesizeResponse_returns. }
  exists response, s3. eexists. split; [exact Hsynth |].
  unfold processUserRequest.
  erewrite try_catch_ok; [reflexivity |].
  unfold bind at 1, get. rewrite Hinit, Hmodel. cbn [negb].
  rewrite (bind_ok _ _ _ _ _ Hplan).
  rewrite (bind_ok _ _ _ _ _ Hexec).
  rewrite (bind_ok _ _ _ _ _ Hsynth).
  rewrite (bind_ok _ _ _ _ _ (now_run s3)).
  reflexivity.
Qed.

(** An empty execution order: nothing is dispatched, the results list is
    empty and the confidence is 0.5. *)
Lemma executeTools_empty_order plan uploadedFiles userMessage (s : Sys World) :
  executionOrder plan = [] ->
  executeTools plan uploadedFiles userMessage s = (Ok [], s)
  /\ calculateConfidence [] = 5 # 10.
Proof. intros Hempty. unfold executeTools. now rewrite Hempty. Qed.

(** C5. For every conversation id, message and file list, and in every
    state, [processUserRequest] returns an object with a textual [response]
    and does not throw: the object either carries no [error] field (the turn
    completed) or is the apologetic response built from the failure, with its
    message in the [error] field.  With no model available it is that
    apologetic response for the error [No model available], and the state is
    left as it was. *)
Theorem C5_always_returns conversationId userMessage uploadedFiles (s : Sys World) :
  (exists r s',
     processUserRequest conversationId userMessage uploadedFiles s = (Ok r, s')
     /\ (r_error r = None \/ exists e, r = error_response conversationId e))
  /\ processUserRequest conversationId userMessage uploadedFiles (without_model s)
     = (Ok (error_response conversationId (Error "No model available")), without_model s).
Proof.
  split.
  - destruct (processUserRequest conversationId userMessage uploadedFiles s) as [[r | e] s'] eqn:Hrun.
    + exists r, s'. split; [reflexivity |].
      eapply processUserRequest_body_no_error; exact Hrun.
    + exfalso. unfold processUserRequest in Hrun.
      match type of Hrun with try_catch ?m _ _ = _ =>
        destruct (try_catch_returns m (error_response conversationId) s) as (r1 & s1 & Hret) end.
      rewrite Hret in Hrun. discriminate.
  - reflexivity.
Qed.
End Turn.

(** ** Confidence *)

Section Confidence.
Import MCPBridge.
Local Open Scope Q_scope.

Lemma successCount_filter toolResults :
  length (List.filter success toolResults) = successCount toolResults.
Proof.
  induction toolResults as [| r rest IH]; simpl; [reflexivity |].
  destruct (success r); simpl; now rewrite IH.
Qed.

Lemma successCount_le toolResults : (successCount toolResults <= length toolResults)%nat.
Proof.
  induction toolResults as [| r rest IH]; simpl; [lia |].
  destruct (success r); lia.
Qed.

(** The score is a fraction between 0 and 1. *)
Lemma calculateConfidence_range toolResults :
  0 <= calculateConfidence toolResults <= 1.
Proof.
  unfold calculateConfidence. rewrite successCount_filter.
  destruct toolResults as [| r rest]; [split; discriminate |].
  change (length (r :: rest) =? 0)%nat with false. cbv iota.
  pose proof (successCount_le (r :: rest)) as Hle.
  set (k := successCount (r :: rest)) in *. set (n := length (r :: rest)) in *.
  assert (0 < inject_Z (Z.of_nat n)) as Hn.
  { unfold Qlt, inject_Z; simpl. subst n; simpl; lia. }
  split.
  - apply Qle_shift_div_l; [exact Hn |]. rewrite Qmult_0_l.
    unfold Qle, inject_Z; simpl. lia.
  - apply Qle_shift_div_r; [exact Hn |]. rewrite Qmult_1_l.
    unfold Qle, inject_Z; simpl. lia.
Qed.

(** The score of a results list: 0.5 on the empty list, and otherwise the
    number of succeeded results divided by the number of results. *)
Lemma calculateConfidence_ratio (toolResults : list ToolResult) :
  (length toolResults = 0%nat -> calculateConfidence toolResults = 5 # 10)
  /\ ((0 < length toolResults)%nat ->
      calculateConfidence toolResults
      = inject_Z (Z.of_nat (successCount toolResults))
        / inject_Z (Z.of_nat (length toolResults))).
Proof.
  unfold calculateConfidence. rewrite successCount_filter.
  destruct toolResults as [| r rest]; simpl; split; intros Hlen;
    try reflexivity; try discriminate; lia.
Qed.
End Confidence.

Section TurnConfidence.
Context {World : Type} `{Host World}.
Import MCPBridge.

(** C6. The confidence returned with the turn.  With the bridge initialized
    and a model at hand, once the selection step of the turn has given the
    plan and executing that plan has given the results list, the turn
    returns without an [error], and the confidence it returns is computed
    from that results list: exactly 0.5 when the list is empty, and otherwise
    the number of succeeded results divided by the number of results.  When
    the resolved execution order of the plan is empty, nothing is
    dispatched, the results list is empty and the confidence is 0.5; by the
    bridge's own synthesis the response is then the apology for no tool
    having been executed. *)
Theorem C6_confidence_ratio conversationId userMessage uploadedFiles (s : Sys World)
    model plan s1 toolResults s2 :
  isInitialized (bridge s) = true ->
  currentModel (bridge s) = Some model ->
  (if bool_decide (h_id model = "claude-3-sonnet") && has_orchestrateTools (h_client model)
   then selectToolsWithClaude userMessage uploadedFiles
          (getConversationContext (bridge s) conversationId)
   else selectTools userMessage uploadedFiles
          (getConversationContext (bridge s) conversationId)) s
  = (Ok plan, s1) ->
  executeTools plan uploadedFiles userMessage s1 = (Ok toolResults, s2) ->
  exists r s',
    processUserRequest conversationId userMessage uploadedFiles s = (Ok r, s')
    /\ r_error r = None
    /\ r_toolsUsed r = selected_tools plan
    /\ (length toolResults = 0%nat -> r_confidence r = 5 # 10)
    /\ ((0 < length toolResults)%nat ->
        r_confidence r
        = (inject_Z (Z.of_nat (successCount toolResults))
           / inject_Z (Z.of_nat (length toolResults)))%Q)
    /\ (executionOrder plan = [] ->
        toolResults = [] /\ s2 = s1 /\ r_confidence r = 5 # 10
        /\ (bool_decide (h_id model = "claude-3-sonnet")
              && has_synthesizeResponse (h_client model) = false ->
            r_response r
            = "I apologize, but I couldn't process your request. No tools were successfully executed.")).
Proof.
  intros Hinit Hmodel Hplan Hexec.
  destruct (processUserRequest_turn conversationId userMessage uploadedFiles s model plan s1
              toolResults s2 Hinit Hmodel Hplan Hexec)
    as (response & s3 & s' & Hsynth & Hrun).
  eexists _, s'. split; [exact Hrun |].
  cbn [r_error r_toolsUsed r_confidence r_response].
  split; [reflexivity |]. split; [reflexivity |].
  split; [apply calculateConfidence_ratio |].
  split; [apply calculateConfidence_ratio |].
  intros Hempty.
  rewrite executeTools_dispatch_each, Hempty in Hexec. cbn [dispatch_each fst snd] in Hexec.
  inversion Hexec; subst toolResults s2.
  repeat split.
  intros Hpath. rewrite Hpath in Hsynth.
  unfold synthesizeResponse, try_catch, ret in Hsynth. simpl in Hsynth.
  now inversion Hsynth.
Qed.
End TurnConfidence.

(** ** Conversation context *)

Section Context.
Import MCPBridge.

Lemma slice_last_length {A} n (l : list A) : length (slice_last n l) <= n.
Proof. unfold slice_last. rewrite length_drop. lia. Qed.

Lemma slice_last_short {A} n (l : list A) : length l <= n -> slice_last n l = l.
Proof.
  intros Hle. unfold slice_last.
  replace (length l - n) with 0 by lia. reflexivity.
Qed.

(** Cutting to the last [n] before an append does not change the last [n]
    after it. *)
Lemma slice_last_snoc {A} n (l : list A) x :
  0 < n -> slice_last n (slice_last n l ++ [x]) = slice_last n (l ++ [x]).
Proof.
  intros Hn. unfold slice_last.
  rewrite !length_app, length_drop. simpl.
  destruct (decide (length l <= n)) as [Hle | Hgt].
  - replace (length l - n) with 0 by lia. simpl.
    now rewrite Nat.sub_0_r.
  - rewrite (drop_app_le (drop _ l)) by (rewrite length_drop; lia).
    rewrite (drop_app_le l) by lia.
    rewrite drop_drop. f_equal. f_equal. lia.
Qed.

(** What one append stores: for the conversation appended to, the last 20
    of the old context followed by the new turn; for any other conversation,
    what was stored before. *)
Lemma updateConversationContext_lookup conversationId interaction b id :
  getConversationContext (updateConversationContext conversationId interaction b) id
  = if bool_decide (conversationId = id)
    then slice_last 20 (getConversationContext b conversationId ++ [interaction])
    else getConversationContext b id.
Proof.
  unfold getConversationContext, updateConversationContext. simpl.
  set (conversations :=
         match activeConversations b !! conversationId with
         | Some _ => activeConversations b
         | None => <[conversationId := []]> (activeConversations b)
         end).
  assert (default [] (conversations !! conversationId)
          = default [] (activeConversations b !! conversationId)) as Hsame.
  { subst conversations.
    destruct (activeConversations b !! conversationId) eqn:Hget.
    - now rewrite Hget.
    - now rewrite lookup_insert_eq. }
  assert (forall j, j <> conversationId ->
            conversations !! j = activeConversations b !! j) as Hother.
  { intros j Hj. subst conversations.
    destruct (activeConversations b !! conversationId); [reflexivity |].
    now rewrite lookup_insert_ne. }
  case_bool_decide as Hid.
  - subst id. rewrite lookup_insert_eq. simpl. rewrite Hsame.
    set (context := default [] (activeConversations b !! conversationId) ++ [interaction]).
    unfold slice_last.
    destruct (20 <? length context)%nat eqn:Hlen; [reflexivity |].
    apply Nat.ltb_ge in Hlen.
    replace (length context - 20) with 0 by lia. reflexivity.
  - rewrite lookup_insert_ne by exact Hid.
    now rewrite Hother by congruence.
Qed.

Lemma turns_of_snoc id turns turn :
  turns_of id (turns ++ [turn])
  = turns_of id turns ++ (if bool_decide (fst turn = id) then [snd turn] else []).
Proof.
  unfold turns_of. rewrite List.filter_app, List.map_app. simpl.
  now destruct (bool_decide (fst turn = id)).
Qed.

(** The stored context of a conversation is the last 20 of the turns
    appended for it. *)
Lemma append_turns_context turns conversationId :
  getConversationContext (append_turns turns new_bridge) conversationId
  = slice_last 20 (turns_of conversationId turns).
Proof.
  induction turns as [| turn turns IH] using rev_ind.
  - reflexivity.
  - unfold append_turns in *. rewrite List.fold_left_app. simpl.
    rewrite updateConversationContext_lookup, turns_of_snoc.
    case_bool_decide as Hid.
    + rewrite <- Hid at 1. rewrite Hid, IH.
      apply slice_last_snoc. lia.
    + rewrite app_nil_r. exact IH.
Qed.

(** After 21 appends to one conversation, the first turn is gone and the
    other 20 are stored in the order they came. *)
Lemma append_turns_evicts_oldest conversationId first rest :
  length rest = 20 ->
  getConversationContext
    (append_turns (List.map (fun i => (conversationId, i)) (first :: rest)) new_bridge)
    conversationId
  = rest.
Proof.
  intros Hlen. rewrite append_turns_context.
  assert (forall l, turns_of conversationId (List.map (fun i => (conversationId, i)) l) = l)
    as Hall.
  { induction l as [| i l IHl]; [reflexivity |].
    unfold turns_of in *. simpl. rewrite bool_decide_eq_true_2 by reflexivity.
    simpl. now rewrite IHl. }
  rewrite Hall. unfold slice_last. simpl length. rewrite Hlen. reflexivity.
Qed.

(** C7. Whatever turns are appended, in whatever order and for whatever
    conversation ids, the context stored for a conversation id holds at most
    20 turns, and it is the last 20 turns appended for that id in the order
    they were appended: once more than 20 have been appended, the oldest ones
    are the ones that are gone. *)
Theorem C7_context_last_20 (turns : list (string * Interaction)) (conversationId : string) :
  length (getConversationContext (append_turns turns new_bridge) conversationId) <= 20
  /\ getConversationContext (append_turns turns new_bridge) conversationId
     = slice_last 20 (turns_of conversationId turns).
Proof.
  rewrite append_turns_context. split; [apply slice_last_length | reflexivity].
Qed.
End Context.

(** ** Plans wrapped in prose *)

Section Parsing.
Context {World : Type} `{Host World}.
Import MCPBridge.

Lemma append_nil (t : string) : EmptyString +:+ t = t.
Proof. reflexivity. Qed.

Lemma append_cons c (s t : string) : String c s +:+ t = String c (s +:+ t).
Proof. reflexivity. Qed.

Lemma append_assoc (a b c : string) : (a +:+ b) +:+ c = a +:+ (b +:+ c).
Proof.
  induction a as [| x a IH]; [reflexivity |].
  now rewrite !append_cons, IH.
Qed.

Lemma through_last_close_brace_free s :
  brace_free s = true -> through_last_close s = None.
Proof.
  induction s as [| c rest IH]; simpl; [reflexivity |].
  intros Hfree. apply andb_prop in Hfree as [Hc Hrest].
  apply andb_prop in Hc as [_ Hclose].
  rewrite (IH Hrest). now destruct (Ascii.eqb c close_brace).
Qed.

(** The greedy star stops at the closing brace of the object when nothing
    after it closes a brace. *)
Lemma through_last_close_object s post :
  brace_free post = true ->
  through_last_close (s +:+ String close_brace post)
  = Some (s +:+ String close_brace EmptyString).
Proof.
  intros Hpost. induction s as [| c rest IH].
  - rewrite !append_nil. simpl.
    now rewrite (through_last_close_brace_free post Hpost).
  - rewrite !append_cons. simpl. now rewrite IH.
Qed.

(** The match of the regular expression on a brace-free prefix, an object
    and a brace-free suffix is the object. *)
Lemma match_json_wrapped pre members post :
  brace_free pre = true -> brace_free post = true ->
  match_json (pre +:+ object_text members +:+ post) = Some (object_text members).
Proof.
  intros Hpre Hpost. induction pre as [| c rest IH].
  - rewrite append_nil. unfold object_text.
    rewrite append_cons, append_assoc, append_cons, append_nil. simpl.
    now rewrite (through_last_close_object members post Hpost).
  - rewrite append_cons. simpl.
    simpl in Hpre. apply andb_prop in Hpre as [Hc Hrest].
    apply andb_prop in Hc as [Hopen _].
    destruct (Ascii.eqb c open_brace); [discriminate |].
    exact (IH Hrest).
Qed.

(** [selectTools] on such an answer: the plan is the parsed object with its
    [selected_tools] validated, not the heuristic fallback. *)
Lemma selectTools_wrapped userMessage uploadedFiles context (s : Sys World)
    model pre members post v plan w' :
  List.filter i_available (ToolManager.getAvailableTools (toolManager s)) <> [] ->
  currentModel (bridge s) = Some model ->
  client_generateResponse (h_client model)
    (ToolSelectionPrompt userMessage uploadedFiles
       (List.filter i_available (ToolManager.getAvailableTools (toolManager s))))
    (world s)
  = (Ok (pre +:+ object_text members +:+ post), w') ->
  brace_free pre = true -> brace_free post = true ->
  JSON_parse (object_text members) = Some v ->
  plan_of v = Some plan ->
  selectTools userMessage uploadedFiles context s
  = (Ok (validate (List.filter i_available (ToolManager.getAvailableTools (toolManager s))) plan),
     {| bridge := bridge s; toolManager := toolManager s;
        modelManager := modelManager s; world := w' |}).
Proof.
  intros Hactive Hmodel Hgen Hpre Hpost Hparse Hplan.
  unfold selectTools, this_currentModel, generateResponse, try_catch, bind, get.
  destruct (List.filter i_available (ToolManager.getAvailableTools (toolManager s)))
    as [| t0 active] eqn:Hfilter; [congruence |].
  simpl length. cbv iota beta. simpl.
  rewrite Hmodel. unfold ret. rewrite Hgen.
  unfold parse_selection. rewrite (match_json_wrapped _ _ _ Hpre Hpost).
  rewrite Hparse, Hplan. reflexivity.
Qed.

(** C8. When the text of a model response is a JSON object wrapped in prose
    that has no braces, the regular expression extracts exactly the object
    and the parse step yields the parsed object.  [selectTools], when the
    model answers with such a text whose object is a plan, returns that plan
    with its [selected_tools] validated, not the heuristic fallback; and
    [generateStructuredResponse] returns a parsed value: the parsed object
    whenever the text as a whole is not JSON. *)
Theorem C8_prose_wrapped_plan (pre members post : string) (v : Json) :
  brace_free pre = true -> brace_free post = true ->
  JSON_parse (object_text members) = Some v ->
  match_json (pre +:+ object_text members +:+ post) = Some (object_text members)
  /\ parse_selection (pre +:+ object_text members +:+ post) = Some v
  /\ (forall userMessage uploadedFiles context (s : Sys World) model plan w',
        List.filter i_available (ToolManager.getAvailableTools (toolManager s)) <> [] ->
        currentModel (bridge s) = Some model ->
        client_generateResponse (h_client model)
          (ToolSelectionPrompt userMessage uploadedFiles
             (List.filter i_available (ToolManager.getAvailableTools (toolManager s))))
          (world s)
        = (Ok (pre +:+ object_text members +:+ post), w') ->
        plan_of v = Some plan ->
        selectTools userMessage uploadedFiles context s
        = (Ok (validate
                 (List.filter i_available (ToolManager.getAvailableTools (toolManager s)))
                 plan),
           {| bridge := bridge s; toolManager := toolManager s;
              modelManager := modelManager s; world := w' |}))
  /\ (forall prompt (s s1 : Sys World),
        generateResponse ClaudeClient prompt s
        = (Ok (pre +:+ object_text members +:+ post), s1) ->
        exists v',
          generateStructuredResponse prompt s = (Ok v', s1)
          /\ (JSON_parse (pre +:+ object_text members +:+ post) = None -> v' = v)).
Proof.
  intros Hpre Hpost Hparse.
  pose proof (match_json_wrapped pre members post Hpre Hpost) as Hmatch.
  split; [exact Hmatch |]. split; [| split].
  - unfold parse_selection. now rewrite Hmatch.
  - intros userMessage uploadedFiles context s model plan w' Hactive Hmodel Hgen Hplan.
    now apply (selectTools_wrapped userMessage uploadedFiles context s model
                 pre members post v plan w').
  - intros prompt s s1 Hgen.
    unfold generateStructuredResponse. rewrite try_catch_rethrow.
    rewrite (bind_ok _ _ _ _ _ Hgen).
    destruct (JSON_parse (pre +:+ object_text members +:+ post)) as [whole |] eqn:Hwhole.
    + exists whole. split; [reflexivity | discriminate].
    + rewrite Hmatch, Hparse. exists v. split; reflexivity.
Qed.
End Parsing.

(** ** Dispatch of one tool *)

Section Dispatch.
Context {World : Type} `{Host World}.
Import MCPBridge.

(** C2 (as the code has it). Each tool of the execution order is dispatched
    exactly once: executing a plan is the run that dispatches each tool id
    of the execution order once, one after the other, and leaves the state
    those dispatches left.  Whatever the single call of the dispatcher does
    for a tool, return a payload or throw, the record pushed for the tool
    mirrors that outcome, and the state afterwards is the state that call
    left, with the clock read once: no retry policy stands between the
    orchestrator and the dispatcher. *)
Theorem C2_single_dispatch toolSelection uploadedFiles userMessage (s : Sys World) :
  executeTools toolSelection uploadedFiles userMessage s
  = (Ok (fst (dispatch_each toolSelection uploadedFiles userMessage
                (executionOrder toolSelection) s)),
     snd (dispatch_each toolSelection uploadedFiles userMessage
            (executionOrder toolSelection) s))
  /\ (forall id (s0 s1 : Sys World) (o : outcome Json),
        in_toolManager
          (ToolManager.executeTool id
             (tool_arguments (toolManager s0) toolSelection uploadedFiles userMessage id)) s0
        = (o, s1) ->
        execute_one toolSelection uploadedFiles userMessage id s0
        = (Ok (record_of id o (fst (Date_now (world s1)))),
           {| bridge := bridge s1; toolManager := toolManager s1;
              modelManager := modelManager s1; world := snd (Date_now (world s1)) |})
        /\ match o with
           | Ok payload =>
               success (record_of id o (fst (Date_now (world s1)))) = true
               /\ result (record_of id o (fst (Date_now (world s1)))) = Some payload
           | Throw e =>
               success (record_of id o (fst (Date_now (world s1)))) = false
               /\ error (record_of id o (fst (Date_now (world s1)))) = Some (message e)
           end).
Proof.
  split; [apply executeTools_dispatch_each |].
  intros id s0 s1 o Hcall. split.
  - now apply execute_one_dispatch.
  - now destruct o.
Qed.
End Dispatch.

(** ** Parameter translation for the capability server *)

Section Translation.
Import MCPClient.

Lemma lookup_pdf_path_confidence (m : gmap string Json) c :
  (<["confidence" := c]> m) !! "pdf_path" = m !! "pdf_path".
Proof. now rewrite lookup_insert_ne. Qed.

Lemma convert_pdf_path toolId (params : ToolParameters) :
  convertParametersForMCP toolId params !! "pdf_path"
  = JStr <$> (List.find (fun f => bool_decide (f_type f = "application/pdf")) (files params)
              ≫= f_path).
Proof.
  unfold convertParametersForMCP.
  set (found := List.find _ (files params)).
  destruct (parameters params ≫= _) as [c |]; rewrite lookup_pdf_path_confidence;
    (destruct found as [pdfFile |]; simpl; [| reflexivity]);
    (destruct (f_path pdfFile) as [path |]; simpl; [| reflexivity]);
    now rewrite lookup_insert_eq.
Qed.

Lemma convert_confidence toolId (params : ToolParameters) :
  convertParametersForMCP toolId params !! "confidence"
  = Some (default (JNum (2 # 10))
            (parameters params ≫= (fun ps => ps !! "confidence"))).
Proof.
  unfold convertParametersForMCP.
  destruct (parameters params ≫= _) as [c |]; simpl; now rewrite lookup_insert_eq.
Qed.

Lemma find_pointwise {A} (f g : A -> bool) (l : list A) :
  (forall x, f x = g x) -> List.find f l = List.find g l.
Proof.
  intros Hfg. induction l as [| x l IH]; simpl; [reflexivity |].
  now rewrite Hfg, IH.
Qed.

(** For a tool that declares [application/pdf] as its only input type, the
    file chosen is the one the specification names. *)
Lemma translation_primary_agrees (tool : ToolConfig) (params : ToolParameters) :
  t_input_types tool = ["application/pdf"] ->
  convertParametersForMCP (t_id tool) params !! "pdf_path"
  = spec_translate tool params !! "pdf_path".
Proof.
  intros Htypes. rewrite convert_pdf_path.
  unfold spec_translate. rewrite Htypes.
  rewrite (find_pointwise
             (fun f => existsb (fun type => bool_decide (f_type f = type)) ["application/pdf"])
             (fun f => bool_decide (f_type f = "application/pdf"))).
  2: { intros f. simpl. now rewrite orb_false_r. }
  destruct (List.find _ (files params) ≫= f_path) as [path |]; simpl.
  - now rewrite lookup_insert_eq.
  - now rewrite lookup_singleton_ne.
Qed.

(** C3 (as the code has it). For a tool whose declared input type is
    [application/pdf], the translated parameters hold as [pdf_path] the path
    of the first file whose type matches that declared input type, which is
    the first file whose type is exactly [application/pdf]; and they hold as
    [confidence] the confidence of the merged parameters unchanged, or 0.2
    when the merged parameters carry none. *)
Theorem C3_translation (tool : ToolConfig) (params : ToolParameters) :
  t_input_types tool = ["application/pdf"] ->
  convertParametersForMCP (t_id tool) params !! "pdf_path"
  = spec_translate tool params !! "pdf_path"
  /\ convertParametersForMCP (t_id tool) params !! "pdf_path"
     = JStr <$> (List.find (fun f => bool_decide (f_type f = "application/pdf")) (files params)
                 ≫= f_path)
  /\ convertParametersForMCP (t_id tool) params !! "confidence"
     = Some (default (JNum (2 # 10))
               (parameters params ≫= (fun ps => ps !! "confidence"))).
Proof.
  intros Htypes. split; [now apply translation_primary_agrees |].
  split; [apply convert_pdf_path | apply convert_confidence].
Qed.
End Translation.

(** ** Candidate endpoints of a capability-server tool *)

Section Candidates.
Context {World : Type} `{Host World}.
Import MCPClient.

(** An error without a code passes the [catch] block unchanged. *)
Lemma classify_plain toolId msg (st : MCPClient.t * World) :
  classify toolId (Error msg) st = (Throw (Error msg), st).
Proof. reflexivity. Qed.

(** What the [catch] block throws depends on the error it is given only. *)
Lemma classify_throws toolId e (st : MCPClient.t * World) :
  exists e' st', classify toolId e st = (Throw e', st').
Proof.
  unfold classify, bind, get, modify, throw.
  repeat case_bool_decide; destruct st as [c w]; now eexists _, _.
Qed.

(** C9 (as the code has it). For a connected client and a tool with an
    endpoint of its own, that endpoint is tried first.  When its request
    resolves, its response decides: the payload for status 200, a status
    error otherwise, and the protocol endpoint is not tried.  When its
    request throws, the protocol endpoint is tried: when that request
    resolves, its response decides in the same way; when it throws too, the
    error that reaches the [catch] block is the one of the first request, not
    the one of the second. *)
Theorem C9_candidates_in_order (this : MCPClient.t) (w : World) toolId params
    specificEndpoint o1 st1 :
  isConnected this = true ->
  toolEndpointMap toolId = Some specificEndpoint ->
  call_specific this specificEndpoint (convertParametersForMCP toolId params) (this, w)
  = (o1, st1) ->
  executeTool toolId params (this, w)
  = match o1 with
    | Ok r1 => finish toolId r1 st1
    | Throw e1 =>
        match call_tool this toolId (convertParametersForMCP toolId params) st1 with
        | (Ok r2, st2) => finish toolId r2 st2
        | (Throw e2, st2) => classify toolId e1 st2
        end
    end.
Proof.
  intros Hconnected Hmap Hspecific.
  unfold executeTool.
  unfold try_catch at 1, bind at 1, get. cbn [fst].
  rewrite Hconnected, Hmap. cbn [negb].
  unfold bind, try_catch. rewrite Hspecific.
  destruct o1 as [r1 | e1].
  - unfold finish. destruct (status r1 =? 200)%Z; simpl; [reflexivity |].
    unfold throw. now rewrite classify_plain.
  - destruct (call_tool this toolId (convertParametersForMCP toolId params) st1)
      as [[r2 | e2] st2].
    + unfold finish. destruct (status r2 =? 200)%Z; simpl; [reflexivity |].
      unfold throw. now rewrite classify_plain.
    + reflexivity.
Qed.
End Candidates.

(** ** Model switching *)

Section Switching.
Context {World : Type} `{Host World}.
Import MCPBridge.

(** C10. Switching to a model id that has no initialized client throws the
    error of [getModel] and leaves the whole state, the active model handle
    included, as it was. *)
Theorem C10_switch_failure_keeps_model (modelId : string) (s : Sys World) :
  ModelManager.modelClients (modelManager s) !! modelId = None ->
  switchModel modelId s
  = (Throw (Error ("Model " +:+ modelId +:+ " not available")), s)
  /\ currentModel (bridge (snd (switchModel modelId s))) = currentModel (bridge s).
Proof.
  intros Hnone.
  assert (switchModel modelId s
          = (Throw (Error ("Model " +:+ modelId +:+ " not available")), s)) as Hrun.
  { unfold switchModel. rewrite try_catch_rethrow.
    unfold bind, get, ModelManager.getModel. now rewrite Hnone. }
  split; [exact Hrun |]. now rewrite Hrun.
Qed.

(** A switch that succeeds replaces the handle and nothing else. *)
Lemma switchModel_success (modelId : string) (s : Sys World) model :
  ModelManager.getModel (modelManager s) modelId = Ok model ->
  switchModel modelId s
  = (Ok true, {| bridge := set_currentModel model (bridge s);
                 toolManager := toolManager s;
                 modelManager := modelManager s; world := world s |}).
Proof.
  intros Hget. unfold switchModel. rewrite try_catch_rethrow.
  unfold bind, get, modify, ret. now rewrite Hget.
Qed.
End Switching.

(** ** Validation of a plan *)

Section Validation.
Import MCPBridge.

(** The ids kept in [selected_tools] are ids of active tools. *)
Lemma validate_selected_active activeTools plan id :
  In id (selected_tools (validate activeTools plan)) ->
  In id (List.map i_id activeTools).
Proof.
  unfold validate. simpl. intros Hin.
  apply List.filter_In in Hin as [_ Hex].
  apply List.existsb_exists in Hex as (t & Ht & Hid).
  apply bool_decide_eq_true_1 in Hid. subst id.
  now apply List.in_map.
Qed.

(** A plan without a list [execution_order] is executed in the order of its
    validated [selected_tools]. *)
Lemma executionOrder_without_list activeTools plan id :
  execution_order plan = None ->
  In id (executionOrder (validate activeTools plan)) ->
  In id (List.map i_id activeTools).
Proof.
  intros Hnone. unfold executionOrder. simpl. rewrite Hnone.
  apply validate_selected_active.
Qed.

(** The validation leaves [execution_order] as the model gave it. *)
Lemma validate_execution_order activeTools plan :
  execution_order (validate activeTools plan) = execution_order plan.
Proof. reflexivity. Qed.
End Validation.

(** ** Runs on concrete inputs *)

Section Runs.
Import MCPBridge Fixture.

(** The string functions on small inputs. *)
Example includes_pdf : includes "application/pdf" "pdf" = true.
Proof. reflexivity. Qed.

Example split_mime : split_on "/"%char "application/pdf" = ["application"; "pdf"].
Proof. reflexivity. Qed.

Example set_spread_keeps_first :
  set_spread ["image_analyzer"; "extract_all_from_pdf"; "image_analyzer"]
  = ["image_analyzer"; "extract_all_from_pdf"].
Proof. reflexivity. Qed.

Example match_json_is_greedy : match_json "see {a} and {b} here" = Some "{a} and {b}".
Proof. reflexivity. Qed.

Example match_json_none : match_json "} no object {" = None.
Proof. reflexivity. Qed.

(** The heuristic fallback on a PDF, two images and a spreadsheet. *)
Example fallback_by_type :
  selected_tools
    (fallbackToolSelection
       [ pdf_file;
         {| f_name := "a.png"; f_type := "image/png"; f_size := 10; f_path := None |};
         {| f_name := "b.gif"; f_type := "image/gif"; f_size := 10; f_path := None |};
         {| f_name := "c.xls"; f_type := "application/vnd.ms-excel"; f_size := 10;
            f_path := None |} ])
  = ["extract_all_from_pdf"; "image_analyzer"; "excel_processor"].
Proof. reflexivity. Qed.

(** C1 (the code at a failing input). The model answers with a plan whose
    [selected_tools] is [pdf_analyzer] and whose [execution_order] lists
    [ghost_tool] first. Validation keeps [selected_tools] as it is and does
    not touch [execution_order]; the Executing phase then runs over
    [ghost_tool] too, an id that no tool of the catalogue has, and records a
    result for it. *)
Theorem C1_execution_order_unvalidated :
  exists plan s1 rs s2,
    selectTools "analyze" [] [] (system tools world_plan) = (Ok plan, s1)
    /\ selected_tools plan = ["pdf_analyzer"]
    /\ executeTools plan [] "analyze" s1 = (Ok rs, s2)
    /\ List.map toolId rs = ["ghost_tool"; "pdf_analyzer"]
    /\ existsb (fun t => bool_decide (i_id t = "ghost_tool"))
         (List.filter i_available (ToolManager.getAvailableTools tools)) = false.
Proof.
  eexists _, _, _, _.
  split; [vm_compute; reflexivity |].
  split; [reflexivity |].
  split; [vm_compute; reflexivity |].
  split; vm_compute; reflexivity.
Qed.

(** The heuristic fallback is not validated either: with no client for the
    capability server and no model answer, a PDF file selects
    [extract_all_from_pdf], which is not available, and the Executing phase
    runs over it. *)
Lemma fallback_unvalidated :
  exists plan s1 rs s2,
    selectTools "analyze" [pdf_file] [] (system tools_without_server world_down)
    = (Ok plan, s1)
    /\ executeTools plan [pdf_file] "analyze" s1 = (Ok rs, s2)
    /\ List.map toolId rs = ["extract_all_from_pdf"]
    /\ List.map error rs = [Some "MCP client document_analysis not available"]
    /\ existsb (fun t => bool_decide (i_id t = "extract_all_from_pdf"))
         (List.filter i_available (ToolManager.getAvailableTools tools_without_server))
       = false.
Proof.
  eexists _, _, _, _.
  split; [vm_compute; reflexivity |].
  split; [vm_compute; reflexivity |].
  repeat split; vm_compute; reflexivity.
Qed.

(** C2 (counterexample). The container fails twice and would answer 200 the
    third time: three dispatches in a row fail, fail and succeed. The plan's
    one tool gets one request: its result is a failure, and the second and
    third answers are never asked for. *)
Lemma C2_no_retry_counterexample :
  List.map success
    (fst (dispatch_each pdf_plan [] "analyze"
            ["pdf_analyzer"; "pdf_analyzer"; "pdf_analyzer"] (system tools world_flaky)))
  = [false; false; true]
  /\ exists r s',
      executeTools pdf_plan [] "analyze" (system tools world_flaky) = (Ok [r], s')
      /\ success r = false
      /\ error r = Some "Request failed with status code 500"
      /\ world s' = flaky_after_one.
Proof.
  split; [vm_compute; reflexivity |].
  eexists _, _. split; [vm_compute; reflexivity |].
  repeat split.
Qed.

Lemma C2_single_dispatch_witness :
  executeTools pdf_plan [] "analyze" (system tools world_flaky)
  = (Ok [record_of "pdf_analyzer" (Throw server_error) "2024-01-01T00:00:00.000Z"],
     system tools flaky_after_one)
  /\ execute_one pdf_plan [] "analyze" "pdf_analyzer" (system tools world_flaky)
     = (Ok (record_of "pdf_analyzer" (Throw server_error) "2024-01-01T00:00:00.000Z"),
        system tools flaky_after_one).
Proof.
  destruct (C2_single_dispatch pdf_plan [] "analyze" (system tools world_flaky))
    as [Hrun Hone].
  split.
  - rewrite Hrun. vm_compute. reflexivity.
  - exact (proj1 (Hone "pdf_analyzer" (system tools world_flaky)
                    (system tools flaky_after_one) (Throw server_error) eq_refl)).
Defined.

(** With the defaults of the catalogue, which hold booleans, the body is
    refused when it is written: the tool fails with the [TypeError] of the
    request stream and no request reaches the container. *)
Lemma default_parameters_refused :
  exists r s',
    executeTools default_plan [] "analyze" (system tools world_flaky) = (Ok [r], s')
    /\ success r = false
    /\ error r = Some "data should be a string, Buffer or Uint8Array"
    /\ world s' = world_flaky.
Proof.
  eexists _, _. split; [vm_compute; reflexivity |].
  repeat split.
Qed.

(** [retryWithBackoff] itself, were it called with [maxRetries = 2], makes
    two attempts in all and throws the second failure; the third answer is
    reached with [maxRetries = 3] only. *)
Lemma retryWithBackoff_attempts :
  fst (Helpers.retryWithBackoff no_delay flaky_call 2 1000 world_flaky) = Throw server_error
  /\ fst (Helpers.retryWithBackoff no_delay flaky_call 3 1000 world_flaky)
     = Ok (Some ok_response).
Proof. split; vm_compute; reflexivity. Qed.

(** C3 (counterexample). The merged parameters carry the confidence 5 and
    the tool's descriptor declares the bounds 0.1 and 0.9: the translated
    confidence is 5, where the clamped value is 0.9. *)
Lemma C3_not_clamped_counterexample :
  MCPClient.convertParametersForMCP "extract_all_from_pdf" confidence_five !! "confidence"
  = Some (JNum 5)
  /\ spec_translate extract_all_from_pdf confidence_five !! "confidence"
     = Some (JNum (9 # 10))
  /\ t_parameters extract_all_from_pdf !! "confidence" = Some confidence_spec
  /\ ~ (5 <= 9 # 10)%Q.
Proof.
  split; [vm_compute; reflexivity |].
  split; [vm_compute; reflexivity |].
  split; [vm_compute; reflexivity |].
  unfold Qle. simpl. lia.
Qed.

Lemma C3_translation_witness :
  MCPClient.convertParametersForMCP "extract_all_from_pdf" confidence_five !! "pdf_path"
  = Some (JStr "uploads/report.pdf")
  /\ MCPClient.convertParametersForMCP "extract_all_from_pdf" no_overrides !! "confidence"
     = Some (JNum (2 # 10)).
Proof.
  destruct (C3_translation extract_all_from_pdf confidence_five eq_refl) as (_ & Hpath & _).
  destruct (C3_translation extract_all_from_pdf no_overrides eq_refl) as (_ & _ & Hconf).
  split; [exact Hpath | exact Hconf].
Defined.

(** A turn on the scripted host: the model gives the plan with parameters,
    [ghost_tool] fails and [pdf_analyzer] succeeds, and the confidence
    returned with the turn is one half. *)
Lemma C6_confidence_ratio_witness :
  exists r s',
    processUserRequest "c1" "analyze" [] (system tools world_typed) = (Ok r, s')
    /\ r_error r = None
    /\ r_toolsUsed r = ["pdf_analyzer"]
    /\ r_confidence r = 1 # 2.
Proof.
  edestruct (C6_confidence_ratio "c1" "analyze" [] (system tools world_typed) deepseek_handle)
    as (r & s' & Hrun & Herr & Hused & _ & Hratio & _).
  - reflexivity.
  - reflexivity.
  - vm_compute. reflexivity.
  - vm_compute. reflexivity.
  - exists r, s'. split; [exact Hrun |]. split; [exact Herr |].
    split; [exact Hused |].
    rewrite Hratio by (simpl; lia). vm_compute. reflexivity.
Defined.

Lemma C8_prose_wrapped_plan_witness :
  match_json typed_answer = Some typed_text
  /\ parse_selection (World := Script) typed_answer = Some typed_json
  /\ exists plan,
      plan_of typed_json = Some plan
      /\ selected_tools plan = ["pdf_analyzer"]
      /\ tool_parameters plan !! "pdf_analyzer" = Some pdf_overrides
      /\ selectTools "analyze" [] [] (system tools world_typed)
         = (Ok (validate
                  (List.filter i_available (ToolManager.getAvailableTools tools)) plan),
            system tools world_typed).
Proof.
  destruct (C8_prose_wrapped_plan (World := Script)
              "Here is the plan: " typed_members " thanks" typed_json)
    as (Hmatch & Hparse & Hselect & _).
  - reflexivity.
  - reflexivity.
  - vm_compute. reflexivity.
  - split; [exact Hmatch |]. split; [exact Hparse |].
    eexists. split; [reflexivity |]. split; [reflexivity |].
    split; [vm_compute; reflexivity |].
    apply (Hselect "analyze" [] [] (system tools world_typed) deepseek_handle).
    + discriminate.
    + reflexivity.
    + reflexivity.
    + reflexivity.
Defined.

(** C9 (counterexample). The tool's own endpoint rejects the request and the
    protocol endpoint resolves with status 204: both candidates have failed
    to return HTTP 200, and the error propagated is the status error of the
    second candidate, not the rejection of the first. *)
Lemma C9_second_failure_counterexample :
  exists st1 st2,
    MCPClient.call_specific document_analysis "/extract-all"
      (MCPClient.convertParametersForMCP "extract_all_from_pdf" no_overrides)
      (document_analysis, world_204)
    = (Throw server_error, st1)
    /\ MCPClient.call_tool document_analysis "extract_all_from_pdf"
         (MCPClient.convertParametersForMCP "extract_all_from_pdf" no_overrides) st1
       = (Ok {| status := 204; data := JNull |}, st2)
    /\ MCPClient.executeTool "extract_all_from_pdf" no_overrides
         (document_analysis, world_204)
       = (Throw (Error "MCP tool execution failed with status: 204"), st2)
    /\ Error "MCP tool execution failed with status: 204" <> server_error.
Proof.
  eexists _, _.
  split; [vm_compute; reflexivity |].
  split; [vm_compute; reflexivity |].
  split; [vm_compute; reflexivity |].
  discriminate.
Qed.

Lemma C9_candidates_in_order_witness :
  MCPClient.executeTool "extract_all_from_pdf" no_overrides
    (document_analysis, world_both_fail)
  = (Throw server_error, (document_analysis, both_failed)).
Proof.
  rewrite (C9_candidates_in_order document_analysis world_both_fail
             "extract_all_from_pdf" no_overrides "/extract-all"
             (Throw server_error)
             (document_analysis,
              {| answers := [Throw refused];
                 posted := ["http://192.168.1.29:8000/extract-all"];
                 model_text := None |})).
  - vm_compute. reflexivity.
  - reflexivity.
  - reflexivity.
  - vm_compute. reflexivity.
Defined.

Lemma C10_switch_failure_keeps_model_witness :
  switchModel "gpt-4o" (system tools world_down)
  = (Throw (Error "Model gpt-4o not available"), system tools world_down).
Proof.
  apply (C10_switch_failure_keeps_model "gpt-4o" (system tools world_down)).
  vm_compute. reflexivity.
Defined.
End Runs.

(** * Further properties of the services *)

(** ** Heuristic selection and validation *)

Section Selection.
Import MCPBridge.

Lemma set_spread_aux_elem seen l x :
  x ∈ set_spread_aux seen l <-> x ∈ l /\ x ∉ seen.
Proof.
  revert seen. induction l as [| y l IH]; intros seen; simpl.
  - split; [intros Hin; inversion Hin | intros [Hin _]; inversion Hin].
  - case_bool_decide as Hy.
    + rewrite IH, elem_of_cons. split.
      * intros [Hl Hs]. split; [now right | exact Hs].
      * intros [[-> | Hl] Hs]; [contradiction | now split].
    + rewrite !elem_of_cons, IH, elem_of_cons. split.
      * intros [-> | [Hl Hs]]; [split; [now left | exact Hy] |].
        split; [now right | intros Hin; apply Hs; now right].
      * intros [[-> | Hl] Hs]; [now left |].
        destruct (decide (x = y)) as [-> | Hne]; [now left |].
        right. split; [exact Hl |]. intros [-> | Hin]; [congruence | contradiction].
Qed.

Lemma set_spread_aux_NoDup seen l : NoDup (set_spread_aux seen l).
Proof.
  revert seen. induction l as [| y l IH]; intros seen; simpl.
  - constructor.
  - case_bool_decide as Hy; [apply IH |].
    apply NoDup_cons. split; [| apply IH].
    rewrite set_spread_aux_elem. intros [_ Hs]. apply Hs. now left.
Qed.

(** The spread of a [Set] has the elements of the array and no
    duplicates. *)
Lemma set_spread_spec l :
  NoDup (set_spread l) /\ (forall x, x ∈ set_spread l <-> x ∈ l).
Proof.
  split; [apply set_spread_aux_NoDup |].
  intros x. unfold set_spread. rewrite set_spread_aux_elem.
  split; [now intros [Hin _] | intros Hin; split; [exact Hin | inversion 1]].
Qed.

Lemma set_spread_aux_length seen l : length (set_spread_aux seen l) <= length l.
Proof.
  revert seen. induction l as [| y l IH]; intros seen; simpl; [lia |].
  case_bool_decide; [specialize (IH seen) | specialize (IH (y :: seen))]; simpl; lia.
Qed.

Lemma fallback_tool_length file : length (fallback_tool file) <= 1.
Proof.
  unfold fallback_tool.
  repeat match goal with |- context [if ?b then _ else _] => destruct b end; simpl; lia.
Qed.

Lemma concat_fallback_length uploadedFiles :
  length (List.concat (List.map fallback_tool uploadedFiles)) <= length uploadedFiles.
Proof.
  induction uploadedFiles as [| file rest IH]; simpl; [lia |].
  rewrite length_app. pose proof (fallback_tool_length file). lia.
Qed.

(** X1. The plan of the heuristic fallback selects each tool once, runs the
    tools in the order selected, selects at most one tool per uploaded file,
    and selects a tool exactly when the type of some uploaded file maps to
    it. *)
Theorem fallback_selection_by_file (uploadedFiles : list FileRecord) :
  let plan := fallbackToolSelection uploadedFiles in
  NoDup (selected_tools plan)
  /\ execution_order plan = Some (selected_tools plan)
  /\ length (selected_tools plan) <= length uploadedFiles
  /\ (forall id, id ∈ selected_tools plan
                 <-> exists file, file ∈ uploadedFiles /\ fallback_tool file = [id]).
Proof.
  simpl. destruct (set_spread_spec (List.concat (List.map fallback_tool uploadedFiles)))
    as [Hnodup Helem].
  split; [exact Hnodup |]. split; [reflexivity |]. split.
  - etransitivity; [apply set_spread_aux_length | apply concat_fallback_length].
  - intros id. rewrite Helem. rewrite list_elem_of_In, List.in_concat. split.
    + intros (tools & Htools & Hid). apply List.in_map_iff in Htools as (file & <- & Hfile).
      exists file. split; [now apply list_elem_of_In |].
      pose proof (fallback_tool_length file) as Hlen.
      destruct (fallback_tool file) as [| t [| t' rest]]; simpl in *; try lia.
      destruct Hid as [-> | []]. reflexivity.
    + intros (file & Hfile & Htool). exists [id]. split; [| now left].
      apply List.in_map_iff. exists file. split; [exact Htool | now apply list_elem_of_In].
Qed.

(** X2. Validation keeps exactly the selected ids that are ids of active
    tools, in their order, and validating twice changes nothing more. *)
Theorem validate_keeps_active (activeTools : list ToolInfo) (plan : ToolSelection) :
  selected_tools (validate activeTools plan)
  = List.filter (fun id => bool_decide (id ∈ List.map i_id activeTools)) (selected_tools plan)
  /\ (forall id, id ∈ selected_tools (validate activeTools plan)
                 <-> id ∈ selected_tools plan /\ id ∈ List.map i_id activeTools)
  /\ validate activeTools (validate activeTools plan) = validate activeTools plan.
Proof.
  assert (forall id,
            existsb (fun t => bool_decide (i_id t = id)) activeTools
            = bool_decide (id ∈ List.map i_id activeTools)) as Hex.
  { intros id. apply eq_true_iff_eq. rewrite List.existsb_exists, bool_decide_eq_true.
    rewrite list_elem_of_In, List.in_map_iff. split.
    - intros (t & Ht & Hid). apply bool_decide_eq_true_1 in Hid. now exists t.
    - intros (t & Hid & Ht). exists t. split; [exact Ht | now apply bool_decide_eq_true_2]. }
  assert (selected_tools (validate activeTools plan)
          = List.filter (fun id => bool_decide (id ∈ List.map i_id activeTools))
              (selected_tools plan)) as Hsel.
  { unfold validate. simpl. apply List.filter_ext. exact Hex. }
  split; [exact Hsel |]. split.
  - intros id. rewrite Hsel, list_elem_of_In, List.filter_In, bool_decide_eq_true.
    now rewrite <- list_elem_of_In.
  - unfold validate at 1 3. simpl. f_equal. clear Hsel.
    induction (selected_tools plan) as [| id rest IH]; simpl; [reflexivity |].
    destruct (existsb _ activeTools) eqn:Hid; simpl; [rewrite Hid |]; now rewrite ?IH.
Qed.
End Selection.

(** ** The dispatcher and unavailable tools *)

Section Unavailable.
Context {World : Type} `{Host World}.

Lemma set_client_same serverName c (tm : ToolManager.t) :
  ToolManager.mcpClients tm !! serverName = Some c ->
  ToolManager.set_client serverName c tm = tm.
Proof.
  intros Hget. destruct tm as [tools clients endpoint]. unfold ToolManager.set_client.
  simpl in *. f_equal. now apply insert_id.
Qed.

Lemma not_connected_throws (c : MCPClient.t) (w : World) toolId params :
  MCPClient.isConnected c = false ->
  MCPClient.executeTool toolId params (c, w)
  = (Throw (Error ("MCP server " +:+ MCPClient.name c +:+ " is not connected")), (c, w)).
Proof.
  intros Hoff. unfold MCPClient.executeTool, try_catch, bind, get. cbn [fst].
  rewrite Hoff. reflexivity.
Qed.

(** X3. A client that is not connected refuses every tool call at once:
    the error names the server, no request is made and nothing changes. *)
Theorem disconnected_client_fails_fast (c : MCPClient.t) (w : World) toolId params :
  MCPClient.isConnected c = false ->
  MCPClient.executeTool toolId params (c, w)
  = (Throw (Error ("MCP server " +:+ MCPClient.name c +:+ " is not connected")), (c, w)).
Proof. apply not_connected_throws. Qed.

(** X4. A tool id that has no config, or whose config is not available
    ([isToolAvailable] is false), is never dispatched: [executeTool] throws
    and leaves the tool manager and the world as they were. *)
Theorem unavailable_tool_not_dispatched (tm : ToolManager.t) (w : World) toolId params :
  (forall toolConfig, ToolManager.getToolConfig tm toolId = Some toolConfig ->
                      ToolManager.isToolAvailable tm toolConfig = false) ->
  exists e, ToolManager.executeTool toolId params (tm, w) = (Throw e, (tm, w)).
Proof.
  intros Hunavailable.
  unfold ToolManager.executeTool. rewrite try_catch_rethrow.
  unfold bind, get. cbn [fst].
  destruct (ToolManager.getToolConfig tm toolId) as [toolConfig |]; [| now eexists].
  specialize (Hunavailable toolConfig eq_refl).
  unfold ToolManager.isToolAvailable in Hunavailable.
  destruct (bool_decide (t_source toolConfig = "mcp")).
  - unfold ToolManager.executeMCPTool. rewrite try_catch_rethrow.
    unfold bind, get. cbn [fst].
    destruct (ToolManager.mcpClients tm !! ToolManager.server_of toolConfig)
      as [mcpClient |] eqn:Hclient; [| now eexists].
    unfold ToolManager.with_client.
    rewrite (not_connected_throws mcpClient w _ _ Hunavailable).
    rewrite (set_client_same _ _ _ Hclient). now eexists.
  - destruct (bool_decide (t_source toolConfig = "docker")); [| now eexists].
    unfold ToolManager.executeDockerTool. rewrite try_catch_rethrow.
    unfold bind, get. cbn [fst].
    apply bool_decide_eq_false_1 in Hunavailable.
    destruct (ToolManager.dockerEndpoint tm); [| now eexists].
    exfalso. apply Hunavailable. discriminate.
Qed.







End Unavailable.

(** ** Building an invocation *)

Section Invocation.
Context {World : Type} `{Host World}.
Import MCPBridge.

(** X6. The files handed to a tool: all the uploaded files when the tool id
    has no config; otherwise uploaded files only, in their order, among them
    every file whose type is one of the tool's input types. *)
Theorem filterFilesForTool_selects (tm : ToolManager.t) toolId (uploadedFiles : list FileRecord) :
  match ToolManager.getToolConfig tm toolId with
  | None => filterFilesForTool tm toolId uploadedFiles = uploadedFiles
  | Some toolConfig =>
      sublist (filterFilesForTool tm toolId uploadedFiles) uploadedFiles
      /\ (forall file, file ∈ uploadedFiles ->
            f_type file ∈ t_input_types toolConfig ->
            file ∈ filterFilesForTool tm toolId uploadedFiles)
  end.
Proof.
  unfold filterFilesForTool.
  destruct (ToolManager.getToolConfig tm toolId) as [toolConfig |]; [| reflexivity].
  split.
  - induction uploadedFiles as [| file rest IH]; simpl; [constructor |].
    destruct (existsb _ (t_input_types toolConfig)); now constructor.
  - intros file Hfile Htype. apply list_elem_of_In, List.filter_In.
    split; [now apply list_elem_of_In |].
    apply List.existsb_exists. exists (f_type file).
    split; [now apply list_elem_of_In |].
    now rewrite bool_decide_eq_true_2.
Qed.

(** X7. The merged parameters of a tool, key by key: a confidence found in
    the user message wins; otherwise the plan's override for that tool and
    key; otherwise the default of the tool's descriptor. *)
Theorem getToolParameters_precedence (tm : ToolManager.t) toolId userMessage
    (toolSelection : ToolSelection) (key : string) :
  getToolParameters tm toolId userMessage toolSelection !! key
  = match (if bool_decide (key = "confidence") then confidenceMatch userMessage else None) with
    | Some c => Some c
    | None =>
        match tool_parameters toolSelection !! toolId ≫= (fun overrides => overrides !! key) with
        | Some v => Some v
        | None =>
            ToolManager.getToolConfig tm toolId
              ≫= (fun toolConfig => p_default <$> t_parameters toolConfig !! key)
        end
    end.
Proof.
  unfold getToolParameters.
  set (defaults := match ToolManager.getToolConfig tm toolId with
                   | Some toolConfig => p_default <$> t_parameters toolConfig
                   | None => ∅
                   end).
  assert (defaults !! key
          = ToolManager.getToolConfig tm toolId
              ≫= (fun toolConfig => p_default <$> t_parameters toolConfig !! key)) as Hdefaults.
  { subst defaults. destruct (ToolManager.getToolConfig tm toolId) as [toolConfig |]; simpl.
    - apply lookup_fmap.
    - apply lookup_empty. }
  set (merged := match tool_parameters toolSelection !! toolId with
                 | Some overrides => overrides ∪ defaults
                 | None => defaults
                 end).
  assert (merged !! key
          = match tool_parameters toolSelection !! toolId ≫= (fun overrides => overrides !! key) with
            | Some v => Some v
            | None => defaults !! key
            end) as Hmerged.
  { subst merged. destruct (tool_parameters toolSelection !! toolId) as [overrides |]; simpl;
      [| reflexivity].
    rewrite lookup_union. destruct (overrides !! key), (defaults !! key); reflexivity. }
  case_bool_decide as Hkey.
  - subst key. destruct (confidenceMatch userMessage) as [c |].
    + now rewrite lookup_insert_eq.
    + now rewrite Hmerged, Hdefaults.
  - destruct (confidenceMatch userMessage) as [c |].
    + rewrite lookup_insert_ne by congruence. now rewrite Hmerged, Hdefaults.
    + now rewrite Hmerged, Hdefaults.
Qed.
End Invocation.

(** ** Synthesis *)

Section Synthesis.
Context {World : Type} `{Host World}.
Import MCPBridge.

Lemma filter_all_failed (toolResults : list ToolResult) :
  List.filter success toolResults = [] ->
  List.filter (fun r => negb (success r)) toolResults = toolResults.
Proof.
  induction toolResults as [| r rest IH]; simpl; [reflexivity |].
  destruct (success r); simpl; [discriminate |]. intros Hrest. now rewrite IH.
Qed.

(** X8. When no tool succeeded, the response is written without any call to
    a model and nothing changes: the fixed apology when there are no results
    at all, and otherwise one [toolId: error] entry per result, in order,
    joined by semicolons. *)
Theorem synthesizeResponse_without_success userMessage (toolResults : list ToolResult)
    context (s : Sys World) :
  List.filter success toolResults = [] ->
  synthesizeResponse userMessage toolResults context s
  = (Ok (match toolResults with
         | [] => "I apologize, but I couldn't process your request. No tools were successfully executed."
         | _ :: _ =>
             "I encountered errors while processing your request: "
             +:+ join "; "
                   (List.map (fun r => toolId r +:+ ": " +:+ default "undefined" (error r))
                      toolResults)
             +:+ ". Please check your files and try again."
         end), s).
Proof.
  intros Hnone. unfold synthesizeResponse, try_catch.
  rewrite Hnone, (filter_all_failed _ Hnone). simpl.
  now destruct toolResults.
Qed.

(** The fallback text cannot be built when a succeeded result has no
    payload: the rendering of that result throws. *)
Lemma generateFallbackResponse_missing stringify (toolResults : list ToolResult) :
  (exists r, r ∈ toolResults /\ success r = true /\ result r = None) ->
  generateFallbackResponse stringify toolResults
  = Throw (Error "Cannot read properties of undefined (reading 'substring')").
Proof.
  intros (r & Hin & Hsuccess & Hnone). unfold generateFallbackResponse.
  assert (r ∈ List.filter success toolResults) as Hfiltered.
  { apply list_elem_of_In, List.filter_In. split; [now apply list_elem_of_In |].
    exact Hsuccess. }
  destruct (List.filter success toolResults) as [| r0 rest] eqn:Hfilter.
  { now apply elem_of_nil in Hfiltered. }
  change (length (r0 :: rest) =? 0)%nat with false. cbv iota.
  match goal with |- context [List.fold_left ?f _ (Ok ?a)] =>
    assert (forall l e, List.fold_left f l (Throw e) = Throw e) as Hstays;
    [| assert (forall l text0, r ∈ l ->
                 List.fold_left f l (Ok text0)
                 = Throw (Error "Cannot read properties of undefined (reading 'substring')"))
         as Hfold]
  end.
  { induction l as [| x l IH]; intros e; simpl; [reflexivity | apply IH]. }
  { induction l as [| x l IH]; intros text0 Hl; [now apply elem_of_nil in Hl |].
    cbn [List.fold_left].
    destruct (result x) as [payload |] eqn:Hx; [| apply Hstays].
    apply IH. apply elem_of_cons in Hl as [-> | Hl]; [congruence | exact Hl]. }
  now rewrite Hfold.
Qed.

Lemma synthesizeResponse_falls_back userMessage (toolResults : list ToolResult)
    context (s s1 : Sys World) model e :
  List.filter success toolResults <> [] ->
  currentModel (bridge s) = Some model ->
  generateResponse (h_client model)
    (ResponseSynthesisPrompt userMessage (List.filter success toolResults)
       (slice_last 3 context)) s = (Throw e, s1) ->
  synthesizeResponse userMessage toolResults context s
  = (generateFallbackResponse JSON_stringify toolResults, s1).
Proof.
  intros Hsome Hmodel Hgen.
  unfold synthesizeResponse, this_currentModel, try_catch, bind, get, of_outcome.
  destruct (List.filter success toolResults) as [| r rest] eqn:Hfilter; [congruence |].
  change (length (r :: rest) =? 0)%nat with false. cbv beta iota.
  rewrite Hmodel. unfold ret. now rewrite Hgen.
Qed.

(** X9. When some tool succeeded and the call to the model throws, the
    failure of the model is not propagated: the outcome is the one of the
    deterministic rendering of the results.  That rendering is a text when
    every succeeded result carries a payload, as the results of executing a
    plan do; it throws a [TypeError] when a succeeded result has none. *)
Theorem synthesizeResponse_model_failure userMessage (toolResults : list ToolResult)
    context (s s1 : Sys World) model e :
  List.filter success toolResults <> [] ->
  currentModel (bridge s) = Some model ->
  generateResponse (h_client model)
    (ResponseSynthesisPrompt userMessage (List.filter success toolResults)
       (slice_last 3 context)) s = (Throw e, s1) ->
  synthesizeResponse userMessage toolResults context s
  = (generateFallbackResponse JSON_stringify toolResults, s1)
  /\ (Forall (fun r => has_payload r = true) toolResults ->
      exists text, generateFallbackResponse JSON_stringify toolResults = Ok text)
  /\ ((exists r, r ∈ toolResults /\ success r = true /\ result r = None) ->
      generateFallbackResponse JSON_stringify toolResults
      = Throw (Error "Cannot read properties of undefined (reading 'substring')")).
Proof.
  intros Hsome Hmodel Hgen. split; [| split].
  - now apply (synthesizeResponse_falls_back _ _ _ _ _ model e).
  - apply generateFallbackResponse_payload.
  - apply generateFallbackResponse_missing.
Qed.
End Synthesis.

(** ** What a turn changes *)

Section Frame.
Context {World : Type} `{Host World}.
Import MCPBridge.

Lemma keeps_ret {A} (a : A) : keeps_bridge (World := World) (ret a).
Proof. now intros s. Qed.

Lemma keeps_throw {A} e : keeps_bridge (World := World) (A := A) (throw e).
Proof. now intros s. Qed.

Lemma keeps_get : keeps_bridge (World := World) (get (S := Sys World)).
Proof. now intros s. Qed.

Lemma keeps_bind {A B} (m : M (S := Sys World) A) (k : A -> M B) :
  keeps_bridge m -> (forall a, keeps_bridge (k a)) -> keeps_bridge (bind m k).
Proof.
  intros Hm Hk s. unfold bind. destruct (Hm s) as [Hb Hmm].
  destruct (m s) as [[a | e] s1]; simpl in *; [| now split].
  destruct (Hk a s1) as [Hb' Hmm']. split; congruence.
Qed.

Lemma keeps_try_catch {A} (m : M (S := Sys World) A) h :
  keeps_bridge m -> (forall e, keeps_bridge (h e)) -> keeps_bridge (try_catch m h).
Proof.
  intros Hm Hh s. unfold try_catch. destruct (Hm s) as [Hb Hmm].
  destruct (m s) as [[a | e] s1]; simpl in *; [now split |].
  destruct (Hh e s1) as [Hb' Hmm']. split; congruence.
Qed.

Lemma keeps_in_toolManager {A} (m : M (S := ToolManager.t * World) A) :
  keeps_bridge (in_toolManager m).
Proof.
  intros s. unfold in_toolManager.
  now destruct (m (toolManager s, world s)) as [o [tm' w']].
Qed.

Lemma keeps_generateResponse client prompt : keeps_bridge (generateResponse client prompt).
Proof.
  intros s. unfold generateResponse.
  now destruct (client_generateResponse client prompt (world s)).
Qed.

Lemma keeps_now : keeps_bridge now.
Proof. intros s. unfold now. now destruct (Date_now (world s)). Qed.

Lemma keeps_this_currentModel : keeps_bridge (World := World) this_currentModel.
Proof.
  unfold this_currentModel. apply keeps_bind; [apply keeps_get |].
  intros s. destruct (currentModel (bridge s)); [apply keeps_ret | apply keeps_throw].
Qed.

Create HintDb keeps discriminated.
#[local] Hint Resolve keeps_ret keeps_throw keeps_get keeps_in_toolManager
  keeps_generateResponse keeps_now keeps_this_currentModel : keeps.

Lemma keeps_selectTools userMessage uploadedFiles context :
  keeps_bridge (selectTools userMessage uploadedFiles context).
Proof.
  unfold selectTools.
  apply keeps_try_catch; [| auto with keeps].
  apply keeps_bind; [auto with keeps |]. intros s.
  destruct (length _ =? 0)%nat; [auto with keeps |].
  apply keeps_bind; [auto with keeps |]. intros model.
  apply keeps_bind; [auto with keeps |]. intros modelResponse.
  destruct (parse_selection modelResponse) as [v |]; [| auto with keeps].
  destruct (plan_of v); auto with keeps.
Qed.

Lemma keeps_generateStructuredResponse prompt :
  keeps_bridge (generateStructuredResponse prompt).
Proof.
  unfold generateStructuredResponse.
  apply keeps_try_catch; [| auto with keeps].
  apply keeps_bind; [auto with keeps |]. intros response.
  destruct (JSON_parse response); [auto with keeps |].
  destruct (match_json response) as [m |]; [| auto with keeps].
  destruct (JSON_parse m); auto with keeps.
Qed.

Lemma keeps_selectToolsWithClaude userMessage uploadedFiles context :
  keeps_bridge (selectToolsWithClaude userMessage uploadedFiles context).
Proof.
  unfold selectToolsWithClaude.
  apply keeps_try_catch; [| auto with keeps].
  apply keeps_bind; [auto with keeps |]. intros s.
  destruct (length _ =? 0)%nat; [auto with keeps |].
  apply keeps_bind.
  - unfold orchestrateTools. apply keeps_try_catch; [| auto with keeps].
    apply keeps_generateStructuredResponse.
  - intros v. destruct (plan_of v); auto with keeps.
Qed.

Lemma keeps_execute_one toolSelection uploadedFiles userMessage id :
  keeps_bridge (execute_one toolSelection uploadedFiles userMessage id).
Proof.
  unfold execute_one. apply keeps_try_catch.
  - apply keeps_bind; [auto with keeps |]. intros s.
    apply keeps_bind; [auto with keeps |]. intros result.
    apply keeps_bind; auto with keeps.
  - intros e. apply keeps_bind; auto with keeps.
Qed.

Lemma keeps_executeTools toolSelection uploadedFiles userMessage :
  keeps_bridge (executeTools toolSelection uploadedFiles userMessage).
Proof.
  unfold executeTools. destruct (length _ =? 0)%nat; [auto with keeps |].
  generalize (@nil ToolResult).
  induction (executionOrder toolSelection) as [| id rest IH]; intros acc; simpl;
    [auto with keeps |].
  apply keeps_bind; [apply keeps_execute_one |]. intros r. apply IH.
Qed.

Lemma keeps_synthesizeResponse userMessage toolResults context :
  keeps_bridge (synthesizeResponse userMessage toolResults context).
Proof.
  unfold synthesizeResponse. apply keeps_try_catch; [| now intros e s].
  destruct (length _ =? 0)%nat.
  - destruct (0 <? length _)%nat; auto with keeps.
  - apply keeps_bind; auto with keeps.
Qed.

Lemma keeps_synthesizeResponseWithClaude userMessage toolResults context :
  keeps_bridge (synthesizeResponseWithClaude userMessage toolResults context).
Proof.
  unfold synthesizeResponseWithClaude.
  apply keeps_try_catch; [| intros e; apply keeps_synthesizeResponse].
  apply keeps_try_catch; auto with keeps.
Qed.

Lemma bind_inv_throw {S A B} (m : M (S := S) A) (k : A -> M B) s e s' :
  bind m k s = (Throw e, s') ->
  m s = (Throw e, s') \/ exists a s1, m s = (Ok a, s1) /\ k a s1 = (Throw e, s').
Proof.
  unfold bind. destruct (m s) as [[a | e0] s1]; intros Hk.
  - right. now exists a, s1.
  - left. now inversion Hk.
Qed.

Lemma keeps_run {A} (m : M (S := Sys World) A) s o s' :
  keeps_bridge m -> m s = (o, s') ->
  bridge s' = bridge s /\ modelManager s' = modelManager s.
Proof. intros Hm Hrun. specialize (Hm s). now rewrite Hrun in Hm. Qed.

(** X10. What a turn does to the state of the bridge.  It always returns.
    It never changes the model manager, the active model handle or the
    context of another conversation.  A turn that fails (its result has an
    [error] field) leaves the bridge as it was: nothing is recorded.  A turn
    that completes appends one interaction to the context of its own
    conversation, cut to the last 20, holding the user message and the
    response and tool ids it returns. *)
Theorem processUserRequest_frame conversationId userMessage uploadedFiles (s : Sys World) :
  let '(o, s') := processUserRequest conversationId userMessage uploadedFiles s in
  match o with
  | Throw _ => False
  | Ok r =>
      modelManager s' = modelManager s
      /\ currentModel (bridge s') = currentModel (bridge s)
      /\ isInitialized (bridge s') = isInitialized (bridge s)
      /\ (forall id, id <> conversationId ->
            getConversationContext (bridge s') id = getConversationContext (bridge s) id)
      /\ match r_error r with
         | Some _ => bridge s' = bridge s
         | None =>
             exists interaction,
               getConversationContext (bridge s') conversationId
               = slice_last 20 (getConversationContext (bridge s) conversationId ++ [interaction])
               /\ it_userMessage interaction = userMessage
               /\ it_response interaction = r_response r
               /\ it_toolsUsed interaction = r_toolsUsed r
         end
  end.
Proof.
  unfold processUserRequest, try_catch.
  match goal with |- context [bind ?m ?k s] => destruct (bind m k s) as [[r | e] s1] eqn:Hrun end.
  - apply bind_inv_ok in Hrun as (s0 & s2 & Hget & Hrun).
    unfold get in Hget. inversion Hget; subst s0 s2.
    destruct (negb (isInitialized (bridge s))); [discriminate |].
    destruct (currentModel (bridge s)) as [model |] eqn:Hmodel; [| discriminate].
    apply bind_inv_ok in Hrun as (plan & s3 & Hsel & Hrun).
    apply bind_inv_ok in Hrun as (rs & s4 & Hexec & Hrun).
    apply bind_inv_ok in Hrun as (resp & s5 & Hsyn & Hrun).
    apply bind_inv_ok in Hrun as (ts & s6 & Hnow & Hrun).
    apply bind_inv_ok in Hrun as (u & s7 & Hmod & Hrun).
    assert (bridge s3 = bridge s /\ modelManager s3 = modelManager s) as [Hb3 Hm3].
    { destruct (bool_decide _ && has_orchestrateTools _);
        [eapply keeps_run; [apply keeps_selectToolsWithClaude | exact Hsel]
        | eapply keeps_run; [apply keeps_selectTools | exact Hsel]]. }
    destruct (keeps_run _ _ _ _ (keeps_executeTools _ _ _) Hexec) as [Hb4 Hm4].
    assert (bridge s5 = bridge s4 /\ modelManager s5 = modelManager s4) as [Hb5 Hm5].
    { destruct (bool_decide _ && has_synthesizeResponse _);
        [eapply keeps_run; [apply keeps_synthesizeResponseWithClaude | exact Hsyn]
        | eapply keeps_run; [apply keeps_synthesizeResponse | exact Hsyn]]. }
    destruct (keeps_run _ _ _ _ keeps_now Hnow) as [Hb6 Hm6].
    unfold modify in Hmod. inversion Hmod; subst s7. clear Hmod.
    unfold ret in Hrun. inversion Hrun; subst r s1. clear Hrun. simpl.
    assert (bridge s6 = bridge s) as Hb by congruence. rewrite Hb.
    repeat split; try congruence.
    + intros id Hid. rewrite updateConversationContext_lookup.
      now rewrite bool_decide_eq_false_2 by congruence.
    + eexists. rewrite updateConversationContext_lookup.
      rewrite bool_decide_eq_true_2 by reflexivity. repeat split.
  - unfold ret. simpl.
    assert (bridge s1 = bridge s /\ modelManager s1 = modelManager s) as [Hb Hm].
    { apply bind_inv_throw in Hrun as [Hget | (s0 & s2 & Hget & Hrun)]; [discriminate |].
      unfold get in Hget. inversion Hget; subst s0 s2.
      destruct (negb (isInitialized (bridge s))); [now inversion Hrun |].
      destruct (currentModel (bridge s)) as [model |]; [| now inversion Hrun].
      apply bind_inv_throw in Hrun as [Hsel | (plan & s3 & Hsel & Hrun)].
      { destruct (bool_decide _ && has_orchestrateTools _);
          [eapply keeps_run; [apply keeps_selectToolsWithClaude | exact Hsel]
          | eapply keeps_run; [apply keeps_selectTools | exact Hsel]]. }
      assert (bridge s3 = bridge s /\ modelManager s3 = modelManager s) as [Hb3 Hm3].
      { destruct (bool_decide _ && has_orchestrateTools _);
          [eapply keeps_run; [apply keeps_selectToolsWithClaude | exact Hsel]
          | eapply keeps_run; [apply keeps_selectTools | exact Hsel]]. }
      apply bind_inv_throw in Hrun as [Hexec | (rs & s4 & Hexec & Hrun)].
      { destruct (keeps_run _ _ _ _ (keeps_executeTools _ _ _) Hexec). split; congruence. }
      destruct (keeps_run _ _ _ _ (keeps_executeTools _ _ _) Hexec) as [Hb4 Hm4].
      assert (forall o5 s5,
                (if bool_decide (h_id model = "claude-3-sonnet") && has_synthesizeResponse (h_client model)
                 then synthesizeResponseWithClaude userMessage rs
                        (getConversationContext (bridge s) conversationId)
                 else synthesizeResponse userMessage rs
                        (getConversationContext (bridge s) conversationId)) s4 = (o5, s5) ->
                bridge s5 = bridge s4 /\ modelManager s5 = modelManager s4) as Hsynk.
      { intros o5 s5 Hsyn.
        destruct (bool_decide _ && has_synthesizeResponse _);
          [eapply keeps_run; [apply keeps_synthesizeResponseWithClaude | exact Hsyn]
          | eapply keeps_run; [apply keeps_synthesizeResponse | exact Hsyn]]. }
      apply bind_inv_throw in Hrun as [Hsyn | (resp & s5 & Hsyn & Hrun)].
      { destruct (Hsynk _ _ Hsyn). split; congruence. }
      destruct (Hsynk _ _ Hsyn) as [Hb5 Hm5].
      apply bind_inv_throw in Hrun as [Hnow | (ts & s6 & Hnow & Hrun)].
      { destruct (keeps_run _ _ _ _ keeps_now Hnow). split; congruence. }
      apply bind_inv_throw in Hrun as [Hmod | (u & s7 & Hmod & Hrun)]; discriminate. }
    repeat split; congruence.
Qed.
End Frame.

(** ** Planning *)

Section Planning.
Context {World : Type} `{Host World}.
Import MCPBridge.

(** X11. [selectTools] never throws, and the plan it returns is either the
    heuristic fallback for the uploaded files or a plan read from a parsed
    model answer and validated against the active tools; with no active tool
    it is the fallback and no model is called. *)
Theorem selectTools_plan userMessage uploadedFiles context (s : Sys World) :
  let activeTools := List.filter i_available (ToolManager.getAvailableTools (toolManager s)) in
  exists plan s',
    selectTools userMessage uploadedFiles context s = (Ok plan, s')
    /\ (plan = fallbackToolSelection uploadedFiles
        \/ exists v parsed, plan_of v = Some parsed /\ plan = validate activeTools parsed)
    /\ (activeTools = [] -> plan = fallbackToolSelection uploadedFiles /\ s' = s).
Proof.
  simpl. unfold selectTools, try_catch.
  match goal with |- context [bind ?m ?k s] => destruct (bind m k s) as [[plan | e] s1] eqn:Hrun end.
  - exists plan, s1. split; [reflexivity |].
    apply bind_inv_ok in Hrun as (s0 & s2 & Hget & Hrun).
    unfold get in Hget. inversion Hget; subst s0 s2.
    destruct (List.filter i_available (ToolManager.getAvailableTools (toolManager s)))
      as [| t0 active] eqn:Hactive.
    + simpl in Hrun. unfold ret in Hrun. inversion Hrun; subst. split; [now left | now split].
    + change (length (t0 :: active) =? 0)%nat with false in Hrun. cbv beta iota in Hrun.
      split; [| discriminate].
      apply bind_inv_ok in Hrun as (model & s3 & _ & Hrun).
      apply bind_inv_ok in Hrun as (modelResponse & s4 & _ & Hrun).
      destruct (parse_selection modelResponse) as [v |].
      * destruct (plan_of v) as [parsed |] eqn:Hplan; [| discriminate].
        unfold ret in Hrun. inversion Hrun; subst. right. now exists v, parsed.
      * unfold ret in Hrun. inversion Hrun; subst. now left.
  - unfold ret. eexists _, _. split; [reflexivity |]. split; [now left |].
    intros Hnone. exfalso.
    apply bind_inv_throw in Hrun as [Hget | (s0 & s2 & Hget & Hrun)]; [discriminate |].
    unfold get in Hget. inversion Hget; subst s0 s2.
    rewrite Hnone in Hrun. discriminate.
Qed.

(** X12. [selectToolsWithClaude] never throws, and the plan it returns is
    the heuristic fallback, a validated plan read from the model's answer,
    or, when no tool is active, a plan that selects nothing, returned
    without calling the model. *)
Theorem selectToolsWithClaude_plan userMessage uploadedFiles context (s : Sys World) :
  let activeTools := List.filter i_available (ToolManager.getAvailableTools (toolManager s)) in
  exists plan s',
    selectToolsWithClaude userMessage uploadedFiles context s = (Ok plan, s')
    /\ (plan = fallbackToolSelection uploadedFiles
        \/ (exists v parsed, plan_of v = Some parsed /\ plan = validate activeTools parsed)
        \/ (activeTools = [] /\ selected_tools plan = [] /\ execution_order plan = Some []))
    /\ (activeTools = [] -> selected_tools plan = [] /\ s' = s).
Proof.
  simpl. unfold selectToolsWithClaude, try_catch.
  match goal with |- context [bind ?m ?k s] => destruct (bind m k s) as [[plan | e] s1] eqn:Hrun end.
  - exists plan, s1. split; [reflexivity |].
    apply bind_inv_ok in Hrun as (s0 & s2 & Hget & Hrun).
    unfold get in Hget. inversion Hget; subst s0 s2.
    destruct (List.filter i_available (ToolManager.getAvailableTools (toolManager s)))
      as [| t0 active] eqn:Hactive.
    + simpl in Hrun. unfold ret in Hrun. inversion Hrun; subst. simpl.
      split; [right; right; now repeat split | now split].
    + change (length (t0 :: active) =? 0)%nat with false in Hrun. cbv beta iota in Hrun.
      split; [| discriminate].
      apply bind_inv_ok in Hrun as (v & s3 & _ & Hrun).
      destruct (plan_of v) as [parsed |] eqn:Hplan; [| discriminate].
      unfold ret in Hrun. inversion Hrun; subst. right. left. now exists v, parsed.
  - unfold ret. eexists _, _. split; [reflexivity |]. split; [now left |].
    intros Hnone. exfalso.
    apply bind_inv_throw in Hrun as [Hget | (s0 & s2 & Hget & Hrun)]; [discriminate |].
    unfold get in Hget. inversion Hget; subst s0 s2.
    rewrite Hnone in Hrun. discriminate.
Qed.
End Planning.

(** ** The score of a turn *)

Section Score.
Import MCPBridge.
Local Open Scope Q_scope.

Lemma successCount_all (toolResults : list ToolResult) :
  successCount toolResults = length toolResults <-> Forall (fun r => success r = true) toolResults.
Proof.
  induction toolResults as [| r rest IH]; simpl; [split; [constructor | reflexivity] |].
  pose proof (successCount_le rest) as Hle.
  destruct (success r) eqn:Hr; split.
  - intros Heq. constructor; [exact Hr |]. apply IH. lia.
  - intros Hall. inversion Hall; subst. f_equal. now apply IH.
  - lia.
  - intros Hall. inversion Hall; subst. congruence.
Qed.

Lemma successCount_none (toolResults : list ToolResult) :
  successCount toolResults = 0%nat <-> Forall (fun r => success r = false) toolResults.
Proof.
  induction toolResults as [| r rest IH]; simpl; [split; [constructor | reflexivity] |].
  destruct (success r) eqn:Hr; split.
  - discriminate.
  - intros Hall. inversion Hall; subst. congruence.
  - intros Heq. constructor; [exact Hr | now apply IH].
  - intros Hall. inversion Hall; subst. now apply IH.
Qed.

(** X13. The confidence of a turn lies between 0 and 1; for a turn that
    ran at least one tool it is 1 exactly when every tool succeeded and 0
    exactly when none did. *)
Theorem calculateConfidence_extremes (r : ToolResult) (rest : list ToolResult) :
  (forall toolResults, 0 <= calculateConfidence toolResults <= 1)
  /\ (calculateConfidence (r :: rest) == 1
      <-> Forall (fun x => success x = true) (r :: rest))
  /\ (calculateConfidence (r :: rest) == 0
      <-> Forall (fun x => success x = false) (r :: rest)).
Proof.
  split; [exact calculateConfidence_range |].
  unfold calculateConfidence. rewrite successCount_filter.
  change (length (r :: rest) =? 0)%nat with false. cbv iota.
  rewrite <- successCount_all, <- successCount_none.
  set (k := successCount (r :: rest)). set (n := length (r :: rest)).
  assert (0 < n)%nat as Hn by (subst n; simpl; lia).
  unfold Qeq, Qdiv, Qmult, Qinv, inject_Z. simpl.
  rewrite Pos.mul_1_l, Zpos_P_of_succ_nat. subst n. simpl length in *. lia.
Qed.
End Score.

(** ** The regular expression for a JSON object *)

Section Regex.

Lemma through_last_close_spec s :
  match through_last_close s with
  | Some t =>
      exists body post,
        t = body +:+ String close_brace EmptyString
        /\ s = t +:+ post /\ has_char close_brace post = false
  | None => has_char close_brace s = false
  end.
Proof.
  induction s as [| c rest IH]; simpl; [reflexivity |].
  destruct (through_last_close rest) as [t |].
  - destruct IH as (body & post & Ht & Hs & Hpost).
    exists (String c body), post. subst t. rewrite Hs at 1. now repeat split.
  - destruct (Ascii.eqb c close_brace) eqn:Hc.
    + apply Ascii.eqb_eq in Hc. subst c.
      exists EmptyString, rest. now repeat split.
    + exact IH.
Qed.

Lemma has_char_append c a b : has_char c (a +:+ b) = has_char c a || has_char c b.
Proof.
  induction a as [| x a IH]; [reflexivity |].
  change (String x a +:+ b) with (String x (a +:+ b)). simpl. rewrite IH.
  now rewrite orb_assoc.
Qed.

(** X14. The match of [/\{[\s\S]*\}/] is leftmost and greedy.  When it
    matches, the text splits into a prefix without an opening brace, the
    match, which starts with an opening brace and ends with a closing one,
    and a suffix without a closing brace.  When it does not, no opening brace
    of the text has a closing brace after it. *)
Theorem match_json_leftmost_greedy (s : string) :
  match match_json s with
  | Some m =>
      exists pre body post,
        s = pre +:+ m +:+ post
        /\ m = String open_brace (body +:+ String close_brace EmptyString)
        /\ has_char open_brace pre = false
        /\ has_char close_brace post = false
  | None =>
      forall pre rest, s = pre +:+ String open_brace rest -> has_char close_brace rest = false
  end.
Proof.
  induction s as [| c s IH]; simpl.
  - intros [| x pre] rest Heq; discriminate.
  - destruct (Ascii.eqb c open_brace) eqn:Hc.
    + apply Ascii.eqb_eq in Hc. subst c.
      pose proof (through_last_close_spec s) as Hlast.
      destruct (through_last_close s) as [t |].
      * destruct Hlast as (body & post & Ht & Hs & Hpost).
        exists EmptyString, body, post. subst t. rewrite Hs at 1. now repeat split.
      * intros pre rest Heq.
        destruct pre as [| x pre].
        -- change (EmptyString +:+ String open_brace rest) with (String open_brace rest) in Heq.
           inversion Heq; subst. exact Hlast.
        -- change (String x pre +:+ String open_brace rest)
             with (String x (pre +:+ String open_brace rest)) in Heq.
           inversion Heq; subst.
           rewrite has_char_append in Hlast. simpl in Hlast.
           now apply orb_false_elim in Hlast as [_ Hlast].
    + destruct (match_json s) as [m |].
      * destruct IH as (pre & body & post & Hs & Hm & Hpre & Hpost).
        exists (String c pre), body, post. subst m. rewrite Hs at 1.
        repeat split; simpl; [| exact Hpost]. now rewrite Hc.
      * intros pre rest Heq. destruct pre as [| x pre].
        -- change (EmptyString +:+ String open_brace rest) with (String open_brace rest) in Heq.
           inversion Heq; subst. now rewrite Ascii.eqb_refl in Hc.
        -- change (String x pre +:+ String open_brace rest)
             with (String x (pre +:+ String open_brace rest)) in Heq.
           inversion Heq; subst. now apply (IH pre rest).
Qed.
End Regex.

(** ** Retrying with backoff *)

Section Backoff.
Import Helpers Probe.
Context {A : Type}.

Lemma retry_from_success (maxRetries : nat) (baseDelay : Z) (errs : list JsError) (a : A) tail :
  forall i calls0 slept0,
    i + length errs < maxRetries ->
    retry_from delay call maxRetries baseDelay (maxRetries - i) i
      {| pending := List.map Throw errs ++ Ok a :: tail; calls := calls0; slept := slept0 |}
    = (Ok (Some a),
       {| pending := tail; calls := calls0 + length errs + 1;
          slept := (slept0 + baseDelay * (2 ^ Z.of_nat (i + length errs) - 2 ^ Z.of_nat i))%Z |}).
Proof.
  induction errs as [| e errs IH]; intros i calls0 slept0 Hlt; simpl in Hlt.
  - destruct (maxRetries - i) as [| remaining] eqn:Hrem; [lia |].
    simpl. unfold try_catch, bind, call, ret. simpl.
    f_equal. f_equal; [lia |]. rewrite Nat.add_0_r. lia.
  - destruct (maxRetries - i) as [| remaining] eqn:Hrem; [lia |].
    simpl. unfold try_catch at 1, bind at 1, call at 1. simpl.
    destruct (i =? maxRetries - 1)%nat eqn:Hlast; [apply Nat.eqb_eq in Hlast; lia |].
    unfold bind at 1, delay at 1. simpl.
    replace remaining with (maxRetries - Datatypes.S i) by lia.
    rewrite IH by lia. f_equal. f_equal; [lia |].
    replace (Datatypes.S i + length errs) with (i + Datatypes.S (length errs)) by lia.
    replace (Z.of_nat (Datatypes.S i)) with (Z.of_nat i + 1)%Z by lia.
    rewrite Z.pow_add_r by lia. lia.
Qed.

(** X15. When the function fails [k] times and then succeeds, with [k]
    less than [maxRetries], [retryWithBackoff] returns the value of the
    success after exactly [k + 1] calls, having slept
    [baseDelay * (2^k - 1)] milliseconds in all: [baseDelay], twice that,
    four times that, and so on between the calls. *)
Theorem retryWithBackoff_succeeds_after (maxRetries : nat) (baseDelay : Z)
    (errs : list JsError) (a : A) (tail : list (outcome A)) :
  length errs < maxRetries ->
  retryWithBackoff delay call maxRetries baseDelay
    {| pending := List.map Throw errs ++ Ok a :: tail; calls := 0; slept := 0 |}
  = (Ok (Some a),
     {| pending := tail; calls := length errs + 1;
        slept := (baseDelay * (2 ^ Z.of_nat (length errs) - 1))%Z |}).
Proof.
  intros Hlt. unfold retryWithBackoff.
  replace maxRetries with (maxRetries - 0) at 2 by lia.
  now rewrite retry_from_success by (simpl; lia).
Qed.

Lemma retry_from_gives_up (maxRetries : nat) (baseDelay : Z) (errs : list JsError)
    (last : JsError) tail :
  forall i calls0 slept0,
    i + length errs + 1 = maxRetries ->
    retry_from delay call maxRetries baseDelay (maxRetries - i) i
      {| pending := List.map Throw errs ++ @Throw A last :: tail;
         calls := calls0; slept := slept0 |}
    = (Throw last,
       {| pending := tail; calls := calls0 + length errs + 1;
          slept := (slept0 + baseDelay * (2 ^ Z.of_nat (i + length errs) - 2 ^ Z.of_nat i))%Z |}).
Proof.
  induction errs as [| e errs IH]; intros i calls0 slept0 Hlen; simpl in Hlen.
  - destruct (maxRetries - i) as [| remaining] eqn:Hrem; [lia |].
    simpl. unfold try_catch, bind, call, throw. simpl.
    replace (i =? maxRetries - 1)%nat with true by (symmetry; apply Nat.eqb_eq; lia).
    f_equal. f_equal; [lia |]. rewrite Nat.add_0_r. lia.
  - destruct (maxRetries - i) as [| remaining] eqn:Hrem; [lia |].
    simpl. unfold try_catch at 1, bind at 1, call at 1. simpl.
    destruct (i =? maxRetries - 1)%nat eqn:Hlast; [apply Nat.eqb_eq in Hlast; lia |].
    unfold bind at 1, delay at 1. simpl.
    replace remaining with (maxRetries - Datatypes.S i) by lia.
    rewrite IH by lia. f_equal. f_equal; [lia |].
    replace (Datatypes.S i + length errs) with (i + Datatypes.S (length errs)) by lia.
    replace (Z.of_nat (Datatypes.S i)) with (Z.of_nat i + 1)%Z by lia.
    rewrite Z.pow_add_r by lia. lia.
Qed.

(** X16. When the function fails [maxRetries] times in a row,
    [retryWithBackoff] throws the error of the last failure after exactly
    [maxRetries] calls, [maxRetries] counting the calls and not the retries,
    and it does not sleep after the last failure.  With [maxRetries = 0] it
    returns [undefined] without calling the function. *)
Theorem retryWithBackoff_gives_up (baseDelay : Z) (errs : list JsError) (last : JsError)
    (tail : list (outcome A)) (p : Probe.t A) :
  retryWithBackoff delay call (length errs + 1) baseDelay
    {| pending := List.map Throw errs ++ @Throw A last :: tail; calls := 0; slept := 0 |}
  = (Throw last,
     {| pending := tail; calls := length errs + 1;
        slept := (baseDelay * (2 ^ Z.of_nat (length errs) - 1))%Z |})
  /\ retryWithBackoff delay call 0 baseDelay p = (Ok None, p).
Proof.
  split; [| reflexivity].
  unfold retryWithBackoff.
  replace (length errs + 1) with (length errs + 1 - 0) at 2 by lia.
  now rewrite retry_from_gives_up by (simpl; lia).
Qed.
End Backoff.

(** ** The container tool and unreadable files *)

Section Container.
Context {World : Type} `{Host World}.
Import ToolManager.

Lemma readFile_keeps_manager path (st : ToolManager.t * World) :
  fst (snd (readFile path st)) = fst st.
Proof. unfold readFile. destruct st as [tm w]. now destruct (fs_readFile path w). Qed.

(** The loop over the files throws only the error that names a file of the
    list, and leaves the tool manager as it was. *)
Lemma append_files_throw (fs : list FileRecord) (st st' : ToolManager.t * World) e :
  append_files fs st = (Throw e, st') ->
  fst st' = fst st
  /\ exists file, file ∈ fs
                  /\ e = Error ("File " +:+ f_name file +:+ " not found or not readable").
Proof.
  revert st. induction fs as [| file rest IH]; intros st; simpl; [discriminate |].
  unfold bind at 1, try_catch at 1.
  pose proof (readFile_keeps_manager (uploads_path (f_name file)) st) as Hkeep.
  destruct (readFile (uploads_path (f_name file)) st) as [[[] | e0] st1]; simpl in Hkeep.
  - unfold bind at 1.
    destruct (append_files rest st1) as [[parts | e1] st2] eqn:Hrest; [discriminate |].
    intros Heq. inversion Heq; subst e1 st2.
    destruct (IH st1 Hrest) as (Hfst & file' & Hin & He).
    split; [congruence |]. exists file'. split; [now right | exact He].
  - unfold throw. intros Heq. inversion Heq; subst.
    split; [exact Hkeep |]. exists file. split; [now left | reflexivity].
Qed.

(** X17. When a file of the invocation cannot be read, the container tool
    fails with an error naming that file, and the request to the container
    is not made: the state is the one the reads left, with the tool manager
    unchanged. *)
Theorem executeDockerTool_unreadable_file (tm : ToolManager.t) (w : World)
    (toolConfig : ToolConfig) (params : ToolParameters) base e st' :
  dockerEndpoint tm = Some base ->
  base <> EmptyString ->
  append_files (files params) (tm, w) = (Throw e, st') ->
  executeDockerTool toolConfig params (tm, w) = (Throw e, st')
  /\ fst st' = tm
  /\ exists file, file ∈ files params
                  /\ e = Error ("File " +:+ f_name file +:+ " not found or not readable").
Proof.
  intros Hbase Hnonempty Hfiles.
  destruct (append_files_throw _ _ _ _ Hfiles) as (Hfst & Hfile).
  split; [| split; [exact Hfst | exact Hfile]].
  unfold executeDockerTool. rewrite try_catch_rethrow.
  unfold bind at 1, get. cbn [fst]. rewrite Hbase.
  rewrite bool_decide_eq_false_2 by exact Hnonempty.
  unfold bind at 1. now rewrite Hfiles.
Qed.
End Container.

(** ** The API key of the Claude client *)

Section ClaudeKey.
Context {World : Type} `{Platform World}.
Import Claude.

Lemma classify_keeps_client e (st : Claude.t * World) :
  exists e', classify e st = (Throw e', st).
Proof.
  unfold classify. destruct (response e) as [r |]; [| now eexists].
  destruct (status r =? 401)%Z; [now eexists |].
  destruct (status r =? 429)%Z; [now eexists |].
  destruct (data r); destruct (status r =? 400)%Z; now eexists.
Qed.

Lemma generateResponse_keeps_client prompt systemPrompt (st : Claude.t * World) :
  fst (snd (generateResponse prompt systemPrompt st)) = fst st.
Proof.
  unfold generateResponse, try_catch, bind, get. destruct st as [c w]. cbn [fst].
  assert (forall e w0, fst (snd (classify e (c, w0))) = c) as Hclassify.
  { intros e w0. destruct (classify_keeps_client e (c, w0)) as [e' ->]. reflexivity. }
  destruct (apiKey c) as [key |]; [| apply Hclassify].
  destruct (bool_decide (key = EmptyString)); [apply Hclassify |].
  destruct (anthropic_post key prompt systemPrompt w) as [[body | e] w1]; [| apply Hclassify].
  destruct (field "content" body) as [[| | | content | [| first rest] |] |];
    try apply Hclassify.
  - destruct (bool_decide (content = EmptyString)); apply Hclassify.
  - destruct (field "text" first) as [[| | | text | |] |]; try apply Hclassify.
    reflexivity.
Qed.

(** The health check never throws and never touches the client object. *)
Lemma healthCheck_returns (st : Claude.t * World) :
  exists b w', healthCheck st = (Ok b, (fst st, w')).
Proof.
  unfold healthCheck, try_catch, bind, get. destruct st as [c w]. cbn [fst].
  destruct (no_key c); [now eexists _, _ |].
  match goal with |- context [generateResponse ?p ?q (c, w)] =>
    pose proof (generateResponse_keeps_client p q (c, w)) as Hkeep;
    destruct (generateResponse p q (c, w)) as [[text | e] [c1 w1]] end.
  all: simpl in Hkeep; subst c1; now eexists _, _.
Qed.

(** X18. Without an API key nothing is sent: [generateResponse] throws the
    missing-key error, [healthCheck] and [initialize] answer [false], and in
    each case the client and the world are as before. *)
Theorem no_key_no_request (c : Claude.t) (w : World) prompt systemPrompt :
  no_key c = true ->
  generateResponse prompt systemPrompt (c, w)
  = (Throw (Error "Anthropic API key not set"), (c, w))
  /\ healthCheck (c, w) = (Ok false, (c, w))
  /\ initialize (c, w) = (Ok false, (c, w)).
Proof.
  intros Hno. unfold no_key in Hno.
  split; [| split].
  - unfold generateResponse, try_catch, bind, get. cbn [fst].
    destruct (apiKey c) as [key |]; [| reflexivity]. now rewrite Hno.
  - unfold healthCheck, try_catch, bind, get, no_key. cbn [fst].
    destruct (apiKey c) as [key |]; [now rewrite Hno | reflexivity].
  - unfold initialize, try_catch, bind, get, no_key. cbn [fst].
    destruct (apiKey c) as [key |]; [now rewrite Hno | reflexivity].
Qed.

Lemma validateApiKey_run (key : string) (c : Claude.t) (w : World) :
  exists (b : bool) w',
    validateApiKey key (c, w)
    = (Ok b, (if b then set_apiKey (Some key) c else c, w')).
Proof.
  unfold validateApiKey, try_catch.
  unfold bind at 1, get. cbn [fst].
  unfold bind at 1, modify at 1.
  unfold bind at 1.
  destruct (healthCheck_returns (set_apiKey (Some key) c, w)) as (b & w' & ->). cbn [fst].
  exists b, w'. destruct b; simpl; unfold bind, ret, modify; simpl; [reflexivity |].
  unfold set_apiKey. simpl. now destruct c.
Qed.

(** X19. [validateApiKey] never throws.  When it answers [true] the client
    holds the new key; when it answers [false] the client is as it was
    before, with the key it held.  It never changes [isInitialized]. *)
Theorem validateApiKey_keeps_or_restores (key : string) (c : Claude.t) (w : World) :
  exists (b : bool) w',
    validateApiKey key (c, w)
    = (Ok b, (if b then {| apiKey := Some key; isInitialized := isInitialized c |} else c, w')).
Proof. exact (validateApiKey_run key c w). Qed.

(** X20. [setApiKey] refuses an empty key without sending anything.  For
    any other key it either stores the key and marks the client initialized
    (the key passed the health check), or throws [Invalid API key provided]
    and leaves the client as it was. *)
Theorem setApiKey_outcomes (key : string) (c : Claude.t) (w : World) :
  if bool_decide (key = EmptyString)
  then setApiKey key (c, w) = (Throw (Error "API key is required"), (c, w))
  else exists w',
      setApiKey key (c, w) = (Ok tt, ({| apiKey := Some key; isInitialized := true |}, w'))
      \/ setApiKey key (c, w) = (Throw (Error "Invalid API key provided"), (c, w')).
Proof.
  unfold setApiKey. case_bool_decide as Hkey; [reflexivity |].
  destruct (validateApiKey_run key c w) as (b & w' & Hvalid).
  exists w'. unfold bind. rewrite Hvalid. destruct b; simpl; [left | right]; reflexivity.
Qed.
End ClaudeKey.

(** ** Starting a capability-server client *)

Section Lifecycle.
Context {World : Type} `{Platform World}.
Import MCPServer.

Lemma exit_delivered_refl spawned c : exit_delivered spawned c c.
Proof. now left. Qed.

Lemma exit_delivered_trans spawned c1 c2 c3 :
  exit_delivered spawned c1 c2 -> exit_delivered spawned c2 c3 ->
  exit_delivered spawned c1 c3.
Proof.
  intros [-> | [Hs ->]] [-> | [Hs' ->]]; try (now left); right; split; auto.
Qed.

(** The exit of a child touches [isConnected] only. *)
Lemma exit_delivered_fields spawned c c' :
  exit_delivered spawned c c' ->
  MCPClient.name c' = MCPClient.name c
  /\ MCPClient.apiEndpoint c' = MCPClient.apiEndpoint c
  /\ MCPClient.isInitialized c' = MCPClient.isInitialized c
  /\ MCPClient.set_isConnected true c' = MCPClient.set_isConnected true c.
Proof. intros [-> | [_ ->]]; now repeat split. Qed.

Lemma exit_delivered_none c c' : exit_delivered false c c' -> c' = c.
Proof. now intros [-> | [Hs _]]. Qed.

Lemma await_runs {A} spawned (request : World -> outcome A * World) c w :
  exists o c' w',
    await spawned request (c, w) = (o, (c', w'))
    /\ o = fst (request w)
    /\ exit_delivered spawned c c'.
Proof.
  unfold await. destruct (request w) as [o w1]. destruct spawned.
  - destruct (child_exit w1) as [[] w2]; eexists _, _, _; split; try reflexivity;
      split; try reflexivity; [right | left]; auto.
  - eexists _, _, _. split; [reflexivity |]. split; [reflexivity | now left].
Qed.

(** A health probe answers [true] or [false] and never throws; only the exit
    of a child can touch the client meanwhile. *)
Lemma checkServerHealth_returns spawned cfg c (w : World) :
  exists (b : bool) c' w',
    checkServerHealth spawned cfg (c, w) = (Ok b, (c', w'))
    /\ exit_delivered spawned c c'.
Proof.
  unfold checkServerHealth, try_catch, bind, get, get_url. cbn [fst].
  destruct (await_runs spawned
              (axios_get (MCPClient.apiEndpoint c +:+ health_check cfg)) c w)
    as (o & c' & w' & -> & _ & Hexit).
  destruct o as [r | e]; now eexists _, _, _.
Qed.

Lemma discover_loop_returns spawned endpoints : forall c (w : World),
  exists (b : bool) c' w',
    discover_loop spawned endpoints (c, w) = (Ok b, (c', w'))
    /\ exit_delivered spawned c c'.
Proof.
  induction endpoints as [| endpoint rest IH]; intros c w; simpl.
  - eexists _, _, _. split; [reflexivity | apply exit_delivered_refl].
  - unfold bind at 1, try_catch at 1, bind at 1, get at 1. cbn [fst].
    unfold bind at 1, get_url.
    destruct (await_runs spawned (axios_get (MCPClient.apiEndpoint c +:+ endpoint)) c w)
      as (o & c1 & w1 & -> & _ & Hexit).
    destruct (IH c1 w1) as (b & c2 & w2 & Hrest & Hexit2).
    pose proof (exit_delivered_trans _ _ _ _ Hexit Hexit2) as Hboth.
    destruct o as [r | e].
    + destruct (status r =? 200)%Z.
      * destruct (bool_decide (endpoint = "/openapi.json")).
        -- destruct (data r); simpl; try (now eexists _, _, _).
           rewrite Hrest. now eexists _, _, _.
        -- simpl. now eexists _, _, _.
      * simpl. rewrite Hrest. now eexists _, _, _.
    + simpl. rewrite Hrest. now eexists _, _, _.
Qed.

Lemma discoverEndpoints_returns spawned c (w : World) :
  exists c' w',
    discoverEndpoints spawned (c, w) = (Ok tt, (c', w'))
    /\ exit_delivered spawned c c'.
Proof.
  unfold discoverEndpoints, try_catch, bind.
  destruct (discover_loop_returns spawned possibleDiscoveryEndpoints c w)
    as (b & c' & w' & -> & Hexit).
  now eexists _, _.
Qed.

(** The readiness loop: [true] with the client marked connected, or [false]
    with the client as the exit of a child may have left it. *)
Lemma wait_loop_returns spawned cfg interval remaining : forall c (w : World),
  exists (b : bool) c' w',
    wait_loop spawned cfg interval remaining (c, w) = (Ok b, (c', w'))
    /\ (if b then c' = MCPClient.set_isConnected true c else exit_delivered spawned c c').
Proof.
  induction remaining as [| remaining IH]; intros c w; simpl.
  - exists false, c, w. split; [reflexivity | apply exit_delivered_refl].
  - unfold bind at 1, try_catch at 1.
    destruct (checkServerHealth_returns spawned cfg c w) as (b & c1 & w1 & -> & Hexit).
    destruct b.
    + exists true. eexists _, w1. split; [reflexivity |]. cbn [fst].
      now destruct (exit_delivered_fields _ _ _ Hexit) as (_ & _ & _ & ->).
    + unfold bind at 1, sleep.
      destruct (await_runs spawned (fun w0 => (Ok tt, setTimeout interval w0)) c1 w1)
        as (o & c2 & w2 & -> & Ho & Hexit2). cbn [fst] in Ho. subst o.
      destruct (IH c2 w2) as (b & c3 & w3 & -> & Hthen).
      exists b, c3, w3. split; [reflexivity |].
      pose proof (exit_delivered_trans _ _ _ _ Hexit Hexit2) as Hboth.
      destruct b.
      * subst c3. now destruct (exit_delivered_fields _ _ _ Hboth) as (_ & _ & _ & ->).
      * exact (exit_delivered_trans _ _ _ _ Hboth Hthen).
Qed.

Lemma waitForServerReady_run spawned cfg maxAttempts interval (c : MCPClient.t) (w : World) :
  exists c' w',
    waitForServerReady spawned cfg maxAttempts interval (c, w)
    = (Ok true, (MCPClient.set_isConnected true c, w'))
    \/ (waitForServerReady spawned cfg maxAttempts interval (c, w)
        = (Throw (Error ("MCP server " +:+ MCPClient.name c
                         +:+ " failed to become ready after " +:+ pretty maxAttempts
                         +:+ " attempts")), (c', w'))
        /\ exit_delivered spawned c c').
Proof.
  unfold waitForServerReady, bind, get, throw, ret.
  destruct (wait_loop_returns spawned cfg interval maxAttempts c w)
    as (b & c' & w' & -> & Hthen).
  exists c', w'. destruct b; [left; now subst c' | right].
  cbn [fst]. destruct (exit_delivered_fields _ _ _ Hthen) as (-> & _). now split.
Qed.

(** X21. Waiting for the server, for a client that holds no child process,
    ends in one of two ways: it returns [true] and the client is marked
    connected, or it throws the error that names the server and the number
    of attempts, with the client as it was.  With no attempt allowed it
    throws at once, without a probe.  For a client that holds a child
    process the same holds, except that the client left by the error may
    have been marked not connected by the exit of the child. *)
Theorem waitForServerReady_outcomes cfg maxAttempts interval (c : MCPClient.t) (w : World) :
  (exists w',
     waitForServerReady false cfg maxAttempts interval (c, w)
     = (Ok true, (MCPClient.set_isConnected true c, w'))
     \/ waitForServerReady false cfg maxAttempts interval (c, w)
        = (Throw (Error ("MCP server " +:+ MCPClient.name c
                         +:+ " failed to become ready after " +:+ pretty maxAttempts
                         +:+ " attempts")), (c, w')))
  /\ (forall spawned,
        waitForServerReady spawned cfg 0 interval (c, w)
        = (Throw (Error ("MCP server " +:+ MCPClient.name c
                         +:+ " failed to become ready after 0 attempts")), (c, w)))
  /\ (exists c' w',
        waitForServerReady true cfg maxAttempts interval (c, w)
        = (Ok true, (MCPClient.set_isConnected true c, w'))
        \/ (waitForServerReady true cfg maxAttempts interval (c, w)
            = (Throw (Error ("MCP server " +:+ MCPClient.name c
                             +:+ " failed to become ready after " +:+ pretty maxAttempts
                             +:+ " attempts")), (c', w'))
            /\ (c' = c \/ c' = MCPClient.set_isConnected false c))).
Proof.
  split; [| split].
  - destruct (waitForServerReady_run false cfg maxAttempts interval c w)
      as (c' & w' & [Hok | [Hthrow Hexit]]); exists w'; [now left | right].
    apply exit_delivered_none in Hexit. subst c'. exact Hthrow.
  - reflexivity.
  - destruct (waitForServerReady_run true cfg maxAttempts interval c w)
      as (c' & w' & [Hok | [Hthrow Hexit]]); exists c', w'; [now left | right].
    split; [exact Hthrow |]. destruct Hexit as [-> | [_ ->]]; auto.
Qed.

Lemma initialize_run spawned cfg (c : MCPClient.t) (w : World) :
  exists (b : bool) c' w',
    initialize spawned cfg (c, w) = (Ok b, (c', w'))
    /\ MCPClient.isInitialized c' = b
    /\ MCPClient.name c' = MCPClient.name c
    /\ MCPClient.apiEndpoint c' = MCPClient.apiEndpoint c.
Proof.
  unfold initialize, try_catch, bind at 1.
  destruct (checkServerHealth_returns spawned cfg c w) as (running & c1 & w1 & -> & Hexit1).
  destruct (exit_delivered_fields _ _ _ Hexit1) as (Hn1 & He1 & _).
  destruct running.
  - unfold bind at 1.
    destruct (discoverEndpoints_returns spawned c1 w1) as (c2 & w2 & -> & Hexit2).
    destruct (exit_delivered_fields _ _ _ Hexit2) as (Hn2 & He2 & _).
    eexists true, _, w2. split; [reflexivity |]. cbn. repeat split; congruence.
  - unfold bind at 1, startServerProcess, bind at 1.
    destruct (spawn (command cfg) (args cfg) w1) as [[[] | e] w2].
    + unfold sleep.
      destruct (await_runs true (fun w0 => (Ok tt, setTimeout 5000 w0)) c1 w2)
        as (o & c2 & w3 & -> & Ho & Hexit2). cbn [fst] in Ho. subst o.
      destruct (exit_delivered_fields _ _ _ Hexit2) as (Hn2 & He2 & _).
      unfold bind at 1.
      destruct (waitForServerReady_run true cfg 30 2000 c2 w3)
        as (c3 & w4 & [-> | [-> Hexit3]]).
      * unfold bind at 1.
        destruct (discoverEndpoints_returns true (MCPClient.set_isConnected true c2) w4)
          as (c4 & w5 & -> & Hexit4).
        destruct (exit_delivered_fields _ _ _ Hexit4) as (Hn4 & He4 & _).
        eexists true, _, w5. split; [reflexivity |]. cbn in *. repeat split; congruence.
      * destruct (exit_delivered_fields _ _ _ Hexit3) as (Hn3 & He3 & _).
        eexists false, _, w4. split; [reflexivity |]. cbn. repeat split; congruence.
    + eexists false, _, w2. split; [reflexivity |]. cbn. repeat split; congruence.
Qed.

(** X22. Initializing a client never throws, whether or not the client
    already holds a child process.  The value it returns is the value of
    [isInitialized] afterwards; the name and the endpoint are not
    changed. *)
Theorem initialize_reports_state spawned cfg (c : MCPClient.t) (w : World) :
  exists (b : bool) c' w',
    initialize spawned cfg (c, w) = (Ok b, (c', w'))
    /\ MCPClient.isInitialized c' = b
    /\ MCPClient.name c' = MCPClient.name c
    /\ MCPClient.apiEndpoint c' = MCPClient.apiEndpoint c.
Proof. apply initialize_run. Qed.

(** X23. When the server already answers its health check, the client is
    initialized and connected without a process being started: the world
    afterwards is the one the probe and the discovery of endpoints left. *)
Theorem initialize_server_running spawned cfg (c c1 : MCPClient.t) (w w1 : World) :
  checkServerHealth spawned cfg (c, w) = (Ok true, (c1, w1)) ->
  initialize spawned cfg (c, w)
  = (Ok true,
     (set_isInitialized true (MCPClient.set_isConnected true c),
      snd (snd (discoverEndpoints spawned (c1, w1))))).
Proof.
  intros Hhealth. unfold initialize, try_catch, bind at 1. rewrite Hhealth.
  destruct (checkServerHealth_returns spawned cfg c w) as (b & c1' & w1' & Hrun & Hexit1).
  rewrite Hhealth in Hrun. inversion Hrun; subst b c1' w1'.
  unfold bind at 1.
  destruct (discoverEndpoints_returns spawned c1 w1) as (c2 & w2 & -> & Hexit2).
  pose proof (exit_delivered_trans _ _ _ _ Hexit1 Hexit2) as Hboth.
  destruct (exit_delivered_fields _ _ _ Hboth) as (_ & _ & _ & Hsame).
  unfold bind, modify, ret. cbn [snd]. now rewrite Hsame.
Qed.
End Lifecycle.

(** ** Model clients, the catalogue and switching *)

Section Models.
Import ModelRegistry.

(** X24. A model of the catalogue is reported available exactly when
    [getModel] returns a handle for its id, that is, exactly when it can be
    switched to. *)
Theorem available_iff_getModel (mm : ModelManager.t) (id : string) :
  (exists info, info ∈ getAvailableModels mm /\ mi_id info = id /\ mi_available info = true)
  <-> (exists model, ModelManager.getModel mm id = Ok model).
Proof.
  unfold getAvailableModels, ModelManager.getModel. split.
  - intros (info & Hin & Hid & Havail).
    apply list_elem_of_In, List.in_map_iff in Hin as (cfg & <- & Hcfg). simpl in *.
    apply bool_decide_eq_true_1 in Havail as [client Hclient]. subst id. rewrite Hclient.
    destruct (List.find (fun m => bool_decide (m_id m = m_id cfg)) (ModelManager.availableModels mm))
      as [config |] eqn:Hfind; [now eexists |].
    exfalso. pose proof (List.find_none _ _ Hfind cfg Hcfg) as Hnone. simpl in Hnone.
    now rewrite bool_decide_eq_true_2 in Hnone.
  - intros (model & Hget).
    destruct (ModelManager.modelClients mm !! id) as [client |] eqn:Hclient; [| discriminate].
    destruct (List.find (fun m => bool_decide (m_id m = id)) (ModelManager.availableModels mm))
      as [config |] eqn:Hfind; [| discriminate].
    apply List.find_some in Hfind as [Hcfg Hid]. apply bool_decide_eq_true_1 in Hid.
    eexists. split; [apply list_elem_of_In, List.in_map; exact Hcfg |]. simpl.
    split; [exact Hid |]. rewrite Hid, Hclient. now apply bool_decide_eq_true_2.
Qed.

Section Clients.
Context {World : Type} `{Platform World}.

Lemma initialize_loop_clients (configs : list ModelConfig) :
  forall (mm : ModelManager.t) (w : World),
  exists mm' w',
    initialize_loop configs (mm, w) = (Ok tt, (mm', w'))
    /\ ModelManager.availableModels mm' = ModelManager.availableModels mm
    /\ ModelManager.currentModel mm' = ModelManager.currentModel mm
    /\ (forall id client,
          ModelManager.modelClients mm' !! id = Some client ->
          ModelManager.modelClients mm !! id = Some client
          \/ (client_class id = Some client /\ id ∈ List.map m_id configs))
    /\ (forall id, client_class id = None ->
          ModelManager.modelClients mm' !! id = ModelManager.modelClients mm !! id).
Proof.
  induction configs as [| cfg rest IH]; intros mm w; simpl.
  - exists mm, w. repeat split; auto.
  - unfold bind at 1, try_catch at 1.
    destruct (client_class (m_id cfg)) as [client |] eqn:Hclass.
    + unfold bind at 1.
      destruct (client_initialize client cfg w) as [[[] | e] w1].
      * unfold modify at 1.
        destruct (IH (set_client (m_id cfg) client mm) w1)
          as (mm' & w' & Hrun & Hmodels & Hcurrent & Hclients & Hnone).
        exists mm', w'. split; [exact Hrun |]. split; [exact Hmodels |].
        split; [exact Hcurrent |]. split.
        -- intros id k Hk. destruct (Hclients id k Hk) as [Hold | [Hc Hin]].
           ++ unfold set_client in Hold. simpl in Hold.
              destruct (decide (m_id cfg = id)) as [<- | Hne].
              ** rewrite lookup_insert_eq in Hold. inversion Hold; subst k.
                 right. split; [exact Hclass | now left].
              ** rewrite lookup_insert_ne in Hold by exact Hne. now left.
           ++ right. split; [exact Hc | now right].
        -- intros id Hid. rewrite (Hnone id Hid). unfold set_client. simpl.
           apply lookup_insert_ne. intros <-. congruence.
      * simpl. destruct (IH mm w1) as (mm' & w' & Hrun & Hmodels & Hcurrent & Hclients & Hnone).
        exists mm', w'. split; [exact Hrun |]. repeat split; auto.
        intros id k Hk. destruct (Hclients id k Hk) as [Hold | [Hc Hin]];
          [now left | right; split; [exact Hc | now right]].
    + simpl. destruct (IH mm w) as (mm' & w' & Hrun & Hmodels & Hcurrent & Hclients & Hnone).
      exists mm', w'. split; [exact Hrun |]. repeat split; auto.
      intros id k Hk. destruct (Hclients id k Hk) as [Hold | [Hc Hin]];
        [now left | right; split; [exact Hc | now right]].
Qed.

(** X25. Initializing the model clients never throws, whatever the clients
    do.  Afterwards a model id has a client only if it had that client
    before, or if it is the id of a configured model and the client is of
    the class the id selects; an id that selects no class gets no client. *)
Theorem initializeModelClients_by_id (mm : ModelManager.t) (w : World) :
  exists mm' w',
    initializeModelClients (mm, w) = (Ok tt, (mm', w'))
    /\ ModelManager.availableModels mm' = ModelManager.availableModels mm
    /\ (forall id client,
          ModelManager.modelClients mm' !! id = Some client ->
          ModelManager.modelClients mm !! id = Some client
          \/ (client_class id = Some client
              /\ id ∈ List.map m_id (ModelManager.availableModels mm)))
    /\ (forall id, client_class id = None ->
          ModelManager.modelClients mm' !! id = ModelManager.modelClients mm !! id).
Proof.
  unfold initializeModelClients, bind, get. cbn [fst].
  destruct (initialize_loop_clients (ModelManager.availableModels mm) mm w)
    as (mm' & w' & Hrun & Hmodels & _ & Hclients & Hnone).
  exists mm', w'. now repeat split.
Qed.
End Clients.

Section SwitchRoute.
Context {World : Type}.
Import MCPBridge.

(** X26. The switch route keeps the two holders of the active model in
    step.  When it answers with the model switched to, the model manager and
    the bridge hold the same handle, the one [getModel] returns for the
    requested id.  In every other case, a missing id or a model that cannot
    be got, nothing has changed.  The handler never throws. *)
Theorem switch_route_in_step (modelId : option string) (s : Sys World) :
  let '(o, s') := ModelsRoute.switch modelId s in
  match o with
  | Ok (ModelsRoute.Switched id name type) =>
      exists model,
        modelId = Some id
        /\ ModelManager.getModel (modelManager s) id = Ok model
        /\ ModelManager.currentModel (modelManager s') = Some model
        /\ currentModel (bridge s') = Some model
        /\ h_id model = id /\ h_name model = name /\ h_type model = type
        /\ toolManager s' = toolManager s /\ world s' = world s
  | Ok _ => s' = s
  | Throw _ => False
  end.
Proof.
  unfold ModelsRoute.switch, try_catch.
  destruct modelId as [id |]; [| reflexivity].
  case_bool_decide as Hid; [reflexivity |].
  unfold bind at 1, ModelRegistry.switchModel, bind at 1, get at 1, bind at 1.
  destruct (ModelManager.getModel (modelManager s) id) as [model | e] eqn:Hget;
    [| reflexivity].
  unfold bind at 1, modify at 1, ret at 1.
  unfold bind at 1, switchModel. rewrite try_catch_rethrow.
  unfold bind at 1, get at 1, bind at 1. cbn [modelManager].
  assert (ModelManager.getModel (ModelRegistry.set_currentModel model (modelManager s)) id
          = Ok model) as Hagain.
  { unfold ModelManager.getModel in *. exact Hget. }
  rewrite Hagain. unfold bind, modify, ret. simpl.
  assert (h_id model = id) as Hmodel.
  { unfold ModelManager.getModel in Hget.
    destruct (ModelManager.modelClients (modelManager s) !! id); [| discriminate].
    destruct (List.find _ _); [| discriminate]. now inversion Hget. }
  exists model. rewrite Hmodel. now repeat split.
Qed.
End SwitchRoute.
End Models.

(** ** The chat route *)

Section Chat.
Context {World : Type} `{Host World} `{Platform World}.
Import MCPBridge ChatRoute.

Lemma processUserRequest_returns conversationId userMessage uploadedFiles (s : Sys World) :
  exists r s', processUserRequest conversationId userMessage uploadedFiles s = (Ok r, s').
Proof.
  unfold processUserRequest.
  match goal with |- context [try_catch ?m _ _] =>
    destruct (try_catch_returns m (error_response conversationId) s) as (r & s' & Hrun) end.
  now exists r, s'.
Qed.

Lemma in_world_run {A} (f : World -> A * World) convs (s : Sys World) :
  in_world f (convs, s)
  = (Ok (fst (f (world s))), (convs, with_world s (snd (f (world s))))).
Proof. unfold in_world. now destruct (f (world s)). Qed.

(** X27. The handler of [POST /message] never throws.  A request without a
    message or without a conversation id is refused and changes nothing.
    Every other request is answered with the bridge's response: the route's
    history of that conversation grows by exactly two messages, the user's
    and then the answer carrying the response, the tools used and the
    confidence; other conversations are untouched, and the branch that
    reports a processing failure is never taken. *)
Theorem post_message_history (message conversationId : option string)
    (files : option (list FileRecord)) (io : bool)
    (convs : gmap string (list ChatMessage)) (s : Sys World) :
  let '(o, (convs', s')) := post_message message conversationId files io (convs, s) in
  if absent message then
    o = Ok (BadRequest "Message is required") /\ convs' = convs /\ s' = s
  else if absent conversationId then
    o = Ok (BadRequest "Conversation ID is required") /\ convs' = convs /\ s' = s
  else
    exists text id userMessage aiMessage result s1 s2,
      message = Some text /\ conversationId = Some id
      /\ bridge s1 = bridge s /\ toolManager s1 = toolManager s
      /\ modelManager s1 = modelManager s
      /\ processUserRequest id text (default [] files) s1 = (Ok result, s2)
      /\ o = Ok (Answer aiMessage (r_toolsUsed result) (r_confidence result))
      /\ convs' !! id = Some (default [] (convs !! id) ++ [userMessage; aiMessage])
      /\ (forall other, other <> id -> convs' !! other = convs !! other)
      /\ cm_text userMessage = text /\ cm_sender userMessage = "user"
      /\ cm_text aiMessage = r_response result /\ cm_sender aiMessage = "ai"
      /\ cm_error aiMessage = false.
Proof.
  unfold post_message, try_catch at 1.
  destruct message as [text |]; [| now repeat split]. simpl absent.
  case_bool_decide as Htext; [now repeat split |].
  destruct conversationId as [id |]; [| now repeat split]. simpl absent.
  case_bool_decide as Hid; [now repeat split |].
  set (convs0 := match convs !! id with Some _ => convs | None => <[id := []]> convs end).
  assert (default [] (convs0 !! id) = default [] (convs !! id)) as Hsame.
  { subst convs0. destruct (convs !! id) eqn:Hget; [now rewrite Hget | now rewrite lookup_insert_eq]. }
  assert (forall other, other <> id -> convs0 !! other = convs !! other) as Hother.
  { intros other Hne. subst convs0.
    destruct (convs !! id); [reflexivity | now rewrite lookup_insert_ne by congruence]. }
  erewrite bind_ok by reflexivity.
  erewrite bind_ok by apply in_world_run.
  erewrite bind_ok by apply in_world_run.
  erewrite bind_ok by reflexivity.
  match goal with |- context [try_catch _ _ (?c, ?st)] =>
    set (c1 := c); set (s1 := st) end.
  destruct (processUserRequest_returns id text (default [] files) s1) as (result & s2 & Hrun).
  destruct io.
  all: erewrite try_catch_ok;
    [| erewrite bind_ok by (unfold in_bridge; now rewrite Hrun);
       erewrite bind_ok by apply in_world_run;
       erewrite bind_ok by apply in_world_run;
       erewrite bind_ok by reflexivity;
       erewrite bind_ok by reflexivity; reflexivity].
  all: cbv beta iota;
    eexists text, id, _, _, result, s1, s2;
    repeat match goal with |- _ /\ _ => split end;
    try reflexivity; try exact Hrun.
  all: try (intros other Hne; rewrite lookup_insert_ne by congruence;
            subst c1; rewrite lookup_insert_ne by congruence; now apply Hother).
  all: try (rewrite lookup_insert_eq; subst c1; rewrite lookup_insert_eq; cbn [default];
            fold convs0; rewrite Hsame; unfold Datatypes.id;
            rewrite <- app_assoc; reflexivity).
  all: reflexivity.
Qed.
End Chat.

(** ** Text helpers *)

Section TextHelpers.
Import Text.

Lemma safe_underscore : safe "_"%char = false.
Proof. reflexivity. Qed.

Lemma sanitizeFilename_length filename :
  String.length (sanitizeFilename filename) = String.length filename.
Proof. induction filename as [| c rest IH]; simpl; [reflexivity | now rewrite IH]. Qed.

Lemma sanitizeFilename_safe filename :
  string_forall safe filename = true -> sanitizeFilename filename = filename.
Proof.
  induction filename as [| c rest IH]; simpl; [reflexivity |].
  intros Hall. apply andb_true_iff in Hall as [Hc Hrest].
  now rewrite Hc, IH.
Qed.

Lemma sanitizeFilename_class filename :
  string_forall (fun c => safe c || Ascii.eqb c "_") (sanitizeFilename filename) = true.
Proof.
  induction filename as [| c rest IH]; simpl; [reflexivity |].
  rewrite IH, andb_true_r.
  destruct (safe c) eqn:Hc; [now rewrite Hc | reflexivity].
Qed.

Lemma sanitizeFilename_idempotent filename :
  sanitizeFilename (sanitizeFilename filename) = sanitizeFilename filename.
Proof.
  induction filename as [| c rest IH]; simpl; [reflexivity |].
  rewrite IH. destruct (safe c) eqn:Hc; [now rewrite Hc | now rewrite safe_underscore].
Qed.

Lemma string_forall_has_char p s c :
  string_forall p s = true -> p c = false -> has_char c s = false.
Proof.
  induction s as [| d rest IH]; simpl; [reflexivity |].
  intros Hall Hc. apply andb_true_iff in Hall as [Hd Hrest].
  rewrite IH by assumption. rewrite orb_false_r.
  destruct (Ascii.eqb_spec d c) as [-> | Hne]; [congruence | reflexivity].
Qed.

(** X28. [sanitizeFilename] keeps the length of the name, returns only
    letters, digits, dots, hyphens and underscores, so that the result holds
    neither a slash nor a backslash, and sanitizing twice changes nothing
    more.  A name made of allowed characters only is returned as it is: dots
    are allowed, so a name made of dots stays. *)
Theorem sanitizeFilename_result (filename : string) :
  String.length (sanitizeFilename filename) = String.length filename
  /\ string_forall (fun c => safe c || Ascii.eqb c "_") (sanitizeFilename filename) = true
  /\ has_char "/" (sanitizeFilename filename) = false
  /\ has_char "\" (sanitizeFilename filename) = false
  /\ sanitizeFilename (sanitizeFilename filename) = sanitizeFilename filename
  /\ (string_forall safe filename = true -> sanitizeFilename filename = filename)
  /\ (string_forall (Ascii.eqb ".") filename = true -> sanitizeFilename filename = filename).
Proof.
  repeat split.
  - apply sanitizeFilename_length.
  - apply sanitizeFilename_class.
  - now apply (string_forall_has_char _ _ _ (sanitizeFilename_class filename)).
  - now apply (string_forall_has_char _ _ _ (sanitizeFilename_class filename)).
  - apply sanitizeFilename_idempotent.
  - apply sanitizeFilename_safe.
  - intros Hdots. apply sanitizeFilename_safe.
    induction filename as [| c rest IH]; cbn [string_forall] in *; [reflexivity |].
    apply andb_true_iff in Hdots as [Hc Hrest].
    apply Ascii.eqb_eq in Hc as <-. now rewrite IH.
Qed.

Lemma length_append (s t : string) :
  String.length (s +:+ t) = (String.length s + String.length t)%nat.
Proof.
  induction s as [| c rest IH]; [now rewrite append_nil |].
  rewrite append_cons. simpl. now rewrite IH.
Qed.

Lemma substring_prefix (n : nat) (s : string) :
  exists rest, s = String.substring 0 n s +:+ rest
               /\ String.length (String.substring 0 n s) = Nat.min n (String.length s).
Proof.
  revert n. induction s as [| c s IH]; intros n.
  - exists EmptyString. destruct n; simpl; now rewrite ?append_nil.
  - destruct n as [| n].
    + exists (String c s). simpl. now rewrite append_nil.
    + destruct (IH n) as (rest & Heq & Hlen). exists rest. simpl.
      rewrite append_cons, <- Heq, Hlen. now split.
Qed.

(** X29. [truncateText] on a text longer than [maxLength]: the result is a
    prefix of the text followed by the suffix, and its length is the larger
    of [maxLength] and the length of the suffix; so it fits in [maxLength]
    exactly when the suffix does, and with a longer suffix the result is the
    suffix alone. *)
Theorem truncateText_long (text : string) (maxLength : Z) (suffix : string)
    (Hlong : (maxLength < Z.of_nat (String.length text))%Z)
    (Htext : text <> EmptyString) :
  exists kept rest,
    truncateText text maxLength suffix = kept +:+ suffix
    /\ text = kept +:+ rest
    /\ Z.of_nat (String.length (truncateText text maxLength suffix))
       = Z.max maxLength (Z.of_nat (String.length suffix))
    /\ ((maxLength < Z.of_nat (String.length suffix))%Z -> kept = EmptyString).
Proof.
  unfold truncateText.
  rewrite bool_decide_eq_false_2 by assumption.
  destruct (Z.leb_spec (Z.of_nat (String.length text)) maxLength) as [Hle | _]; [lia |].
  cbn [orb].
  set (n := Z.to_nat (maxLength - Z.of_nat (String.length suffix))).
  destruct (substring_prefix n text) as (rest & Heq & Hlen).
  exists (String.substring 0 n text), rest. repeat split.
  - exact Heq.
  - rewrite length_append, Hlen. subst n. lia.
  - intros Hshort. replace n with 0%nat by (subst n; lia).
    now destruct text.
Qed.

(** X29, witness: eleven characters cut to eight. *)
Lemma truncateText_long_witness :
  exists kept rest,
    truncateText "hello world" 8 "..." = kept +:+ "..."
    /\ "hello world" = kept +:+ rest
    /\ Z.of_nat (String.length (truncateText "hello world" 8 "..."))
       = Z.max 8 (Z.of_nat (String.length "..."))
    /\ ((8 < Z.of_nat (String.length "..."))%Z -> kept = EmptyString).
Proof. apply (truncateText_long "hello world" 8 "..."); [simpl; lia | discriminate]. Defined.

(** A text that fits, and the empty text, are returned as they are. *)
Lemma truncateText_short (text : string) (maxLength : Z) (suffix : string) :
  (Z.of_nat (String.length text) <= maxLength)%Z \/ text = EmptyString ->
  truncateText text maxLength suffix = text.
Proof.
  unfold truncateText. intros [Hle | ->]; [| reflexivity].
  destruct (Z.leb_spec (Z.of_nat (String.length text)) maxLength); [| lia].
  now rewrite orb_true_r.
Qed.
End TextHelpers.

(** ** The properties with a precondition, on concrete runs *)

Section Checks.
Import Fixture DiskHost Station.

Lemma disconnected_client_fails_fast_witness :
  MCPClient.executeTool "extract_all_from_pdf" no_overrides (offline_client, world_down)
  = (Throw (Error ("MCP server " +:+ MCPClient.name offline_client +:+ " is not connected")),
     (offline_client, world_down)).
Proof.
  apply (disconnected_client_fails_fast offline_client world_down
           "extract_all_from_pdf" no_overrides).
  reflexivity.
Defined.

Lemma unavailable_tool_not_dispatched_witness :
  exists e,
    ToolManager.executeTool "extract_all_from_pdf" no_overrides
      (tools_without_server, world_down)
    = (Throw e, (tools_without_server, world_down)).
Proof.
  apply (unavailable_tool_not_dispatched tools_without_server world_down
           "extract_all_from_pdf" no_overrides).
  intros toolConfig Hget. vm_compute in Hget. injection Hget as <-.
  vm_compute. reflexivity.
Defined.

Lemma synthesizeResponse_without_success_witness :
  MCPBridge.synthesizeResponse "analyze" failed_results [] (system tools world_down)
  = (Ok ("I encountered errors while processing your request: "
         +:+ join "; "
               (List.map (fun r => toolId r +:+ ": " +:+ default "undefined" (error r))
                  failed_results)
         +:+ ". Please check your files and try again."),
     system tools world_down).
Proof.
  exact (synthesizeResponse_without_success "analyze" failed_results []
           (system tools world_down) eq_refl).
Defined.

Lemma synthesizeResponse_model_failure_witness :
  MCPBridge.synthesizeResponse "analyze" two_results [] (system tools world_down)
  = (MCPBridge.generateFallbackResponse (JSON_stringify (World := Script)) two_results,
     system tools world_down)
  /\ exists text,
      MCPBridge.generateFallbackResponse (JSON_stringify (World := Script)) two_results
      = Ok text.
Proof.
  destruct (synthesizeResponse_model_failure "analyze" two_results []
              (system tools world_down) (system tools world_down) deepseek_handle
              (Error "API key not set")) as (Hrun & Htext & _).
  - discriminate.
  - reflexivity.
  - vm_compute. reflexivity.
  - split; [exact Hrun |]. apply Htext. repeat constructor.
Defined.

Lemma retryWithBackoff_succeeds_after_witness :
  Helpers.retryWithBackoff Probe.delay Probe.call 3 1000 third_time
  = (Ok (Some 7%Z), {| Probe.pending := []; Probe.calls := 3; Probe.slept := 3000 |}).
Proof.
  apply (retryWithBackoff_succeeds_after 3 1000 [refused; server_error] 7%Z []).
  simpl. lia.
Defined.

Lemma executeDockerTool_unreadable_file_witness :
  ToolManager.executeDockerTool pdf_analyzer with_report (tools, empty_disk)
  = (Throw (Error "File report.pdf not found or not readable"), (tools, empty_disk))
  /\ fst (tools, empty_disk) = tools
  /\ exists file, file ∈ files with_report
                  /\ Error "File report.pdf not found or not readable"
                     = Error ("File " +:+ f_name file +:+ " not found or not readable").
Proof.
  apply (executeDockerTool_unreadable_file tools empty_disk pdf_analyzer with_report
           "http://localhost:8080").
  - reflexivity.
  - discriminate.
  - vm_compute. reflexivity.
Defined.

Lemma no_key_no_request_witness :
  Claude.generateResponse "hello" EmptyString (keyless, net_up)
  = (Throw (Error "Anthropic API key not set"), (keyless, net_up))
  /\ Claude.healthCheck (keyless, net_up) = (Ok false, (keyless, net_up))
  /\ Claude.initialize (keyless, net_up) = (Ok false, (keyless, net_up)).
Proof.
  apply (no_key_no_request keyless net_up "hello" EmptyString). reflexivity.
Defined.

Lemma initialize_server_running_witness :
  MCPServer.initialize false server_config (offline_client, net_up)
  = (Ok true,
     (MCPServer.set_isInitialized true (MCPClient.set_isConnected true offline_client),
      snd (snd (MCPServer.discoverEndpoints false (offline_client, net_checked))))).
Proof.
  apply (initialize_server_running false server_config offline_client offline_client
           net_up net_checked).
  vm_compute. reflexivity.
Defined.

(** A client reported initialized need not be connected: the server is
    down, the child that is spawned brings it up and exits while the
    endpoints are discovered; [initialize] returns [true] and the client is
    left initialized and not connected. *)
Lemma initialize_child_exits :
  exists c' w',
    MCPServer.initialize false server_config (offline_client, net_short_lived)
    = (Ok true, (c', w'))
    /\ MCPClient.isInitialized c' = true
    /\ MCPClient.isConnected c' = false.
Proof. eexists _, _. split; [vm_compute; reflexivity |]. now split. Qed.
End Checks.
